(** * Fiscal document emission (tools/fiscal.ts): a shallow embedding

    The emission workflow of the MCP server: credential and endpoint
    resolution, the goods (NFe) and service (NFSe) payload builders, the
    gateway client [focusFetch] and the two tool handlers [emit_nfe] and
    [emit_nfse], which read and write four tables of a relational store.

    Conventions of the embedding.
    - A nullable text column or JSON field is an [option string]; [None]
      stands for both [null] and [undefined], except where the code tells
      them apart: the [status] of a gateway answer has [resp_status_null].
    - Strings are byte strings. [toUpperCase], [trim] and the white space
      skipped by [parseInt] are those of JavaScript on ASCII text
      ([Js.ascii_text]) and are not modelled beyond it; the statements that
      depend on them say so.
    - Numbers that are only carried from a row into a payload are rationals.
      [parseInt] yields [option Z] ([None] is [NaN], which JSON serialises
      as [null]); it is the number JavaScript computes when that number is
      a safe integer ([Js.exact_number]), and no rounding to a double is
      modelled beyond it.
    - A code table is an object literal: a key it does not have is looked
      up in [Object.prototype] ([Js.get]).
    - The clock, the random source, the process environment and the remote
      gateway are inputs, gathered in the record [Runtime].
    - The store is reliable: a read or write to it never returns an error.
      The two emission handlers are run with the client of the store in
      place; [get_nota_fiscal] shows the call of [getSupabase], which
      throws without it. *)

From Stdlib Require Import String Ascii List ZArith QArith Bool Lia.
From Stdlib Require Import DecimalString.
From Stdlib Require Import Permutation Sorted.
Import ListNotations.

Close Scope Q_scope.
Open Scope string_scope.

(** ** JavaScript primitives used by the module *)

Module Js.

(** Truthiness of a nullable string: [null], [undefined] and [''] are
    falsy. *)
Definition truthy (v : option string) : bool :=
  match v with
  | Some (String _ _) => true
  | _ => false
  end.

(** [a || b] on nullable strings. *)
Definition or (a b : option string) : option string :=
  if truthy a then a else b.

(** [a || 'literal']. *)
Definition or_lit (a : option string) (d : string) : string :=
  match a with
  | Some (String c s) => String c s
  | _ => d
  end.

(** Truthiness of a nullable number: [null], [undefined] and [0]. *)
Definition truthy_num (v : option Q) : bool :=
  match v with
  | Some q => negb (Qeq_bool q 0)
  | None => false
  end.

Definition or_num (a b : option Q) : option Q :=
  if truthy_num a then a else b.

(** [a || 0] and the like, on nullable numbers. *)
Definition or_num_lit (a : option Q) (d : Q) : Q :=
  match a with
  | Some q => if Qeq_bool q 0 then d else q
  | None => d
  end.

(** A character of ASCII, and a text made of them. *)
Definition is_ascii (c : ascii) : bool := (nat_of_ascii c <? 128)%nat.

Definition ascii_text (s : string) : bool :=
  forallb is_ascii (list_ascii_of_string s).

Definition is_lower (c : ascii) : bool :=
  (97 <=? nat_of_ascii c)%nat && (nat_of_ascii c <=? 122)%nat.

Definition upper_char (c : ascii) : ascii :=
  if is_lower c then ascii_of_nat (nat_of_ascii c - 32) else c.

(** [s.toUpperCase()] for an ASCII text [s]: the letters a to z are
    raised and nothing else changes. Letters outside ASCII, which the code
    raises too, are left as they are. *)
Fixpoint toUpperCase (s : string) : string :=
  match s with
  | EmptyString => EmptyString
  | String c s' => String (upper_char c) (toUpperCase s')
  end.

Definition is_digit (c : ascii) : bool :=
  (48 <=? nat_of_ascii c)%nat && (nat_of_ascii c <=? 57)%nat.

(** [s.replace(/\D/g, '')]. *)
Fixpoint strip_non_digits (s : string) : string :=
  match s with
  | EmptyString => EmptyString
  | String c s' =>
      if is_digit c then String c (strip_non_digits s')
      else strip_non_digits s'
  end.

(** [s.substring(a, b)] for [a <= b]. *)
Definition substring (a b : nat) (s : string) : string :=
  String.substring a (b - a) s.

(** The white space and line terminators of ASCII. JavaScript has more of
    them outside ASCII (U+00A0, U+FEFF, ...), which are not modelled. *)
Definition is_space (c : ascii) : bool :=
  match nat_of_ascii c with
  | 9 | 10 | 11 | 12 | 13 | 32 => true
  | _ => false
  end%nat.

Fixpoint trim_start (s : string) : string :=
  match s with
  | String c s' => if is_space c then trim_start s' else s
  | EmptyString => EmptyString
  end.

Definition digit_val (c : ascii) : Z := Z.of_nat (nat_of_ascii c - 48).

(** The longest prefix of decimal digits, as a number; [acc] is [None]
    until a digit has been read. *)
Fixpoint digits_prefix (s : string) (acc : option Z) : option Z :=
  match s with
  | String c s' =>
      if is_digit c then
        digits_prefix s'
          (Some (10 * match acc with Some a => a | None => 0 end
                 + digit_val c)%Z)
      else acc
  | EmptyString => acc
  end.

(** [parseInt(s, 10)] as an exact integer, for an ASCII text [s]. The code
    gets the nearest double, which is this integer up to 2^53 - 1. *)
Definition parseInt10 (s : string) : option Z :=
  match trim_start s with
  | String "-" s' => option_map Z.opp (digits_prefix s' None)
  | String "+" s' => digits_prefix s' None
  | s' => digits_prefix s' None
  end.

(** [Number.isSafeInteger(z)]. *)
Definition safe_integer (z : Z) : bool :=
  (Z.abs z <=? 9007199254740991)%Z.

(** The texts on which [parseInt10] is the code's [parseInt]: ASCII, and
    the number read, if any, is a safe integer. *)
Definition exact_number (s : string) : bool :=
  ascii_text s
  && match parseInt10 s with
     | Some z => safe_integer z
     | None => true
     end.

(** [String(n)] for an integer. *)
Definition string_of_Z (z : Z) : string :=
  NilZero.string_of_int (Z.to_int z).

(** [xs.join(sep)]; a [null] or [undefined] element prints as ['']. *)
Fixpoint join (sep : string) (xs : list (option string)) : string :=
  match xs with
  | [] => ""
  | [x] => match x with Some s => s | None => "" end
  | x :: rest =>
      (match x with Some s => s | None => "" end) ++ sep ++ join sep rest
  end.

(** The names every plain object inherits from [Object.prototype]. *)
Definition Object_prototype : list string :=
  [ "constructor"; "__defineGetter__"; "__defineSetter__"; "hasOwnProperty";
    "__lookupGetter__"; "__lookupSetter__"; "isPrototypeOf";
    "propertyIsEnumerable"; "toString"; "valueOf"; "__proto__";
    "toLocaleString" ].

Definition inherited (k : string) : bool :=
  existsb (String.eqb k) Object_prototype.

(** What [table[k]] reads from a table written as an object literal: a
    value of its own, a member of [Object.prototype] (a function, or the
    prototype itself for [__proto__]), or [undefined]. *)
Inductive Member (A : Type) :=
| Own (a : A)
| Inherited
| Undefined.
Arguments Own {A} a.
Arguments Inherited {A}.
Arguments Undefined {A}.

(** [table[k]], where [own] holds the properties of the literal. *)
Definition get {A} (own : string -> option A) (k : string) : Member A :=
  match own k with
  | Some a => Own a
  | None => if inherited k then Inherited else Undefined
  end.

(** [table[k] || 'code']. An inherited member is truthy, so that the
    default is not taken, and it is no code: [None]. In the JSON of a
    payload a function is left out and the prototype prints as an empty
    object. *)
Definition code_or (m : Member string) (d : string) : option string :=
  match m with
  | Own (String c s) => Some (String c s)
  | Own EmptyString | Undefined => Some d
  | Inherited => None
  end.

(** [table[k] || code] for a numeric table: a missing key and [0] both
    give the default. *)
Definition num_code_or (m : Member Z) (d : Z) : option Z :=
  match m with
  | Own 0%Z | Undefined => Some d
  | Own z => Some z
  | Inherited => None
  end.

End Js.

(** ** Code tables and small helpers *)

(** The three tables are object literals; each definition gives the
    properties the literal has of its own, and [Js.get] reads a key. *)
Definition ICMS_ORIGEM_MAP (k : string) : option string :=
  if k =? "nacional" then Some "0"
  else if k =? "estrangeira_importacao" then Some "1"
  else if k =? "estrangeira_mercado_interno" then Some "2"
  else if k =? "nacional_importado_40_70" then Some "3"
  else if k =? "nacional_processos" then Some "4"
  else if k =? "nacional_importado_70" then Some "5"
  else if k =? "estrangeira_sem_similar" then Some "6"
  else if k =? "estrangeira_adquirida_mercado" then Some "7"
  else if k =? "nacional_importado_70_substituido" then Some "8"
  else None.

Definition PRESENCA_MAP (k : string) : option Z :=
  if k =? "nao_se_aplica" then Some 0%Z
  else if k =? "presencial" then Some 1%Z
  else if k =? "internet" then Some 2%Z
  else if k =? "televendas" then Some 3%Z
  else if k =? "entrega_domicilio" then Some 4%Z
  else if k =? "presencial_fora" then Some 5%Z
  else if k =? "outros" then Some 9%Z
  else None.

Definition FINALIDADE_MAP (k : string) : option Z :=
  if k =? "normal" then Some 1%Z
  else if k =? "complementar" then Some 2%Z
  else if k =? "ajuste" then Some 3%Z
  else if k =? "devolucao" then Some 4%Z
  else None.

Definition DEFAULT_CSOSN : string := "102".
Definition PIS_COFINS_CST_SIMPLES : string := "99".

Definition isMesmoEstado (ufEmitente ufDestinatario : string) : bool :=
  Js.toUpperCase ufEmitente =? Js.toUpperCase ufDestinatario.

Definition getCfopVenda (dentroEstado st : bool) : string :=
  if dentroEstado then (if st then "5405" else "5102")
  else (if st then "6405" else "6102").

(** ** Rows of the store *)

(** A row of [notas_fiscais]. The first block is written by the draft
    editor and only read here; the second block is written by emission. *)
Record NotaFiscal := {
  nf_id : string;
  nf_organization_id : string;
  nf_tipo : string;
  nf_natureza_operacao : option string;
  nf_finalidade : option string;
  nf_indicador_presenca : option string;
  nf_destinatario_tipo : option string;
  nf_destinatario_nome : option string;
  nf_destinatario_cpf_cnpj : option string;
  nf_destinatario_ie : option string;
  nf_destinatario_telefone : option string;
  nf_destinatario_email : option string;
  nf_destinatario_logradouro : option string;
  nf_destinatario_numero : option string;
  nf_destinatario_complemento : option string;
  nf_destinatario_bairro : option string;
  nf_destinatario_municipio : option string;
  nf_destinatario_uf : option string;
  nf_destinatario_cep : option string;
  nf_destinatario_codigo_municipio : option string;
  nf_valor_total : option Q;
  nf_informacoes_adicionais : option string;
  nf_aliquota_iss : option Q;
  nf_discriminacao_servicos : option string;
  nf_iss_retido : bool;
  nf_codigo_servico : option string;
  (* emission *)
  nf_status : string;
  nf_focus_nfe_ref : option string;
  nf_serie : option Z;
  nf_numero : option Z;
  nf_chave_acesso : option string;
  nf_protocolo : option string;
  nf_focus_nfe_status : option string;
  nf_status_sefaz : option string;
  nf_mensagem_sefaz : option string;
  nf_url_xml : option string;
  nf_url_danfe : option string;
  nf_url_pdf : option string;
  nf_data_emissao : option string;
  nf_updated_at : option string
}.

(** A row of [notas_fiscais_itens]. *)
Record NotaItem := {
  it_id : string;
  it_nota_fiscal_id : string;
  it_numero_item : Z;
  it_codigo : option string;
  it_descricao : option string;
  it_cfop : option string;
  it_unidade : option string;
  it_quantidade : option Q;
  it_valor_unitario : option Q;
  it_valor_total : option Q;
  it_ncm : option string;
  it_cest : option string;
  it_icms_origem : option string;
  it_icms_cst : option string;
  it_pis_cst : option string;
  it_cofins_cst : option string
}.

(** A row of [fiscal_config]. *)
Record FiscalConfig := {
  cfg_organization_id : string;
  cfg_nfe_habilitado : bool;
  cfg_nfse_habilitado : bool;
  cfg_certificado_validade : option string;
  cfg_uf : option string;
  cfg_cnpj : option string;
  cfg_inscricao_municipal : option string;
  cfg_codigo_municipio : option string;
  cfg_nfe_serie : option Z;
  cfg_nfse_aliquota_iss : option Q;
  cfg_nfse_codigo_servico : option string;
  cfg_focus_nfe_ambiente : option string;
  cfg_focus_nfe_token_producao : option string;
  cfg_focus_nfe_token_homologacao : option string;
  cfg_focus_nfe_token : option string;
  cfg_nfe_ultimo_numero : option Z;
  cfg_nfse_ultimo_numero : option Z;
  cfg_updated_at : option string
}.

(** The JSON body of a successful gateway answer. A field is [None] when
    the body has no such key or has it [null]; the handlers tell the two
    apart for [status] only, where [resp_status_null] says which it is. *)
Record GatewayResponse := {
  resp_status : option string;
  resp_status_null : bool;          (* [status: null], read when [resp_status] is [None] *)
  resp_numero : option string;
  resp_serie : option string;
  resp_chave_nfe : option string;
  resp_protocolo : option string;
  resp_status_sefaz : option string;
  resp_mensagem_sefaz : option string;
  resp_caminho_xml_nota_fiscal : option string;
  resp_caminho_danfe : option string;
  resp_mensagem : option string;
  resp_url : option string
}.

(** The [dados] column of an event: the raw answer, or [{ error: msg }]. *)
Inductive EventoDados :=
| DadosResponse (r : GatewayResponse)
| DadosError (error : string).

(** A row of [fiscal_eventos]. *)
Record FiscalEvento := {
  ev_organization_id : string;
  ev_nota_fiscal_id : string;
  ev_tipo : string;
  ev_status : option string;
  ev_mensagem : string;
  ev_dados : EventoDados;
  ev_created_at : string
}.

(** ** Gateway payloads *)

Record NfeItem := {
  fi_numero_item : nat;
  fi_codigo_produto : string;
  fi_descricao : option string;
  fi_cfop : string;
  fi_unidade_comercial : string;
  fi_quantidade_comercial : option Q;
  fi_valor_unitario_comercial : option Q;
  fi_valor_bruto : option Q;
  fi_ncm : string;
  fi_cest : option string;
  fi_icms_origem : option string;       (* [None]: no code, see [Js.code_or] *)
  fi_icms_situacao_tributaria : string;
  fi_pis_situacao_tributaria : string;
  fi_cofins_situacao_tributaria : string
}.

Record FormaPagamento := {
  fp_forma_pagamento : string;
  fp_valor_pagamento : option Q
}.

Record NfePayload := {
  np_natureza_operacao : string;
  np_data_emissao : string;
  np_tipo_documento : Z;
  np_finalidade_emissao : option Z;     (* [None]: see [Js.num_code_or] *)
  np_consumidor_final : Z;
  np_presenca_comprador : option Z;
  np_nome_destinatario : option string;
  np_cnpj_destinatario : option string;
  np_cpf_destinatario : option string;
  np_inscricao_estadual_destinatario : option string;
  np_telefone_destinatario : option string;
  np_email_destinatario : option string;
  np_logradouro_destinatario : option string;
  np_numero_destinatario : string;
  np_complemento_destinatario : option string;
  np_bairro_destinatario : string;
  np_municipio_destinatario : option string;
  np_uf_destinatario : option string;
  np_cep_destinatario : string;
  np_codigo_municipio_destinatario : option string;
  np_forma_pagamento : list FormaPagamento;
  np_items : list NfeItem;
  np_informacoes_adicionais_contribuinte : option string
}.

Record NfsePrestador := {
  pr_cnpj : option string;
  pr_inscricao_municipal : option string;
  pr_codigo_municipio : option string
}.

Record NfseEndereco := {
  en_logradouro : string;
  en_numero : string;
  en_complemento : string;
  en_bairro : string;
  en_codigo_municipio : option string;
  en_uf : option string;
  en_cep : string
}.

Record NfseTomador := {
  to_cnpj : option string;
  to_cpf : option string;
  to_razao_social : option string;
  to_email : option string;
  to_telefone : option string;
  to_endereco : NfseEndereco
}.

Record NfseServico := {
  sv_aliquota : Q;
  sv_discriminacao : string;
  sv_iss_retido : string;
  sv_item_lista_servico : string;
  sv_valor_servicos : option Q
}.

Record NfsePayload := {
  sp_data_emissao : string;
  sp_natureza_operacao : string;
  sp_prestador : NfsePrestador;
  sp_tomador : NfseTomador;
  sp_servico : NfseServico
}.

Inductive Payload :=
| PayloadNfe (p : NfePayload)
| PayloadNfse (p : NfsePayload).

(** ** The gateway as seen by [focusFetch] *)

(** The [options] argument of [focusFetch]. *)
Record FocusOptions := {
  opt_method : option string;
  opt_body : option Payload;
  opt_token : string;
  opt_apiUrl : string
}.

(** What [focusFetch] passes to [fetch]. The [Authorization] header is
    [Basic base64(user:)], with an empty password; the content type is
    fixed. *)
Record FetchRequest := {
  rq_url : string;
  rq_method : string;
  rq_basic_user : string;
  rq_body : option Payload
}.

(** The JSON body of a failed answer, as far as [focusFetch] reads it. *)
Record ErrorData := {
  ed_mensagem : option string;
  ed_message : option string;
  ed_erro : option string;
  ed_erros : option (list (option string))   (* [erros[i].mensagem] *)
}.

(** The three ways an exchange can go. A body that fails to parse, or is
    [null], is [None] in [HttpError]; in [HttpOk] it is the error that
    [response.json()] or the first field access throws. *)
Inductive FetchOutcome :=
| FetchRejected (message : string)
| HttpError (status : Z) (errorData : option ErrorData)
| HttpOk (body : string + GatewayResponse).

(** ** The runtime: clock, randomness, environment and the remote side *)

Record Runtime := {
  rt_date_now_36 : string;          (* Date.now().toString(36) *)
  rt_random_36 : string;            (* Math.random().toString(36) *)
  rt_today : Z;                     (* new Date() of the certificate check *)
  rt_parse_date : string -> option Z;  (* new Date(s); None is Invalid Date *)
  rt_payload_date : string;         (* new Date().toISOString() in the payload *)
  rt_now : string;                  (* const now *)
  rt_FOCUS_NFE_MASTER_TOKEN : option string;
  rt_FOCUS_NFE_API_URL : option string;
  rt_encodeURIComponent : string -> string;
  rt_fetch : FetchRequest -> FetchOutcome
}.

(** ** Credential and endpoint resolution *)

Definition dquote : string := String (ascii_of_nat 34) EmptyString.

Definition token_error (ambiente : string) : string :=
  "Token Focus NFe não configurado para ambiente " ++ dquote ++ ambiente
    ++ dquote ++ ". Configure pelo app web.".

(** [resolveFocusToken]: [inr token], or [inl message] when it throws. *)
Definition resolveFocusToken (rt : Runtime) (cfg : FiscalConfig)
  : string + string :=
  let ambiente := Js.or_lit (cfg_focus_nfe_ambiente cfg) "homologacao" in
  let token :=
    Js.or (Js.or (if ambiente =? "producao"
                  then cfg_focus_nfe_token_producao cfg
                  else cfg_focus_nfe_token_homologacao cfg)
                 (cfg_focus_nfe_token cfg))
          (rt_FOCUS_NFE_MASTER_TOKEN rt) in
  match token with
  | Some (String c s) => inr (String c s)
  | _ => inl (token_error ambiente)
  end.

Definition resolveFocusApiUrl (rt : Runtime) (cfg : FiscalConfig) : string :=
  let ambiente := Js.or_lit (cfg_focus_nfe_ambiente cfg) "homologacao" in
  if ambiente =? "producao"
  then Js.or_lit (rt_FOCUS_NFE_API_URL rt) "https://api.focusnfe.com.br"
  else "https://homologacao.focusnfe.com.br".

Definition generateFocusRef (rt : Runtime) (orgId tipo : string) : string :=
  let timestamp := rt_date_now_36 rt in
  let random := Js.substring 2 8 (rt_random_36 rt) in
  tipo ++ "_" ++ Js.substring 0 8 orgId ++ "_" ++ timestamp ++ "_" ++ random.

(** ** Payload builders *)

(** [xs.map((x, index) => f index x)], counting from [i]. *)
Fixpoint map_index {A B} (f : nat -> A -> B) (i : nat) (xs : list A)
  : list B :=
  match xs with
  | [] => []
  | x :: rest => f i x :: map_index f (S i) rest
  end.

Definition focusItem (dentroEstado : bool) (index : nat) (item : NotaItem)
  : NfeItem :=
  {| fi_numero_item := index + 1;
     fi_codigo_produto :=
       Js.or_lit (it_codigo item) (Js.substring 0 8 (it_id item));
     fi_descricao := it_descricao item;
     fi_cfop := Js.or_lit (it_cfop item) (getCfopVenda dentroEstado false);
     fi_unidade_comercial := Js.or_lit (it_unidade item) "UN";
     fi_quantidade_comercial := it_quantidade item;
     fi_valor_unitario_comercial := it_valor_unitario item;
     fi_valor_bruto := it_valor_total item;
     fi_ncm := Js.or_lit (it_ncm item) "00000000";
     fi_cest := Js.or (it_cest item) None;
     fi_icms_origem :=
       Js.code_or
         (Js.get ICMS_ORIGEM_MAP (Js.or_lit (it_icms_origem item) "nacional"))
         "0";
     fi_icms_situacao_tributaria := Js.or_lit (it_icms_cst item) DEFAULT_CSOSN;
     fi_pis_situacao_tributaria :=
       Js.or_lit (it_pis_cst item) PIS_COFINS_CST_SIMPLES;
     fi_cofins_situacao_tributaria :=
       Js.or_lit (it_cofins_cst item) PIS_COFINS_CST_SIMPLES |}.

Definition focusItens (dentroEstado : bool) (itens : list NotaItem)
  : list NfeItem :=
  map_index (focusItem dentroEstado) 0 itens.

(** [s?.replace(/\D/g, '')]. *)
Definition strip_opt (s : option string) : option string :=
  option_map Js.strip_non_digits s.

(** The goods payload. [cpf_cnpj] is the recipient tax id, known to be a
    non-empty string where the payload is built. *)
Definition nfePayload (rt : Runtime) (cfg : FiscalConfig) (n : NotaFiscal)
    (cpf_cnpj : string) (items : list NfeItem) : NfePayload :=
  let cpfCnpj := Js.strip_non_digits cpf_cnpj in
  let isCnpj := (String.length cpfCnpj =? 14)%nat in
  {| np_natureza_operacao :=
       Js.or_lit (nf_natureza_operacao n) "Venda de mercadoria";
     np_data_emissao := rt_payload_date rt;
     np_tipo_documento := 1;
     np_finalidade_emissao :=
       Js.num_code_or
         (Js.get FINALIDADE_MAP (Js.or_lit (nf_finalidade n) "normal")) 1;
     np_consumidor_final :=
       match nf_destinatario_tipo n with
       | Some t => if t =? "pessoa_fisica" then 1%Z else 0%Z
       | None => 0%Z
       end;
     np_presenca_comprador :=
       Js.num_code_or
         (Js.get PRESENCA_MAP
            (Js.or_lit (nf_indicador_presenca n) "nao_se_aplica")) 0;
     np_nome_destinatario := nf_destinatario_nome n;
     np_cnpj_destinatario := if isCnpj then Some cpfCnpj else None;
     np_cpf_destinatario := if isCnpj then None else Some cpfCnpj;
     np_inscricao_estadual_destinatario := Js.or (nf_destinatario_ie n) None;
     np_telefone_destinatario :=
       Js.or (strip_opt (nf_destinatario_telefone n)) None;
     np_email_destinatario := Js.or (nf_destinatario_email n) None;
     np_logradouro_destinatario := nf_destinatario_logradouro n;
     np_numero_destinatario := Js.or_lit (nf_destinatario_numero n) "S/N";
     np_complemento_destinatario := Js.or (nf_destinatario_complemento n) None;
     np_bairro_destinatario := Js.or_lit (nf_destinatario_bairro n) "Centro";
     np_municipio_destinatario := nf_destinatario_municipio n;
     np_uf_destinatario := nf_destinatario_uf n;
     np_cep_destinatario := Js.or_lit (strip_opt (nf_destinatario_cep n)) "";
     np_codigo_municipio_destinatario :=
       Js.or (nf_destinatario_codigo_municipio n) (cfg_codigo_municipio cfg);
     np_forma_pagamento :=
       [ {| fp_forma_pagamento := "90";
            fp_valor_pagamento := nf_valor_total n |} ];
     np_items := items;
     np_informacoes_adicionais_contribuinte :=
       Js.or (nf_informacoes_adicionais n) None |}.

(** The service payload. *)
Definition nfsePayload (rt : Runtime) (cfg : FiscalConfig) (n : NotaFiscal)
    (cpf_cnpj : string) : NfsePayload :=
  let cpfCnpj := Js.strip_non_digits cpf_cnpj in
  let isCnpj := (String.length cpfCnpj =? 14)%nat in
  {| sp_data_emissao := rt_payload_date rt;
     sp_natureza_operacao := "1";
     sp_prestador :=
       {| pr_cnpj := strip_opt (cfg_cnpj cfg);
          pr_inscricao_municipal := cfg_inscricao_municipal cfg;
          pr_codigo_municipio := cfg_codigo_municipio cfg |};
     sp_tomador :=
       {| to_cnpj := if isCnpj then Some cpfCnpj else None;
          to_cpf := if isCnpj then None else Some cpfCnpj;
          to_razao_social := nf_destinatario_nome n;
          to_email := Js.or (nf_destinatario_email n) None;
          to_telefone := Js.or (strip_opt (nf_destinatario_telefone n)) None;
          to_endereco :=
            {| en_logradouro := Js.or_lit (nf_destinatario_logradouro n) "";
               en_numero := Js.or_lit (nf_destinatario_numero n) "S/N";
               en_complemento := Js.or_lit (nf_destinatario_complemento n) "";
               en_bairro := Js.or_lit (nf_destinatario_bairro n) "";
               en_codigo_municipio :=
                 Js.or (nf_destinatario_codigo_municipio n)
                       (cfg_codigo_municipio cfg);
               en_uf := Js.or (nf_destinatario_uf n) (cfg_uf cfg);
               en_cep := Js.or_lit (strip_opt (nf_destinatario_cep n)) "" |} |};
     sp_servico :=
       {| sv_aliquota :=
            Js.or_num_lit (Js.or_num (nf_aliquota_iss n)
                                     (cfg_nfse_aliquota_iss cfg)) 0%Q;
          sv_discriminacao :=
            Js.or_lit (Js.or (nf_discriminacao_servicos n)
                             (nf_informacoes_adicionais n))
                      "Prestação de serviços";
          sv_iss_retido := if nf_iss_retido n then "true" else "false";
          sv_item_lista_servico :=
            Js.or_lit (Js.or (nf_codigo_servico n)
                             (cfg_nfse_codigo_servico cfg)) "";
          sv_valor_servicos := nf_valor_total n |} |}.

(** ** The store and the handler monad *)

(** The four tables, and the log of requests sent to the gateway. *)
Record World := {
  notas_fiscais : list NotaFiscal;
  notas_fiscais_itens : list NotaItem;
  fiscal_config : list FiscalConfig;
  fiscal_eventos : list FiscalEvento;
  gateway_calls : list FetchRequest
}.

Inductive Outcome (A : Type) :=
| Returned (a : A)
| Thrown (message : string).
Arguments Returned {A} a.
Arguments Thrown {A} message.

(** A handler step: it may change the world, and returns or throws. *)
Definition M (A : Type) : Type := World -> Outcome A * World.

Definition ret {A} (a : A) : M A := fun w => (Returned a, w).

Definition throw {A} (message : string) : M A := fun w => (Thrown message, w).

Definition bind {A B} (c : M A) (k : A -> M B) : M B :=
  fun w =>
    match c w with
    | (Returned a, w') => k a w'
    | (Thrown m, w') => (Thrown m, w')
    end.

(** [try { body } catch (err) { handler(err.message) }]. *)
Definition try_catch {A} (body : M A) (handler : string -> M A) : M A :=
  fun w =>
    match body w with
    | (Returned a, w') => (Returned a, w')
    | (Thrown m, w') => handler m w'
    end.

Declare Scope handler_scope.
Delimit Scope handler_scope with handler.
Notation "x <- c ;; k" := (bind c (fun x => k))
  (at level 61, c at next level, right associativity) : handler_scope.
Notation "c ;; k" := (bind c (fun _ => k))
  (at level 61, right associativity) : handler_scope.
Open Scope handler_scope.

(** [.single()]: exactly one row, else an error. *)
Definition single {A} (rows : list A) : option A :=
  match rows with
  | [r] => Some r
  | _ => None
  end.

(** Partial updates of a [notas_fiscais] row: [None] leaves the column. *)
Record NotaPatch := {
  p_status : option string;
  p_focus_nfe_ref : option (option string);
  p_serie : option (option Z);
  p_numero : option (option Z);
  p_chave_acesso : option (option string);
  p_protocolo : option (option string);
  p_focus_nfe_status : option (option string);
  p_status_sefaz : option (option string);
  p_mensagem_sefaz : option (option string);
  p_url_xml : option (option string);
  p_url_danfe : option (option string);
  p_url_pdf : option (option string);
  p_data_emissao : option (option string);
  p_updated_at : option (option string)
}.

Definition patched {A} (p : option A) (old : A) : A :=
  match p with
  | Some v => v
  | None => old
  end.

Definition apply_patch (p : NotaPatch) (r : NotaFiscal) : NotaFiscal :=
  {| nf_id := nf_id r;
     nf_organization_id := nf_organization_id r;
     nf_tipo := nf_tipo r;
     nf_natureza_operacao := nf_natureza_operacao r;
     nf_finalidade := nf_finalidade r;
     nf_indicador_presenca := nf_indicador_presenca r;
     nf_destinatario_tipo := nf_destinatario_tipo r;
     nf_destinatario_nome := nf_destinatario_nome r;
     nf_destinatario_cpf_cnpj := nf_destinatario_cpf_cnpj r;
     nf_destinatario_ie := nf_destinatario_ie r;
     nf_destinatario_telefone := nf_destinatario_telefone r;
     nf_destinatario_email := nf_destinatario_email r;
     nf_destinatario_logradouro := nf_destinatario_logradouro r;
     nf_destinatario_numero := nf_destinatario_numero r;
     nf_destinatario_complemento := nf_destinatario_complemento r;
     nf_destinatario_bairro := nf_destinatario_bairro r;
     nf_destinatario_municipio := nf_destinatario_municipio r;
     nf_destinatario_uf := nf_destinatario_uf r;
     nf_destinatario_cep := nf_destinatario_cep r;
     nf_destinatario_codigo_municipio := nf_destinatario_codigo_municipio r;
     nf_valor_total := nf_valor_total r;
     nf_informacoes_adicionais := nf_informacoes_adicionais r;
     nf_aliquota_iss := nf_aliquota_iss r;
     nf_discriminacao_servicos := nf_discriminacao_servicos r;
     nf_iss_retido := nf_iss_retido r;
     nf_codigo_servico := nf_codigo_servico r;
     nf_status := patched (p_status p) (nf_status r);
     nf_focus_nfe_ref := patched (p_focus_nfe_ref p) (nf_focus_nfe_ref r);
     nf_serie := patched (p_serie p) (nf_serie r);
     nf_numero := patched (p_numero p) (nf_numero r);
     nf_chave_acesso := patched (p_chave_acesso p) (nf_chave_acesso r);
     nf_protocolo := patched (p_protocolo p) (nf_protocolo r);
     nf_focus_nfe_status :=
       patched (p_focus_nfe_status p) (nf_focus_nfe_status r);
     nf_status_sefaz := patched (p_status_sefaz p) (nf_status_sefaz r);
     nf_mensagem_sefaz := patched (p_mensagem_sefaz p) (nf_mensagem_sefaz r);
     nf_url_xml := patched (p_url_xml p) (nf_url_xml r);
     nf_url_danfe := patched (p_url_danfe p) (nf_url_danfe r);
     nf_url_pdf := patched (p_url_pdf p) (nf_url_pdf r);
     nf_data_emissao := patched (p_data_emissao p) (nf_data_emissao r);
     nf_updated_at := patched (p_updated_at p) (nf_updated_at r) |}.

(** Which last-number counter of [fiscal_config] an update writes. *)
Inductive Contador := NfeUltimoNumero | NfseUltimoNumero.

Definition set_ultimo_numero (k : Contador) (numero : option Z)
    (updated_at : string) (c : FiscalConfig) : FiscalConfig :=
  {| cfg_organization_id := cfg_organization_id c;
     cfg_nfe_habilitado := cfg_nfe_habilitado c;
     cfg_nfse_habilitado := cfg_nfse_habilitado c;
     cfg_certificado_validade := cfg_certificado_validade c;
     cfg_uf := cfg_uf c;
     cfg_cnpj := cfg_cnpj c;
     cfg_inscricao_municipal := cfg_inscricao_municipal c;
     cfg_codigo_municipio := cfg_codigo_municipio c;
     cfg_nfe_serie := cfg_nfe_serie c;
     cfg_nfse_aliquota_iss := cfg_nfse_aliquota_iss c;
     cfg_nfse_codigo_servico := cfg_nfse_codigo_servico c;
     cfg_focus_nfe_ambiente := cfg_focus_nfe_ambiente c;
     cfg_focus_nfe_token_producao := cfg_focus_nfe_token_producao c;
     cfg_focus_nfe_token_homologacao := cfg_focus_nfe_token_homologacao c;
     cfg_focus_nfe_token := cfg_focus_nfe_token c;
     cfg_nfe_ultimo_numero :=
       match k with
       | NfeUltimoNumero => numero
       | NfseUltimoNumero => cfg_nfe_ultimo_numero c
       end;
     cfg_nfse_ultimo_numero :=
       match k with
       | NfseUltimoNumero => numero
       | NfeUltimoNumero => cfg_nfse_ultimo_numero c
       end;
     cfg_updated_at := Some updated_at |}.

(** The counter of a kind, as stored. *)
Definition ultimo_numero (k : Contador) (c : FiscalConfig) : option Z :=
  match k with
  | NfeUltimoNumero => cfg_nfe_ultimo_numero c
  | NfseUltimoNumero => cfg_nfse_ultimo_numero c
  end.

(** [.order('numero_item', { ascending: true })], as a stable sort: rows
    with the same number, whose order the database leaves open, keep the
    order of the table. *)
Fixpoint insert_item (x : NotaItem) (xs : list NotaItem) : list NotaItem :=
  match xs with
  | [] => [x]
  | y :: rest =>
      if (it_numero_item x <? it_numero_item y)%Z then x :: xs
      else y :: insert_item x rest
  end.

Definition order_by_numero_item (xs : list NotaItem) : list NotaItem :=
  fold_right insert_item [] xs.

(** [from('notas_fiscais').select('*')...single()] *)
Definition select_nota (where_ : NotaFiscal -> bool) : M (option NotaFiscal) :=
  fun w => (Returned (single (filter where_ (notas_fiscais w))), w).

(** [from('notas_fiscais_itens').select('*').eq('nota_fiscal_id', id)
    .order('numero_item')] *)
Definition select_itens (nota_id : string) : M (list NotaItem) :=
  fun w =>
    (Returned (order_by_numero_item
                 (filter (fun i => it_nota_fiscal_id i =? nota_id)
                         (notas_fiscais_itens w))), w).

(** [from('fiscal_config').select('*').eq('organization_id', org)
    .single()] *)
Definition select_config (org : string) : M (option FiscalConfig) :=
  fun w =>
    (Returned (single (filter (fun c => cfg_organization_id c =? org)
                              (fiscal_config w))), w).

(** [from('notas_fiscais').update(patch).eq('id', nota_id)] *)
Definition update_nota (patch : NotaPatch) (nota_id : string) : M unit :=
  fun w =>
    (Returned tt,
     {| notas_fiscais :=
          map (fun r => if nf_id r =? nota_id then apply_patch patch r else r)
              (notas_fiscais w);
        notas_fiscais_itens := notas_fiscais_itens w;
        fiscal_config := fiscal_config w;
        fiscal_eventos := fiscal_eventos w;
        gateway_calls := gateway_calls w |}).

(** [from('fiscal_config').update({ <k>: numero, updated_at })
    .eq('organization_id', org)] *)
Definition update_ultimo_numero (k : Contador) (numero : option Z)
    (updated_at org : string) : M unit :=
  fun w =>
    (Returned tt,
     {| notas_fiscais := notas_fiscais w;
        notas_fiscais_itens := notas_fiscais_itens w;
        fiscal_config :=
          map (fun c => if cfg_organization_id c =? org
                        then set_ultimo_numero k numero updated_at c else c)
              (fiscal_config w);
        fiscal_eventos := fiscal_eventos w;
        gateway_calls := gateway_calls w |}).

(** [from('fiscal_eventos').insert(e)] *)
Definition insert_evento (e : FiscalEvento) : M unit :=
  fun w =>
    (Returned tt,
     {| notas_fiscais := notas_fiscais w;
        notas_fiscais_itens := notas_fiscais_itens w;
        fiscal_config := fiscal_config w;
        fiscal_eventos := fiscal_eventos w ++ [e];
        gateway_calls := gateway_calls w |}).

(** One call of [fetch]: the request is logged and the remote side
    answers. *)
Definition fetch (rt : Runtime) (rq : FetchRequest) : M FetchOutcome :=
  fun w =>
    (Returned (rt_fetch rt rq),
     {| notas_fiscais := notas_fiscais w;
        notas_fiscais_itens := notas_fiscais_itens w;
        fiscal_config := fiscal_config w;
        fiscal_eventos := fiscal_eventos w;
        gateway_calls := gateway_calls w ++ [rq] |}).

(** ** The gateway client *)

(** The message [focusFetch] throws on a non-2xx answer. *)
Definition error_message (status : Z) (errorData : option ErrorData)
  : string :=
  let http := "HTTP " ++ Js.string_of_Z status in
  match errorData with
  | None => http
  | Some d =>
      let erros :=
        match ed_erros d with
        | Some (e :: es) => Some (Js.join "; " (e :: es))
        | _ => None
        end in
      Js.or_lit
        (Js.or (Js.or (Js.or (ed_mensagem d) (ed_message d)) (ed_erro d)) erros)
        http
  end.

Definition focusFetch (rt : Runtime) (endpoint : string)
    (options : FocusOptions) : M GatewayResponse :=
  let url := opt_apiUrl options ++ endpoint in
  response <- fetch rt {| rq_url := url;
                          rq_method := Js.or_lit (opt_method options) "GET";
                          rq_basic_user := opt_token options;
                          rq_body := opt_body options |} ;;
  match response with
  | FetchRejected message => throw message
  | HttpError status errorData => throw (error_message status errorData)
  | HttpOk (inl message) => throw message
  | HttpOk (inr body) => ret body
  end.

(** ** The emission handlers *)

(** What a tool call returns: a text, or the JSON of
    [{ success: true, nota, focus_status }]. *)
Inductive ToolResult :=
| Text (text : string)
| Success (nota : option NotaFiscal) (focus_status : option string).

(** [cfg.certificado_validade && new Date(cfg.certificado_validade) <
    new Date()]; a comparison with an invalid date is false. *)
Definition certificado_expirado (rt : Runtime) (cfg : FiscalConfig) : bool :=
  match cfg_certificado_validade cfg with
  | Some (String c s) =>
      match rt_parse_date rt (String c s) with
      | Some t => (t <? rt_today rt)%Z
      | None => false
      end
  | _ => false
  end.

(** The stored status for a gateway status, goods. *)
Definition nfe_status (response_status : option string) : string :=
  match response_status with
  | Some s =>
      if s =? "autorizado" then "autorizada"
      else if (s =? "erro_autorizacao") || (s =? "denegado") then "rejeitada"
      else "processando"
  | None => "processando"
  end.

(** The stored status for a gateway status, services. *)
Definition nfse_status (response_status : option string) : string :=
  match response_status with
  | Some s =>
      if s =? "autorizado" then "autorizada"
      else if s =? "erro_autorizacao" then "rejeitada"
      else "processando"
  | None => "processando"
  end.

(** [{ status: 'processando', focus_nfe_ref: focusRef, updated_at: now }] *)
Definition patch_processando (focusRef now : string) : NotaPatch :=
  {| p_status := Some "processando";
     p_focus_nfe_ref := Some (Some focusRef);
     p_serie := None; p_numero := None; p_chave_acesso := None;
     p_protocolo := None; p_focus_nfe_status := None;
     p_status_sefaz := None; p_mensagem_sefaz := None; p_url_xml := None;
     p_url_danfe := None; p_url_pdf := None; p_data_emissao := None;
     p_updated_at := Some (Some now) |}.

(** [{ status: 'erro', mensagem_sefaz: err.message, updated_at: now }] *)
Definition patch_erro (message now : string) : NotaPatch :=
  {| p_status := Some "erro";
     p_focus_nfe_ref := None;
     p_serie := None; p_numero := None; p_chave_acesso := None;
     p_protocolo := None; p_focus_nfe_status := None;
     p_status_sefaz := None; p_mensagem_sefaz := Some (Some message);
     p_url_xml := None; p_url_danfe := None; p_url_pdf := None;
     p_data_emissao := None;
     p_updated_at := Some (Some now) |}.

(** The event row of the [catch] branch. *)
Definition evento_erro (org nota_id message now : string) : FiscalEvento :=
  {| ev_organization_id := org;
     ev_nota_fiscal_id := nota_id;
     ev_tipo := "erro";
     ev_status := Some "erro";
     ev_mensagem := message;
     ev_dados := DadosError message;
     ev_created_at := now |}.

(** [response.numero] when it is truthy. *)
Definition numero_of (response : GatewayResponse) : option string :=
  match resp_numero response with
  | Some (String c s) => Some (String c s)
  | _ => None
  end.

(** [focus_nfe_status: response.status] in [updateData]: a key whose value
    is [undefined] is left out of the request and the column keeps its
    value; [null] and a text are written. *)
Definition focus_nfe_status_of (response : GatewayResponse)
  : option (option string) :=
  match resp_status response with
  | Some s => Some (Some s)
  | None => if resp_status_null response then Some None else None
  end.

(** [updateData] of the goods handler. *)
Definition nfe_updateData (cfg : FiscalConfig) (response : GatewayResponse)
    (status now : string) : NotaPatch :=
  {| p_status := Some status;
     p_focus_nfe_ref := None;
     p_serie :=
       Some (match resp_serie response with
             | Some (String c s) => Js.parseInt10 (String c s)
             | _ => cfg_nfe_serie cfg
             end);
     p_numero :=
       if status =? "autorizada"
       then option_map Js.parseInt10 (numero_of response)
       else None;
     p_chave_acesso := Some (Js.or (resp_chave_nfe response) None);
     p_protocolo := Some (Js.or (resp_protocolo response) None);
     p_focus_nfe_status := focus_nfe_status_of response;
     p_status_sefaz := Some (Js.or (resp_status_sefaz response) None);
     p_mensagem_sefaz := Some (Js.or (resp_mensagem_sefaz response) None);
     p_url_xml := Some (Js.or (resp_caminho_xml_nota_fiscal response) None);
     p_url_danfe := Some (Js.or (resp_caminho_danfe response) None);
     p_url_pdf := None;
     p_data_emissao := if status =? "autorizada" then Some (Some now) else None;
     p_updated_at := Some (Some now) |}.

(** [updateData] of the service handler. *)
Definition nfse_updateData (response : GatewayResponse) (status now : string)
  : NotaPatch :=
  {| p_status := Some status;
     p_focus_nfe_ref := None;
     p_serie := None;
     p_numero :=
       if status =? "autorizada"
       then option_map Js.parseInt10 (numero_of response)
       else None;
     p_chave_acesso := None;
     p_protocolo := None;
     p_focus_nfe_status := focus_nfe_status_of response;
     p_status_sefaz := None;
     p_mensagem_sefaz := Some (Js.or (resp_mensagem response) None);
     p_url_xml := Some (Js.or (resp_caminho_xml_nota_fiscal response) None);
     p_url_danfe := None;
     p_url_pdf := Some (Js.or (resp_url response) None);
     p_data_emissao := if status =? "autorizada" then Some (Some now) else None;
     p_updated_at := Some (Some now) |}.

(** The counter update inside [if (status === 'autorizada')]. *)
Definition advance_ultimo_numero (k : Contador) (response : GatewayResponse)
    (status now org : string) : M unit :=
  if status =? "autorizada" then
    match numero_of response with
    | Some numero => update_ultimo_numero k (Js.parseInt10 numero) now org
    | None => ret tt
    end
  else ret tt.

(** The event row of the success branch. *)
Definition evento_emissao (org nota_id : string) (response : GatewayResponse)
    (mensagem now : string) : FiscalEvento :=
  {| ev_organization_id := org;
     ev_nota_fiscal_id := nota_id;
     ev_tipo := "emissao";
     ev_status := resp_status response;
     ev_mensagem := mensagem;
     ev_dados := DadosResponse response;
     ev_created_at := now |}.

(** A thrown or returned pure result, inside a handler. *)
Definition lift {A} (r : string + A) : M A :=
  match r with
  | inl message => throw message
  | inr a => ret a
  end.

(** The [try] block of [emit_nfe]. *)
Definition emit_nfe_try (rt : Runtime) (org nota_id : string)
    (cfg : FiscalConfig) (focusRef : string) (focusPayload : NfePayload)
    (now : string) : M ToolResult :=
  update_nota (patch_processando focusRef now) nota_id ;;
  focusToken <- lift (resolveFocusToken rt cfg) ;;
  let focusApiUrl := resolveFocusApiUrl rt cfg in
  response <- focusFetch rt
    ("/v2/nfe?ref=" ++ rt_encodeURIComponent rt focusRef)
    {| opt_method := Some "POST";
       opt_token := focusToken;
       opt_apiUrl := focusApiUrl;
       opt_body := Some (PayloadNfe focusPayload) |} ;;
  let status := nfe_status (resp_status response) in
  advance_ultimo_numero NfeUltimoNumero response status now org ;;
  update_nota (nfe_updateData cfg response status now) nota_id ;;
  insert_evento
    (evento_emissao org nota_id response
       (Js.or_lit (resp_mensagem_sefaz response)
                  "NFe enviada para processamento") now) ;;
  notaAtualizada <- select_nota (fun r => nf_id r =? nota_id) ;;
  ret (Success notaAtualizada (resp_status response)).

(** The [catch] block of both handlers, up to the prefix of the text. *)
Definition emit_catch (prefix org nota_id now message : string)
  : M ToolResult :=
  update_nota (patch_erro message now) nota_id ;;
  insert_evento (evento_erro org nota_id message now) ;;
  ret (Text (prefix ++ message)).

Definition emit_nfe (rt : Runtime) (orgId : option string) (nota_id : string)
  : M ToolResult :=
  match orgId with
  | Some (String o os) =>
  let org := String o os in
  nota <- select_nota (fun r => (nf_id r =? nota_id)
                                && (nf_organization_id r =? org)
                                && (nf_tipo r =? "nfe")) ;;
  match nota with
  | None => ret (Text "NFe não encontrada")
  | Some n =>
  if negb (nf_status n =? "rascunho")
  then ret (Text "Apenas notas em rascunho podem ser emitidas") else
  itens <- select_itens nota_id ;;
  match itens with
  | [] => ret (Text "Nota deve ter pelo menos um item")
  | _ :: _ =>
  config <- select_config org ;;
  match config with
  | None =>
      ret (Text "Configuração fiscal não encontrada. Configure pelo app web.")
  | Some cfg =>
  if negb (cfg_nfe_habilitado cfg)
  then ret (Text "NFe não está habilitada na configuração fiscal") else
  if certificado_expirado rt cfg
  then ret (Text "Certificado digital expirado") else
  match nf_destinatario_nome n, nf_destinatario_cpf_cnpj n with
  | Some (String _ _), Some (String d ds) =>
  let cpf_cnpj := String d ds in
  match nf_destinatario_logradouro n, nf_destinatario_municipio n,
        nf_destinatario_uf n with
  | Some (String _ _), Some (String _ _), Some (String u us) =>
  match cfg_uf cfg with
  | None =>
      throw "Cannot read properties of null (reading 'toUpperCase')"
  | Some uf =>
  let dentroEstado := isMesmoEstado uf (String u us) in
  let focusRef := generateFocusRef rt org "nfe" in
  let focusPayload :=
    nfePayload rt cfg n cpf_cnpj (focusItens dentroEstado itens) in
  let now := rt_now rt in
  try_catch
    (emit_nfe_try rt org nota_id cfg focusRef focusPayload now)
    (emit_catch "Erro ao emitir NFe: " org nota_id now)
  end
  | _, _, _ => ret (Text "Endereço do destinatário incompleto")
  end
  | _, _ =>
      ret (Text "Dados do destinatário incompletos (nome e CPF/CNPJ obrigatórios)")
  end
  end
  end
  end
  | _ => ret (Text "Erro: orgId obrigatório")
  end.

(** The [try] block of [emit_nfse]. *)
Definition emit_nfse_try (rt : Runtime) (org nota_id : string)
    (cfg : FiscalConfig) (focusRef : string) (focusPayload : NfsePayload)
    (now : string) : M ToolResult :=
  update_nota (patch_processando focusRef now) nota_id ;;
  focusToken <- lift (resolveFocusToken rt cfg) ;;
  let focusApiUrl := resolveFocusApiUrl rt cfg in
  response <- focusFetch rt
    ("/v2/nfse?ref=" ++ rt_encodeURIComponent rt focusRef)
    {| opt_method := Some "POST";
       opt_token := focusToken;
       opt_apiUrl := focusApiUrl;
       opt_body := Some (PayloadNfse focusPayload) |} ;;
  let status := nfse_status (resp_status response) in
  advance_ultimo_numero NfseUltimoNumero response status now org ;;
  update_nota (nfse_updateData response status now) nota_id ;;
  insert_evento
    (evento_emissao org nota_id response
       (Js.or_lit (resp_mensagem response)
                  "NFSe enviada para processamento") now) ;;
  notaAtualizada <- select_nota (fun r => nf_id r =? nota_id) ;;
  ret (Success notaAtualizada (resp_status response)).

Definition emit_nfse (rt : Runtime) (orgId : option string) (nota_id : string)
  : M ToolResult :=
  match orgId with
  | Some (String o os) =>
  let org := String o os in
  nota <- select_nota (fun r => (nf_id r =? nota_id)
                                && (nf_organization_id r =? org)
                                && (nf_tipo r =? "nfse")) ;;
  match nota with
  | None => ret (Text "NFSe não encontrada")
  | Some n =>
  if negb (nf_status n =? "rascunho")
  then ret (Text "Apenas notas em rascunho podem ser emitidas") else
  config <- select_config org ;;
  match config with
  | None =>
      ret (Text "Configuração fiscal não encontrada. Configure pelo app web.")
  | Some cfg =>
  if negb (cfg_nfse_habilitado cfg)
  then ret (Text "NFSe não está habilitada na configuração fiscal") else
  match nf_destinatario_nome n, nf_destinatario_cpf_cnpj n with
  | Some (String _ _), Some (String d ds) =>
  let cpf_cnpj := String d ds in
  let focusRef := generateFocusRef rt org "nfse" in
  let focusPayload := nfsePayload rt cfg n cpf_cnpj in
  let now := rt_now rt in
  try_catch
    (emit_nfse_try rt org nota_id cfg focusRef focusPayload now)
    (emit_catch "Erro ao emitir NFSe: " org nota_id now)
  | _, _ => ret (Text "Dados do tomador incompletos")
  end
  end
  end
  | _ => ret (Text "Erro: orgId obrigatório")
  end.

(** ** A sample tenant, used to run the handlers *)

Module Sample.

Definition org : string := "org-0001-aaaa".

Definition nota (id tipo status : string) (cpf_cnpj : string) : NotaFiscal :=
  {| nf_id := id; nf_organization_id := org; nf_tipo := tipo;
     nf_natureza_operacao := None; nf_finalidade := None;
     nf_indicador_presenca := None;
     nf_destinatario_tipo := Some "pessoa_juridica";
     nf_destinatario_nome := Some "Cliente Exemplo";
     nf_destinatario_cpf_cnpj := Some cpf_cnpj;
     nf_destinatario_ie := None; nf_destinatario_telefone := None;
     nf_destinatario_email := None;
     nf_destinatario_logradouro := Some "Rua A";
     nf_destinatario_numero := Some "10";
     nf_destinatario_complemento := None;
     nf_destinatario_bairro := None;
     nf_destinatario_municipio := Some "Campinas";
     nf_destinatario_uf := Some "sp";
     nf_destinatario_cep := Some "13000-000";
     nf_destinatario_codigo_municipio := None;
     nf_valor_total := Some (150 # 1)%Q;
     nf_informacoes_adicionais := None; nf_aliquota_iss := None;
     nf_discriminacao_servicos := None; nf_iss_retido := false;
     nf_codigo_servico := None;
     nf_status := status; nf_focus_nfe_ref := None; nf_serie := None;
     nf_numero := None; nf_chave_acesso := None; nf_protocolo := None;
     nf_focus_nfe_status := None; nf_status_sefaz := None;
     nf_mensagem_sefaz := None; nf_url_xml := None; nf_url_danfe := None;
     nf_url_pdf := None; nf_data_emissao := None; nf_updated_at := None |}.

Definition item (id nota_id : string) (numero : Z) (cfop : option string)
  : NotaItem :=
  {| it_id := id; it_nota_fiscal_id := nota_id; it_numero_item := numero;
     it_codigo := None; it_descricao := Some "Produto"; it_cfop := cfop;
     it_unidade := None; it_quantidade := Some (3 # 1)%Q;
     it_valor_unitario := Some (50 # 1)%Q; it_valor_total := Some (150 # 1)%Q;
     it_ncm := None; it_cest := None; it_icms_origem := None;
     it_icms_cst := None; it_pis_cst := None; it_cofins_cst := None |}.

(** A tenant of São Paulo with both kinds enabled, no certificate date
    on file, and the given credentials and counters. *)
Definition config (ambiente token_homologacao token_legado : option string)
    (nfe_ultimo nfse_ultimo : option Z) : FiscalConfig :=
  {| cfg_organization_id := org;
     cfg_nfe_habilitado := true; cfg_nfse_habilitado := true;
     cfg_certificado_validade := None;
     cfg_uf := Some "SP"; cfg_cnpj := Some "12.345.678/0001-90";
     cfg_inscricao_municipal := Some "123"; cfg_codigo_municipio := Some "3509502";
     cfg_nfe_serie := Some 1%Z; cfg_nfse_aliquota_iss := None;
     cfg_nfse_codigo_servico := None;
     cfg_focus_nfe_ambiente := ambiente;
     cfg_focus_nfe_token_producao := None;
     cfg_focus_nfe_token_homologacao := token_homologacao;
     cfg_focus_nfe_token := token_legado;
     cfg_nfe_ultimo_numero := nfe_ultimo;
     cfg_nfse_ultimo_numero := nfse_ultimo;
     cfg_updated_at := None |}.

Definition response (status numero : option string) : GatewayResponse :=
  {| resp_status := status; resp_status_null := false;
     resp_numero := numero; resp_serie := None;
     resp_chave_nfe := None; resp_protocolo := None;
     resp_status_sefaz := None; resp_mensagem_sefaz := None;
     resp_caminho_xml_nota_fiscal := None; resp_caminho_danfe := None;
     resp_mensagem := None; resp_url := None |}.

(** A runtime whose gateway gives the same answer to every request. *)
Definition runtime (answer : FetchOutcome) : Runtime :=
  {| rt_date_now_36 := "lq2x9k3f";
     rt_random_36 := "0.4fzyo82mvyr";
     rt_today := 1700000000000;
     rt_parse_date := fun _ => None;
     rt_payload_date := "2023-11-14T22:13:20.000Z";
     rt_now := "2023-11-14T22:13:20.001Z";
     rt_FOCUS_NFE_MASTER_TOKEN := None;
     rt_FOCUS_NFE_API_URL := None;
     rt_encodeURIComponent := fun s => s;
     rt_fetch := fun _ => answer |}.

Definition world (notas : list NotaFiscal) (itens : list NotaItem)
    (cfg : FiscalConfig) : World :=
  {| notas_fiscais := notas; notas_fiscais_itens := itens;
     fiscal_config := [cfg]; fiscal_eventos := []; gateway_calls := [] |}.

End Sample.

(** ** Reading a world *)

(** The document an emission of kind [tipo] finds for a tenant. *)
Definition lookup_nota (w : World) (org tipo nota_id : string)
  : option NotaFiscal :=
  single (filter (fun r => (nf_id r =? nota_id)
                           && (nf_organization_id r =? org)
                           && (nf_tipo r =? tipo))
                 (notas_fiscais w)).

(** The line items of a document, in emission order. *)
Definition lookup_itens (w : World) (nota_id : string) : list NotaItem :=
  order_by_numero_item
    (filter (fun i => it_nota_fiscal_id i =? nota_id) (notas_fiscais_itens w)).

(** The configuration of a tenant. *)
Definition lookup_config (w : World) (org : string) : option FiscalConfig :=
  single (filter (fun c => cfg_organization_id c =? org) (fiscal_config w)).

(** Every stored row with a given document id. *)
Definition stored (w : World) (nota_id : string) : list NotaFiscal :=
  filter (fun r => nf_id r =? nota_id) (notas_fiscais w).

(** Every stored configuration row of a tenant. *)
Definition stored_config (w : World) (org : string) : list FiscalConfig :=
  filter (fun c => cfg_organization_id c =? org) (fiscal_config w).

Arguments lookup_nota : simpl never.
Arguments lookup_itens : simpl never.
Arguments lookup_config : simpl never.
Arguments stored : simpl never.
Arguments stored_config : simpl never.

(** The preconditions of goods emission: what [emit_nfe] checks before it
    writes anything. *)
Record NfeReady (rt : Runtime) (w : World) (org nota_id : string)
    (n : NotaFiscal) (itens : list NotaItem) (cfg : FiscalConfig)
    (cpf_cnpj uf_dest : string) : Prop := {
  nfe_tenant : org <> "";
  nfe_found : lookup_nota w org "nfe" nota_id = Some n;
  nfe_draft : nf_status n = "rascunho";
  nfe_itens : lookup_itens w nota_id = itens;
  nfe_has_item : itens <> [];
  nfe_config : lookup_config w org = Some cfg;
  nfe_enabled : cfg_nfe_habilitado cfg = true;
  nfe_certificate : certificado_expirado rt cfg = false;
  nfe_nome : Js.truthy (nf_destinatario_nome n) = true;
  nfe_cpf_cnpj : nf_destinatario_cpf_cnpj n = Some cpf_cnpj;
  nfe_cpf_cnpj_filled : cpf_cnpj <> "";
  nfe_logradouro : Js.truthy (nf_destinatario_logradouro n) = true;
  nfe_municipio : Js.truthy (nf_destinatario_municipio n) = true;
  nfe_uf : nf_destinatario_uf n = Some uf_dest;
  nfe_uf_filled : uf_dest <> ""
}.

(** The preconditions of service emission. *)
Record NfseReady (w : World) (org nota_id : string) (n : NotaFiscal)
    (cfg : FiscalConfig) (cpf_cnpj : string) : Prop := {
  nfse_tenant : org <> "";
  nfse_found : lookup_nota w org "nfse" nota_id = Some n;
  nfse_draft : nf_status n = "rascunho";
  nfse_config : lookup_config w org = Some cfg;
  nfse_enabled : cfg_nfse_habilitado cfg = true;
  nfse_nome : Js.truthy (nf_destinatario_nome n) = true;
  nfse_cpf_cnpj : nf_destinatario_cpf_cnpj n = Some cpf_cnpj;
  nfse_cpf_cnpj_filled : cpf_cnpj <> ""
}.

(** The preconditions of goods emission other than the certificate
    check. *)
Record NfeComplete (w : World) (org nota_id : string) (n : NotaFiscal)
    (itens : list NotaItem) (cfg : FiscalConfig)
    (cpf_cnpj uf_dest : string) : Prop := {
  nfc_tenant : org <> "";
  nfc_found : lookup_nota w org "nfe" nota_id = Some n;
  nfc_draft : nf_status n = "rascunho";
  nfc_itens : lookup_itens w nota_id = itens;
  nfc_has_item : itens <> [];
  nfc_config : lookup_config w org = Some cfg;
  nfc_enabled : cfg_nfe_habilitado cfg = true;
  nfc_nome : Js.truthy (nf_destinatario_nome n) = true;
  nfc_cpf_cnpj : nf_destinatario_cpf_cnpj n = Some cpf_cnpj;
  nfc_cpf_cnpj_filled : cpf_cnpj <> "";
  nfc_logradouro : Js.truthy (nf_destinatario_logradouro n) = true;
  nfc_municipio : Js.truthy (nf_destinatario_municipio n) = true;
  nfc_uf : nf_destinatario_uf n = Some uf_dest;
  nfc_uf_filled : uf_dest <> ""
}.

(** The texts with which [emit_nfe] turns a request down before writing. *)
Definition nfe_rejections : list string :=
  [ "Erro: orgId obrigatório";
    "NFe não encontrada";
    "Apenas notas em rascunho podem ser emitidas";
    "Nota deve ter pelo menos um item";
    "Configuração fiscal não encontrada. Configure pelo app web.";
    "NFe não está habilitada na configuração fiscal";
    "Certificado digital expirado";
    "Dados do destinatário incompletos (nome e CPF/CNPJ obrigatórios)";
    "Endereço do destinatário incompleto" ].

(** The same for [emit_nfse]. *)
Definition nfse_rejections : list string :=
  [ "Erro: orgId obrigatório";
    "NFSe não encontrada";
    "Apenas notas em rascunho podem ser emitidas";
    "Configuração fiscal não encontrada. Configure pelo app web.";
    "NFSe não está habilitada na configuração fiscal";
    "Dados do tomador incompletos" ].

(** The attempt proper: what [emit_nfe] runs once the preconditions hold. *)
Definition nfe_attempt (rt : Runtime) (org nota_id : string) (n : NotaFiscal)
    (itens : list NotaItem) (cfg : FiscalConfig)
    (cpf_cnpj uf uf_dest : string) : M ToolResult :=
  let focusRef := generateFocusRef rt org "nfe" in
  try_catch
    (emit_nfe_try rt org nota_id cfg focusRef
       (nfePayload rt cfg n cpf_cnpj
          (focusItens (isMesmoEstado uf uf_dest) itens))
       (rt_now rt))
    (emit_catch "Erro ao emitir NFe: " org nota_id (rt_now rt)).

Definition nfse_attempt (rt : Runtime) (org nota_id : string) (n : NotaFiscal)
    (cfg : FiscalConfig) (cpf_cnpj : string) : M ToolResult :=
  let focusRef := generateFocusRef rt org "nfse" in
  try_catch
    (emit_nfse_try rt org nota_id cfg focusRef
       (nfsePayload rt cfg n cpf_cnpj) (rt_now rt))
    (emit_catch "Erro ao emitir NFSe: " org nota_id (rt_now rt)).

(** ** The vocabulary of the statements *)

(** The request an attempt sends: [path] is ["/v2/nfe?ref="] or
    ["/v2/nfse?ref="]. *)
Definition emission_request (rt : Runtime) (cfg : FiscalConfig)
    (path focusRef token : string) (body : Payload) : FetchRequest :=
  {| rq_url := resolveFocusApiUrl rt cfg
               ++ (path ++ rt_encodeURIComponent rt focusRef);
     rq_method := "POST";
     rq_basic_user := token;
     rq_body := Some body |}.

(** The message [focusFetch] throws for an answer, if it throws. *)
Definition thrown_message (answer : FetchOutcome) : option string :=
  match answer with
  | FetchRejected message => Some message
  | HttpError status errorData => Some (error_message status errorData)
  | HttpOk (inl message) => Some message
  | HttpOk (inr _) => None
  end.

(** The configuration rows of a tenant after the counter update of an
    answer mapped to [status]. *)
Definition advanced (k : Contador) (response : GatewayResponse)
    (status now : string) (rows : list FiscalConfig) : list FiscalConfig :=
  if status =? "autorizada" then
    match numero_of response with
    | Some numero => map (set_ultimo_numero k (Js.parseInt10 numero) now) rows
    | None => rows
    end
  else rows.

(** Both handlers run the same attempt, up to the endpoint, the payload,
    the status table, the counter and the columns written on success. *)
Section AttemptDefs.

Variables (rt : Runtime) (org nota_id : string) (cfg : FiscalConfig).
Variables (prefix path focusRef : string) (body : Payload).
Variable k : Contador.
Variable status_of : option string -> string.
Variable updateData : GatewayResponse -> string -> string -> NotaPatch.
Variable mensagem_of : GatewayResponse -> string.

Definition attempt_try : M ToolResult :=
  update_nota (patch_processando focusRef (rt_now rt)) nota_id ;;
  focusToken <- lift (resolveFocusToken rt cfg) ;;
  let focusApiUrl := resolveFocusApiUrl rt cfg in
  response <- focusFetch rt
    (path ++ rt_encodeURIComponent rt focusRef)
    {| opt_method := Some "POST";
       opt_token := focusToken;
       opt_apiUrl := focusApiUrl;
       opt_body := Some body |} ;;
  let status := status_of (resp_status response) in
  advance_ultimo_numero k response status (rt_now rt) org ;;
  update_nota (updateData response status (rt_now rt)) nota_id ;;
  insert_evento
    (evento_emissao org nota_id response (mensagem_of response)
       (rt_now rt)) ;;
  notaAtualizada <- select_nota (fun r => nf_id r =? nota_id) ;;
  ret (Success notaAtualizada (resp_status response)).

Definition attempt : M ToolResult :=
  try_catch attempt_try (emit_catch prefix org nota_id (rt_now rt)).

(** The rows of the document once the attempt has failed with [m]. *)
Definition failed (m : string) (rows : list NotaFiscal) : list NotaFiscal :=
  map (apply_patch (patch_erro m (rt_now rt)))
      (map (apply_patch (patch_processando focusRef (rt_now rt))) rows).

End AttemptDefs.

(** The table of the specification: the stored status that corresponds to
    a gateway status, for goods ([goods = true]) and for services. *)
Definition status_mapping (goods : bool) (gateway : option string)
    (stored_status : string) : Prop :=
  (gateway = Some "autorizado" -> stored_status = "autorizada")
  /\ (gateway = Some "erro_autorizacao" -> stored_status = "rejeitada")
  /\ (gateway = Some "denegado" ->
      stored_status = if goods then "rejeitada" else "processando")
  /\ (gateway <> Some "autorizado" ->
      gateway <> Some "erro_autorizacao" ->
      gateway <> Some "denegado" ->
      stored_status = "processando").

(** What a failed attempt leaves: every row of the document is in status
    erro with the message, and the event log has grown by exactly one row,
    of kind erro, for this document, with the message. *)
Definition failure_recorded (w w' : World) (nota_id m : string) : Prop :=
  stored w' nota_id <> []
  /\ Forall (fun r => nf_status r = "erro" /\ nf_mensagem_sefaz r = Some m)
       (stored w' nota_id)
  /\ exists e,
       fiscal_eventos w' = (fiscal_eventos w ++ [e])%list
       /\ ev_tipo e = "erro"
       /\ ev_nota_fiscal_id e = nota_id
       /\ ev_mensagem e = m
       /\ ev_dados e = DadosError m.

(** What a run that went past every check leaves, however the attempt
    ends: the document is stored, no row of it is a draft any more, and
    every row carries the reference id of the attempt. *)
Definition attempted (w' : World) (nota_id focusRef : string) : Prop :=
  stored w' nota_id <> []
  /\ Forall (fun r => nf_focus_nfe_ref r = Some focusRef
                      /\ nf_status r <> "rascunho")
       (stored w' nota_id).

(** The credential slot of the configured environment. *)
Definition credential_slot (cfg : FiscalConfig) : option string :=
  if Js.or_lit (cfg_focus_nfe_ambiente cfg) "homologacao" =? "producao"
  then cfg_focus_nfe_token_producao cfg
  else cfg_focus_nfe_token_homologacao cfg.

(** No credential resolves: the slot of the environment, the legacy field
    and the master credential of the process are all empty. *)
Definition no_credential (rt : Runtime) (cfg : FiscalConfig) : Prop :=
  Js.truthy (credential_slot cfg) = false
  /\ Js.truthy (cfg_focus_nfe_token cfg) = false
  /\ Js.truthy (rt_FOCUS_NFE_MASTER_TOKEN rt) = false.

(** What an attempt without a credential leaves: no gateway call, but the
    document in status erro with the reference id and the message, and one
    event row of kind erro. *)
Definition credential_failure_recorded (w w' : World)
    (org nota_id focusRef m now : string) : Prop :=
  gateway_calls w' = gateway_calls w
  /\ stored w' nota_id <> []
  /\ Forall (fun r => nf_status r = "erro"
                      /\ nf_focus_nfe_ref r = Some focusRef
                      /\ nf_mensagem_sefaz r = Some m)
       (stored w' nota_id)
  /\ fiscal_eventos w'
     = (fiscal_eventos w ++ [evento_erro org nota_id m now])%list.

Definition with_ambiente (ambiente : option string) (c : FiscalConfig)
  : FiscalConfig :=
  {| cfg_organization_id := cfg_organization_id c;
     cfg_nfe_habilitado := cfg_nfe_habilitado c;
     cfg_nfse_habilitado := cfg_nfse_habilitado c;
     cfg_certificado_validade := cfg_certificado_validade c;
     cfg_uf := cfg_uf c;
     cfg_cnpj := cfg_cnpj c;
     cfg_inscricao_municipal := cfg_inscricao_municipal c;
     cfg_codigo_municipio := cfg_codigo_municipio c;
     cfg_nfe_serie := cfg_nfe_serie c;
     cfg_nfse_aliquota_iss := cfg_nfse_aliquota_iss c;
     cfg_nfse_codigo_servico := cfg_nfse_codigo_servico c;
     cfg_focus_nfe_ambiente := ambiente;
     cfg_focus_nfe_token_producao := cfg_focus_nfe_token_producao c;
     cfg_focus_nfe_token_homologacao := cfg_focus_nfe_token_homologacao c;
     cfg_focus_nfe_token := cfg_focus_nfe_token c;
     cfg_nfe_ultimo_numero := cfg_nfe_ultimo_numero c;
     cfg_nfse_ultimo_numero := cfg_nfse_ultimo_numero c;
     cfg_updated_at := cfg_updated_at c |}.

(** Two characters that are equal, or the lower-case and upper-case form
    of one ASCII letter. *)
Definition same_char (a b : ascii) : Prop :=
  a = b
  \/ (Js.is_lower a = true /\ nat_of_ascii a = nat_of_ascii b + 32)
  \/ (Js.is_lower b = true /\ nat_of_ascii b = nat_of_ascii a + 32).

(** Case-insensitive equality of region codes, character by character. *)
Inductive same_region : string -> string -> Prop :=
| same_region_nil : same_region "" ""
| same_region_cons (a b : ascii) (s t : string) :
    same_char a b -> same_region s t ->
    same_region (String a s) (String b t).

(** Operation codes of sales inside the state start with 5, those of
    sales to another state with 6. *)
Definition cfop_interno (cfop : string) : Prop :=
  exists rest, cfop = String "5" rest.

Definition cfop_interestadual (cfop : string) : Prop :=
  exists rest, cfop = String "6" rest.

(** The field a digit string of a given length goes to: [cpf] and [cnpj]
    are the two fields of a payload. *)
Definition tax_id_placed (digits : string) (cpf cnpj : option string)
  : Prop :=
  (String.length digits = 11 -> cpf = Some digits /\ cnpj = None)
  /\ (String.length digits = 14 -> cnpj = Some digits /\ cpf = None).

Definition with_certificado (validade : option string) (c : FiscalConfig)
  : FiscalConfig :=
  {| cfg_organization_id := cfg_organization_id c;
     cfg_nfe_habilitado := cfg_nfe_habilitado c;
     cfg_nfse_habilitado := cfg_nfse_habilitado c;
     cfg_certificado_validade := validade;
     cfg_uf := cfg_uf c;
     cfg_cnpj := cfg_cnpj c;
     cfg_inscricao_municipal := cfg_inscricao_municipal c;
     cfg_codigo_municipio := cfg_codigo_municipio c;
     cfg_nfe_serie := cfg_nfe_serie c;
     cfg_nfse_aliquota_iss := cfg_nfse_aliquota_iss c;
     cfg_nfse_codigo_servico := cfg_nfse_codigo_servico c;
     cfg_focus_nfe_ambiente := cfg_focus_nfe_ambiente c;
     cfg_focus_nfe_token_producao := cfg_focus_nfe_token_producao c;
     cfg_focus_nfe_token_homologacao := cfg_focus_nfe_token_homologacao c;
     cfg_focus_nfe_token := cfg_focus_nfe_token c;
     cfg_nfe_ultimo_numero := cfg_nfe_ultimo_numero c;
     cfg_nfse_ultimo_numero := cfg_nfse_ultimo_numero c;
     cfg_updated_at := cfg_updated_at c |}.

(** The world in which every tenant has the certificate date [validade]. *)
Definition certificados (validade : option string) (w : World) : World :=
  {| notas_fiscais := notas_fiscais w;
     notas_fiscais_itens := notas_fiscais_itens w;
     fiscal_config := map (with_certificado validade) (fiscal_config w);
     fiscal_eventos := fiscal_eventos w;
     gateway_calls := gateway_calls w |}.

(** The runtime with another clock and date parser for the certificate
    check. *)
Definition with_clock (today : Z) (parse_date : string -> option Z)
    (rt : Runtime) : Runtime :=
  {| rt_date_now_36 := rt_date_now_36 rt;
     rt_random_36 := rt_random_36 rt;
     rt_today := today;
     rt_parse_date := parse_date;
     rt_payload_date := rt_payload_date rt;
     rt_now := rt_now rt;
     rt_FOCUS_NFE_MASTER_TOKEN := rt_FOCUS_NFE_MASTER_TOKEN rt;
     rt_FOCUS_NFE_API_URL := rt_FOCUS_NFE_API_URL rt;
     rt_encodeURIComponent := rt_encodeURIComponent rt;
     rt_fetch := rt_fetch rt |}.

(** A step that neither reads nor writes the certificate date: run in the
    world with another date, it returns the same and leaves the same world
    up to that date. *)
Definition blind {A} (c : M A) : Prop :=
  forall validade w,
    c (certificados validade w)
    = (fst (c w), certificados validade (snd (c w))).

Module Scenario.
Import Sample.

(** Two drafts, one of each kind, an issued goods document, and a goods
    draft without items. *)
Definition nota_nf1 : NotaFiscal :=
  nota "nf-1" "nfe" "rascunho" "12.345.678/0001-95".
Definition nota_nfs1 : NotaFiscal :=
  nota "nfs-1" "nfse" "rascunho" "123.456.789-09".

Definition notas : list NotaFiscal :=
  [ nota_nf1;
    nota_nfs1;
    nota "nf-2" "nfe" "autorizada" "12.345.678/0001-95";
    nota "nf-3" "nfe" "rascunho" "12.345.678/0001-95" ].

Definition itens : list NotaItem :=
  [ item "it-2" "nf-1" 2 (Some "5933");
    item "it-1" "nf-1" 1 None;
    item "it-3" "nf-2" 1 None ].

(** The items of the first draft, in emission order. *)
Definition itens_nf1 : list NotaItem :=
  [ item "it-1" "nf-1" 1 None; item "it-2" "nf-1" 2 (Some "5933") ].

(** The tenant with a sandbox credential and both counters at 200. *)
Definition cfg : FiscalConfig :=
  config None (Some "tok-h") None (Some 200%Z) (Some 200%Z).

(** The same tenant without any credential. *)
Definition cfg_sem_token : FiscalConfig :=
  config None None None (Some 200%Z) (Some 200%Z).

Definition w : World := world notas itens cfg.
Definition w_sem_token : World := world notas itens cfg_sem_token.

Definition autorizado_123 : GatewayResponse :=
  response (Some "autorizado") (Some "123").
Definition denegado : GatewayResponse := response (Some "denegado") None.

Definition rt_autorizado : Runtime := runtime (HttpOk (inr autorizado_123)).
Definition rt_denegado : Runtime := runtime (HttpOk (inr denegado)).
Definition rt_offline : Runtime := runtime (FetchRejected "fetch failed").

(** The requests the two handlers send for the two drafts. *)
Definition pedido_nfe : FetchRequest :=
  emission_request rt_offline cfg "/v2/nfe?ref="
    (generateFocusRef rt_offline org "nfe") "tok-h"
    (PayloadNfe
       (nfePayload rt_offline cfg nota_nf1 "12.345.678/0001-95"
          (focusItens (isMesmoEstado "SP" "sp") itens_nf1))).

Definition pedido_nfse : FetchRequest :=
  emission_request rt_offline cfg "/v2/nfse?ref="
    (generateFocusRef rt_offline org "nfse") "tok-h"
    (PayloadNfse (nfsePayload rt_offline cfg nota_nfs1 "123.456.789-09")).

(** The world after goods emission of the first draft, without any
    credential and with the gateway answering autorizado, number 123. *)
Definition after_sem_token : World :=
  snd (emit_nfe rt_offline (Some org) "nf-1" w_sem_token).

Definition after_autorizado : World :=
  snd (emit_nfe rt_autorizado (Some org) "nf-1" w).

End Scenario.

(** ** The rest of the tools file, and the way a tenant reaches it *)

(** What [get_nota_fiscal] returns: a text, or the JSON of the document
    with its items under [itens]. *)
Inductive ConsultaResult :=
| ConsultaText (text : string)
| ConsultaNota (nota : NotaFiscal) (itens : list NotaItem).

(** String primitives of the entry points. *)
Module JsText.

(** [s.trimEnd()] for an ASCII text [s]. *)
Fixpoint trim_end (s : string) : string :=
  match s with
  | EmptyString => EmptyString
  | String c s' =>
      match trim_end s' with
      | EmptyString => if Js.is_space c then EmptyString
                       else String c EmptyString
      | t => String c t
      end
  end.

(** [s.trim()] for an ASCII text [s]; white space outside ASCII, which the
    code removes too, stays. *)
Definition trim (s : string) : string := trim_end (Js.trim_start s).

(** [s.slice(n)] for [n >= 0]. *)
Fixpoint slice (n : nat) (s : string) : string :=
  match n, s with
  | O, _ => s
  | S n', String _ s' => slice n' s'
  | S _, EmptyString => EmptyString
  end.

(** [s.startsWith(p)]. *)
Definition startsWith (p s : string) : bool := String.prefix p s.

End JsText.

(** [extractBearerToken], on the [Authorization] header of the request. *)
Definition extractBearerToken (authorization : option string)
  : option string :=
  match authorization with
  | Some auth =>
      if JsText.startsWith "Bearer " auth then
        match JsText.trim (JsText.slice 7 auth) with
        | EmptyString => None
        | token => Some token
        end
      else None
  | None => None
  end.

(** A row of [api_keys], as far as [resolveOrgId] reads it. *)
Record ApiKey := {
  ak_key_hash : string;
  ak_active : bool;
  ak_organization_id : string
}.

(** The process environment of the entry points, and the digest of
    [createHash('sha256')], in hexadecimal. *)
Record AuthEnv := {
  env_GV_API_KEY : option string;
  env_MASTER_API_KEY : option string;
  env_GV_ORG_ID : option string;
  env_SUPABASE_URL : option string;
  env_SUPABASE_SERVICE_ROLE_KEY : option string;
  env_sha256_hex : string -> string
}.

(** [getSupabase]: [client] tells whether the client was created before;
    [inl] is the message it throws. *)
Definition getSupabase (env : AuthEnv) (client : bool) : string + unit :=
  if client then inr tt
  else
    if negb (Js.truthy (env_SUPABASE_URL env))
       || negb (Js.truthy (env_SUPABASE_SERVICE_ROLE_KEY env))
    then inl "Variáveis SUPABASE_URL e SUPABASE_SERVICE_ROLE_KEY são obrigatórias"
    else inr tt.

(** [get_nota_fiscal]: the document of the tenant with this id, of either
    kind, and its items. [getSupabase] throws out of the handler when the
    client was never created and the store variables are not set, which a
    session of the master key can reach. The two reads of [Promise.all]
    are run one after the other; neither writes. *)
Definition get_nota_fiscal (env : AuthEnv) (client : bool)
    (orgId : option string) (id : string) : M ConsultaResult :=
  match orgId with
  | Some (String o os) =>
  let org := String o os in
  lift (getSupabase env client) ;;
  notaResult <- select_nota (fun r => (nf_id r =? id)
                                      && (nf_organization_id r =? org)) ;;
  itensResult <- select_itens id ;;
  match notaResult with
  | None => ret (ConsultaText "Nota fiscal não encontrada")
  | Some nota => ret (ConsultaNota nota itensResult)
  end
  | _ => ret (ConsultaText "Erro: orgId obrigatório")
  end.

(** [resolveOrgId]: [inr (Some org)] is a tenant, [inr None] the
    cross-tenant session of the master key, [inl] the message thrown. *)
Definition resolveOrgId (env : AuthEnv) (client : bool)
    (api_keys : list ApiKey) (apiKey orgIdOverride : option string)
  : string + option string :=
  match Js.or apiKey (env_GV_API_KEY env) with
  | Some (String k ks) =>
      let key := String k ks in
      let masterKey := env_MASTER_API_KEY env in
      if Js.truthy masterKey
         && match masterKey with Some m => key =? m | None => false end
      then
        match Js.or orgIdOverride (env_GV_ORG_ID env) with
        | Some (String o os) => inr (Some (String o os))
        | _ => inr None
        end
      else
        let keyHash := env_sha256_hex env key in
        match getSupabase env client with
        | inl message => inl message
        | inr _ =>
            match single (filter (fun r => (ak_key_hash r =? keyHash)
                                           && ak_active r) api_keys) with
            | Some data => inr (Some (ak_organization_id data))
            | None =>
                inl "API key inválida — verifique a chave e tente novamente"
            end
        end
  | _ => inl "API key é obrigatória (GV_API_KEY ou header Authorization)"
  end.

(** ** Relations between the world before and after a run *)

(** Document rows are neither added, removed nor given another id, and
    the rows with an id other than [nota_id] are the same. *)
Definition other_documents_kept (nota_id : string) (w w' : World) : Prop :=
  map nf_id (notas_fiscais w') = map nf_id (notas_fiscais w)
  /\ forall id, id <> nota_id -> stored w' id = stored w id.

(** The event table has grown by [added], all rows of which are of the
    tenant and the document. *)
Definition events_appended (org nota_id : string) (w w' : World)
    (added : list FiscalEvento) : Prop :=
  fiscal_eventos w' = (fiscal_eventos w ++ added)%list
  /\ Forall (fun e => ev_organization_id e = org
                      /\ ev_nota_fiscal_id e = nota_id) added.

(** What a run may change in [fiscal_config]: the last number of kind [k]
    and the time stamp, in the rows of tenant [org]. *)
Definition config_but_counter (k : Contador) (c : FiscalConfig)
  : FiscalConfig :=
  set_ultimo_numero k None "" c.

Definition config_kept (orgId : option string) (k : Contador)
    (w w' : World) : Prop :=
  map (config_but_counter k) (fiscal_config w')
  = map (config_but_counter k) (fiscal_config w)
  /\ forall org, orgId <> Some org -> stored_config w' org = stored_config w org.


(** Every character is a decimal digit. *)
Definition all_digits (s : string) : Prop :=
  Forall (fun c => Js.is_digit c = true) (list_ascii_of_string s).

(** No white space at either end. *)
Definition trimmed (s : string) : Prop :=
  Js.trim_start s = s /\ JsText.trim_end s = s.

(** Items in ascending order of their stored number. *)
Definition by_numero_item (a b : NotaItem) : Prop :=
  (it_numero_item a <= it_numero_item b)%Z.

(** A step keeps a relation between the world it starts in and the world
    it leaves. *)
Definition keeps {A} (R : World -> World -> Prop) (c : M A) : Prop :=
  forall w, R w (snd (c w)).

(** What a run may not change outside the document: the other documents
    and the line items. *)
Definition outside_kept (nota_id : string) (w w' : World) : Prop :=
  other_documents_kept nota_id w w'
  /\ notas_fiscais_itens w' = notas_fiscais_itens w.

(** ** More sample data: a tenant without region, and an entry point *)

Module Cases.

(** The sample tenant without a region code. *)
Definition cfg_sem_uf : FiscalConfig :=
  {| cfg_organization_id := Sample.org;
     cfg_nfe_habilitado := true; cfg_nfse_habilitado := true;
     cfg_certificado_validade := None;
     cfg_uf := None; cfg_cnpj := Some "12.345.678/0001-90";
     cfg_inscricao_municipal := Some "123";
     cfg_codigo_municipio := Some "3509502";
     cfg_nfe_serie := Some 1%Z; cfg_nfse_aliquota_iss := None;
     cfg_nfse_codigo_servico := None;
     cfg_focus_nfe_ambiente := Some "Producao";
     cfg_focus_nfe_token_producao := Some "tok-p";
     cfg_focus_nfe_token_homologacao := Some "tok-h";
     cfg_focus_nfe_token := None;
     cfg_nfe_ultimo_numero := None;
     cfg_nfse_ultimo_numero := None;
     cfg_updated_at := None |}.

Definition w_sem_uf : World :=
  Sample.world Scenario.notas Scenario.itens cfg_sem_uf.

(** The sample world in which the goods draft carries the gateway status
    of an earlier life, and a gateway whose answer has no status. *)
Definition w_status_antigo : World :=
  snd (update_nota
         {| p_status := None; p_focus_nfe_ref := None; p_serie := None;
            p_numero := None; p_chave_acesso := None; p_protocolo := None;
            p_focus_nfe_status := Some (Some "erro_autorizacao");
            p_status_sefaz := None; p_mensagem_sefaz := None;
            p_url_xml := None; p_url_danfe := None; p_url_pdf := None;
            p_data_emissao := None; p_updated_at := None |}
         "nf-1" Scenario.w).

Definition sem_status : GatewayResponse := Sample.response None None.

Definition rt_sem_status : Runtime := Sample.runtime (HttpOk (inr sem_status)).




Definition options : FocusOptions :=
  {| opt_method := Some "POST"; opt_body := None; opt_token := "tok-h";
     opt_apiUrl := "https://homologacao.focusnfe.com.br" |}.

(** An entry point with a master key, whose digest is a toy one, and a
    table with one active and one revoked key. *)
Definition env : AuthEnv :=
  {| env_GV_API_KEY := None;
     env_MASTER_API_KEY := Some "master-key";
     env_GV_ORG_ID := None;
     env_SUPABASE_URL := Some "https://db.example";
     env_SUPABASE_SERVICE_ROLE_KEY := Some "service-role";
     env_sha256_hex := fun key => "sha:" ++ key |}.

(** The same process without the variables of the store. *)
Definition env_sem_store : AuthEnv :=
  {| env_GV_API_KEY := None;
     env_MASTER_API_KEY := Some "master-key";
     env_GV_ORG_ID := None;
     env_SUPABASE_URL := None;
     env_SUPABASE_SERVICE_ROLE_KEY := None;
     env_sha256_hex := fun key => "sha:" ++ key |}.

Definition api_keys : list ApiKey :=
  [ {| ak_key_hash := "sha:key-a"; ak_active := true;
       ak_organization_id := Sample.org |};
    {| ak_key_hash := "sha:key-b"; ak_active := false;
       ak_organization_id := "org-0002-bbbb" |} ].

End Cases.

(** What an answered submission leaves besides the status: the handler
    returns the document as re-read with the gateway status, the document
    carries the time of the run and the gateway status, text or [null],
    or the status text it had when the answer has no status at all, and
    the one event row appended is of kind emissao and holds the raw
    answer, with the gateway status when the answer has one. *)
Definition answer_recorded (rt : Runtime) (nota_id : string)
    (response : GatewayResponse) (w w' : World) (result : Outcome ToolResult)
  : Prop :=
  result = Returned (Success (single (stored w' nota_id))
                             (resp_status response))
  /\ Forall (fun r => nf_updated_at r = Some (rt_now rt)) (stored w' nota_id)
  /\ (resp_status response <> None \/ resp_status_null response = true ->
      Forall (fun r => nf_focus_nfe_status r = resp_status response)
        (stored w' nota_id))
  /\ (resp_status response = None -> resp_status_null response = false ->
      map nf_focus_nfe_status (stored w' nota_id)
      = map nf_focus_nfe_status (stored w nota_id))
  /\ exists e,
       fiscal_eventos w' = (fiscal_eventos w ++ [e])%list
       /\ ev_tipo e = "emissao"
       /\ ev_nota_fiscal_id e = nota_id
       /\ ev_dados e = DadosResponse response
       /\ (resp_status response <> None
           \/ resp_status_null response = true ->
           ev_status e = resp_status response).

(** The number of a document and the configuration rows of its tenant are
    as before. *)
Definition number_untouched (org nota_id : string) (w w' : World) : Prop :=
  map nf_numero (stored w' nota_id) = map nf_numero (stored w nota_id)
  /\ stored_config w' org = stored_config w org.

(** ** The shape of a run *)

Lemma bind_nota (org tipo nota_id : string) {A}
    (k : option NotaFiscal -> M A) (w : World) :
  bind (select_nota (fun r => (nf_id r =? nota_id)
                              && (nf_organization_id r =? org)
                              && (nf_tipo r =? tipo))) k w
  = k (lookup_nota w org tipo nota_id) w.
Proof. reflexivity. Qed.

Lemma bind_itens (nota_id : string) {A} (k : list NotaItem -> M A)
    (w : World) :
  bind (select_itens nota_id) k w = k (lookup_itens w nota_id) w.
Proof. reflexivity. Qed.

Lemma bind_config (org : string) {A} (k : option FiscalConfig -> M A)
    (w : World) :
  bind (select_config org) k w = k (lookup_config w org) w.
Proof. reflexivity. Qed.

(** Closes a branch in which the handler returns a text at once. *)
Ltac turned_down :=
  left; eexists; split; [|reflexivity]; simpl; tauto.

(** A run of [emit_nfe] is turned down with the world untouched, or throws
    on a tenant without a region code with the world untouched, or is the
    attempt proper on a request that met every precondition. *)
Lemma emit_nfe_cases (rt : Runtime) (orgId : option string)
    (nota_id : string) (w : World) :
  (exists msg, In msg nfe_rejections
               /\ emit_nfe rt orgId nota_id w = (Returned (Text msg), w))
  \/ (exists org n itens cfg cpf_cnpj uf_dest,
        orgId = Some org
        /\ NfeReady rt w org nota_id n itens cfg cpf_cnpj uf_dest
        /\ ((cfg_uf cfg = None
             /\ exists m, emit_nfe rt orgId nota_id w = (Thrown m, w))
            \/ exists uf, cfg_uf cfg = Some uf
                 /\ emit_nfe rt orgId nota_id w
                    = nfe_attempt rt org nota_id n itens cfg cpf_cnpj
                        uf uf_dest w)).
Proof.
  unfold emit_nfe, nfe_rejections.
  destruct orgId as [[|o os]|]; [turned_down| |turned_down].
  set (org := String o os).
  rewrite bind_nota.
  destruct (lookup_nota w org "nfe" nota_id) as [n|] eqn:Hn;
    [|turned_down].
  destruct (nf_status n =? "rascunho") eqn:Hst; cbn [negb];
    [|turned_down].
  rewrite bind_itens.
  destruct (lookup_itens w nota_id) as [|i0 itens] eqn:Hit;
    [turned_down|].
  rewrite bind_config.
  destruct (lookup_config w org) as [cfg|] eqn:Hcfg;
    [|turned_down].
  destruct (cfg_nfe_habilitado cfg) eqn:Hen; cbn [negb];
    [|turned_down].
  destruct (certificado_expirado rt cfg) eqn:Hce;
    [turned_down|].
  destruct (nf_destinatario_nome n) as [[|c1 s1]|] eqn:Hnome;
    try turned_down.
  destruct (nf_destinatario_cpf_cnpj n) as [[|c2 s2]|] eqn:Hcpf;
    try turned_down.
  destruct (nf_destinatario_logradouro n) as [[|c3 s3]|] eqn:Hlog;
    try turned_down.
  destruct (nf_destinatario_municipio n) as [[|c4 s4]|] eqn:Hmun;
    try turned_down.
  destruct (nf_destinatario_uf n) as [[|c5 s5]|] eqn:Huf;
    try turned_down.
  right. exists org, n, (i0 :: itens), cfg, (String c2 s2), (String c5 s5).
  split; [reflexivity|]. split.
  - constructor; auto; try discriminate.
    + apply String.eqb_eq; assumption.
    + rewrite Hnome; reflexivity.
    + rewrite Hlog; reflexivity.
    + rewrite Hmun; reflexivity.
  - destruct (cfg_uf cfg) as [uf|].
    + right. exists uf. split; reflexivity.
    + left. split; [reflexivity|]. eexists; reflexivity.
Qed.

(** The same for [emit_nfse], which has no third case. *)
Lemma emit_nfse_cases (rt : Runtime) (orgId : option string)
    (nota_id : string) (w : World) :
  (exists msg, In msg nfse_rejections
               /\ emit_nfse rt orgId nota_id w = (Returned (Text msg), w))
  \/ (exists org n cfg cpf_cnpj,
        orgId = Some org
        /\ NfseReady w org nota_id n cfg cpf_cnpj
        /\ emit_nfse rt orgId nota_id w
           = nfse_attempt rt org nota_id n cfg cpf_cnpj w).
Proof.
  unfold emit_nfse, nfse_rejections.
  destruct orgId as [[|o os]|]; [turned_down| |turned_down].
  set (org := String o os).
  rewrite bind_nota.
  destruct (lookup_nota w org "nfse" nota_id) as [n|] eqn:Hn;
    [|turned_down].
  destruct (nf_status n =? "rascunho") eqn:Hst; cbn [negb];
    [|turned_down].
  rewrite bind_config.
  destruct (lookup_config w org) as [cfg|] eqn:Hcfg;
    [|turned_down].
  destruct (cfg_nfse_habilitado cfg) eqn:Hen; cbn [negb];
    [|turned_down].
  destruct (nf_destinatario_nome n) as [[|c1 s1]|] eqn:Hnome;
    try turned_down.
  destruct (nf_destinatario_cpf_cnpj n) as [[|c2 s2]|] eqn:Hcpf;
    try turned_down.
  right. exists org, n, cfg, (String c2 s2).
  split; [reflexivity|]. split; [|reflexivity].
  constructor; auto; try discriminate.
  - apply String.eqb_eq; assumption.
  - rewrite Hnome; reflexivity.
Qed.

(** ** What each step does to a world *)

Lemma single_In {A} (l : list A) (a : A) : single l = Some a -> In a l.
Proof.
  destruct l as [|x [|y l]]; simpl; try discriminate.
  intros [= ->]. now left.
Qed.

Lemma lookup_nota_stored (w : World) (org tipo nota_id : string)
    (n : NotaFiscal) :
  lookup_nota w org tipo nota_id = Some n -> In n (stored w nota_id).
Proof.
  unfold lookup_nota, stored. intros H%single_In.
  apply filter_In in H as [Hin Hp].
  apply filter_In. split; [assumption|].
  apply andb_true_iff in Hp as [Hp _].
  apply andb_true_iff in Hp as [Hp _]. exact Hp.
Qed.

Lemma lookup_config_stored (w : World) (org : string) (cfg : FiscalConfig) :
  lookup_config w org = Some cfg -> In cfg (stored_config w org).
Proof. unfold lookup_config, stored_config. apply single_In. Qed.

Lemma stored_update_nota (patch : NotaPatch) (nota_id : string) (w : World) :
  stored (snd (update_nota patch nota_id w)) nota_id
  = map (apply_patch patch) (stored w nota_id).
Proof.
  unfold stored, update_nota; cbn [snd notas_fiscais].
  induction (notas_fiscais w) as [|r l IH]; [reflexivity|].
  cbn [map filter].
  destruct (nf_id r =? nota_id) eqn:E.
  - change (nf_id (apply_patch patch r)) with (nf_id r).
    rewrite E. cbn [map]. now rewrite IH.
  - rewrite E. exact IH.
Qed.

Lemma stored_config_update (k : Contador) (numero : option Z)
    (now org : string) (w : World) :
  stored_config (snd (update_ultimo_numero k numero now org w)) org
  = map (set_ultimo_numero k numero now) (stored_config w org).
Proof.
  unfold stored_config, update_ultimo_numero; cbn [snd fiscal_config].
  induction (fiscal_config w) as [|c l IH]; [reflexivity|].
  cbn [map filter].
  destruct (cfg_organization_id c =? org) eqn:E.
  - change (cfg_organization_id (set_ultimo_numero k numero now c))
      with (cfg_organization_id c).
    rewrite E. cbn [map]. now rewrite IH.
  - rewrite E. exact IH.
Qed.

(** What the [catch] block leaves behind. *)
Lemma emit_catch_effect (prefix org nota_id now message : string)
    (w : World) :
  exists w',
    emit_catch prefix org nota_id now message w
    = (Returned (Text (prefix ++ message)), w')
    /\ stored w' nota_id
       = map (apply_patch (patch_erro message now)) (stored w nota_id)
    /\ fiscal_eventos w'
       = (fiscal_eventos w ++ [evento_erro org nota_id message now])%list
    /\ gateway_calls w' = gateway_calls w
    /\ fiscal_config w' = fiscal_config w
    /\ notas_fiscais_itens w' = notas_fiscais_itens w.
Proof.
  eexists. split; [reflexivity|].
  repeat split.
  exact (stored_update_nota (patch_erro message now) nota_id w).
Qed.

Lemma advance_effect (k : Contador) (response : GatewayResponse)
    (status now org : string) (w : World) :
  exists w',
    advance_ultimo_numero k response status now org w = (Returned tt, w')
    /\ notas_fiscais w' = notas_fiscais w
    /\ notas_fiscais_itens w' = notas_fiscais_itens w
    /\ fiscal_eventos w' = fiscal_eventos w
    /\ gateway_calls w' = gateway_calls w
    /\ stored_config w' org
       = advanced k response status now (stored_config w org).
Proof.
  unfold advance_ultimo_numero, advanced.
  destruct (status =? "autorizada");
    [destruct (numero_of response) as [numero|]|];
    try (exists w; repeat split; reflexivity).
  eexists. split; [reflexivity|]. repeat split.
  exact (stored_config_update k (Js.parseInt10 numero) now org w).
Qed.

(** ** The attempt proper *)

(** The lemmas on the attempt, under the parameters it was defined with. *)
Section Attempt.

Variables (rt : Runtime) (org nota_id : string) (cfg : FiscalConfig).
Variables (prefix path focusRef : string) (body : Payload).
Variable k : Contador.
Variable status_of : option string -> string.
Variable updateData : GatewayResponse -> string -> string -> NotaPatch.
Variable mensagem_of : GatewayResponse -> string.

Local Abbreviation attempt :=
  (attempt rt org nota_id cfg prefix path focusRef body k status_of
     updateData mensagem_of).
Local Abbreviation failed := (failed rt focusRef).

Lemma attempt_no_credential (m : string) (w : World) :
  resolveFocusToken rt cfg = inl m ->
  exists w',
    attempt w = (Returned (Text (prefix ++ m)), w')
    /\ stored w' nota_id = failed m (stored w nota_id)
    /\ fiscal_eventos w'
       = (fiscal_eventos w ++ [evento_erro org nota_id m (rt_now rt)])%list
    /\ gateway_calls w' = gateway_calls w
    /\ fiscal_config w' = fiscal_config w.
Proof.
  intros Htok.
  unfold attempt, try_catch, attempt_try, bind at 1 2.
  rewrite Htok. cbn [lift throw update_nota].
  destruct (emit_catch_effect prefix org nota_id (rt_now rt) m
              (snd (update_nota (patch_processando focusRef (rt_now rt))
                      nota_id w)))
    as (w' & Hrun & Hst & Hev & Hgw & Hcf & _).
  exists w'. split; [exact Hrun|].
  rewrite Hst, stored_update_nota. repeat split; assumption.
Qed.

Lemma attempt_failure (token m : string) (w : World) :
  resolveFocusToken rt cfg = inr token ->
  thrown_message
    (rt_fetch rt (emission_request rt cfg path focusRef token body))
  = Some m ->
  exists w',
    attempt w = (Returned (Text (prefix ++ m)), w')
    /\ stored w' nota_id = failed m (stored w nota_id)
    /\ fiscal_eventos w'
       = (fiscal_eventos w ++ [evento_erro org nota_id m (rt_now rt)])%list
    /\ gateway_calls w'
       = (gateway_calls w
          ++ [emission_request rt cfg path focusRef token body])%list
    /\ fiscal_config w' = fiscal_config w.
Proof.
  intros Htok Hm.
  unfold attempt, try_catch, attempt_try, bind at 1 2 3.
  rewrite Htok. cbn [lift ret update_nota].
  unfold focusFetch, bind at 1, fetch.
  cbn [opt_method opt_token opt_apiUrl opt_body Js.or_lit].
  fold (emission_request rt cfg path focusRef token body).
  set (rq := emission_request rt cfg path focusRef token body) in *.
  set (w2 := {| notas_fiscais := _; gateway_calls := (_ ++ [rq])%list |}).
  assert (Hthrow :
    match rt_fetch rt rq with
    | FetchRejected message => throw message
    | HttpError status errorData => throw (error_message status errorData)
    | HttpOk (inl message) => throw message
    | HttpOk (inr b) => ret b
    end w2 = (@Thrown GatewayResponse m, w2)).
  { destruct (rt_fetch rt rq) as [m'|st ed|[m'|r]]; simpl in Hm;
      inversion Hm; reflexivity. }
  rewrite Hthrow.
  destruct (emit_catch_effect prefix org nota_id (rt_now rt) m w2)
    as (w' & Hrun & Hst & Hev & Hgw & Hcf & _).
  exists w'. split; [exact Hrun|].
  rewrite Hst.
  change (stored w2 nota_id)
    with (stored (snd (update_nota
                         (patch_processando focusRef (rt_now rt))
                         nota_id w)) nota_id).
  rewrite stored_update_nota. repeat split; assumption.
Qed.

Lemma attempt_success (token : string) (response : GatewayResponse)
    (w : World) :
  resolveFocusToken rt cfg = inr token ->
  rt_fetch rt (emission_request rt cfg path focusRef token body)
  = HttpOk (inr response) ->
  let status := status_of (resp_status response) in
  exists w',
    attempt w
    = (Returned (Success (single (stored w' nota_id))
                         (resp_status response)), w')
    /\ stored w' nota_id
       = map (apply_patch (updateData response status (rt_now rt)))
           (map (apply_patch (patch_processando focusRef (rt_now rt)))
                (stored w nota_id))
    /\ fiscal_eventos w'
       = (fiscal_eventos w
          ++ [evento_emissao org nota_id response (mensagem_of response)
                (rt_now rt)])%list
    /\ gateway_calls w'
       = (gateway_calls w
          ++ [emission_request rt cfg path focusRef token body])%list
    /\ stored_config w' org
       = advanced k response status (rt_now rt) (stored_config w org).
Proof.
  intros Htok Hans status.
  unfold attempt, try_catch, attempt_try, bind at 1 2 3.
  rewrite Htok. cbn [lift ret update_nota].
  unfold focusFetch, bind at 1, fetch.
  cbn [opt_method opt_token opt_apiUrl opt_body Js.or_lit].
  fold (emission_request rt cfg path focusRef token body).
  set (rq := emission_request rt cfg path focusRef token body) in *.
  rewrite Hans. cbn [ret]. fold status.
  set (w2 := {| notas_fiscais := _; gateway_calls := (_ ++ [rq])%list |}).
  unfold bind at 1.
  destruct (advance_effect k response status (rt_now rt) org w2)
    as (w3 & Hrun & Hn3 & _ & He3 & Hg3 & Hc3).
  rewrite Hrun.
  unfold bind, insert_evento, select_nota, ret; cbn [update_nota].
  eexists. split; [reflexivity|].
  split; [|repeat split].
  - change (stored ?w nota_id)
      with (filter (fun r => nf_id r =? nota_id) (notas_fiscais w)) at 1.
    cbn [notas_fiscais].
    change (filter (fun r => nf_id r =? nota_id)
              (map (fun r => if nf_id r =? nota_id
                             then apply_patch
                                    (updateData response status (rt_now rt)) r
                             else r) (notas_fiscais w3)))
      with (stored (snd (update_nota
                           (updateData response status (rt_now rt))
                           nota_id w3)) nota_id).
    rewrite stored_update_nota.
    unfold stored at 1. rewrite Hn3.
    change (filter (fun r => nf_id r =? nota_id) (notas_fiscais w2))
      with (stored (snd (update_nota
                           (patch_processando focusRef (rt_now rt))
                           nota_id w)) nota_id).
    now rewrite stored_update_nota.
  - cbn [fiscal_eventos]. now rewrite He3.
  - cbn [gateway_calls]. now rewrite Hg3.
  - exact Hc3.
Qed.

Lemma thrown_or_answer (answer : FetchOutcome) :
  (exists m, thrown_message answer = Some m)
  \/ (exists response, answer = HttpOk (inr response)).
Proof.
  destruct answer as [m|st ed|[m|r]]; simpl; eauto.
Qed.

(** An attempt that reached the gateway had a credential, and sent the
    request built from it. *)
Lemma attempt_calls (w : World) (rq : FetchRequest) :
  gateway_calls (snd (attempt w)) = (gateway_calls w ++ [rq])%list ->
  exists token,
    resolveFocusToken rt cfg = inr token
    /\ rq = emission_request rt cfg path focusRef token body.
Proof.
  intros Hcalls.
  destruct (resolveFocusToken rt cfg) as [m|token] eqn:Htok.
  - destruct (attempt_no_credential m w Htok)
      as (w' & Hrun & _ & _ & Hgw & _).
    rewrite Hrun in Hcalls; cbn [snd] in Hcalls.
    rewrite Hgw in Hcalls.
    apply (f_equal (@List.length _)) in Hcalls.
    rewrite length_app in Hcalls; simpl in Hcalls; lia.
  - exists token. split; [reflexivity|].
    assert (Hgw : gateway_calls (snd (attempt w))
                  = (gateway_calls w
                     ++ [emission_request rt cfg path focusRef token body])
                    %list).
    { destruct (thrown_or_answer
                  (rt_fetch rt
                     (emission_request rt cfg path focusRef token body)))
        as [(m & Hm)|(response & Hans)].
      - destruct (attempt_failure token m w Htok Hm)
          as (w' & Hrun & _ & _ & Hgw & _).
        now rewrite Hrun.
      - destruct (attempt_success token response w Htok Hans)
          as (w' & Hrun & _ & _ & Hgw & _).
        now rewrite Hrun. }
    rewrite Hgw in Hcalls.
    apply app_inj_tail in Hcalls as [_ Hrq]. now symmetry.
Qed.

End Attempt.

Lemma nfe_attempt_eq (rt : Runtime) (org nota_id : string) (n : NotaFiscal)
    (itens : list NotaItem) (cfg : FiscalConfig)
    (cpf_cnpj uf uf_dest : string) :
  nfe_attempt rt org nota_id n itens cfg cpf_cnpj uf uf_dest
  = attempt rt org nota_id cfg "Erro ao emitir NFe: " "/v2/nfe?ref="
      (generateFocusRef rt org "nfe")
      (PayloadNfe (nfePayload rt cfg n cpf_cnpj
                     (focusItens (isMesmoEstado uf uf_dest) itens)))
      NfeUltimoNumero nfe_status (nfe_updateData cfg)
      (fun r => Js.or_lit (resp_mensagem_sefaz r)
                          "NFe enviada para processamento").
Proof. reflexivity. Qed.

Lemma nfse_attempt_eq (rt : Runtime) (org nota_id : string) (n : NotaFiscal)
    (cfg : FiscalConfig) (cpf_cnpj : string) :
  nfse_attempt rt org nota_id n cfg cpf_cnpj
  = attempt rt org nota_id cfg "Erro ao emitir NFSe: " "/v2/nfse?ref="
      (generateFocusRef rt org "nfse")
      (PayloadNfse (nfsePayload rt cfg n cpf_cnpj))
      NfseUltimoNumero nfse_status nfse_updateData
      (fun r => Js.or_lit (resp_mensagem r)
                          "NFSe enviada para processamento").
Proof. reflexivity. Qed.

Lemma calls_grew {A} (l : list A) (x : A) : l <> (l ++ [x])%list.
Proof.
  intros H. apply (f_equal (@List.length _)) in H.
  rewrite length_app in H; simpl in H; lia.
Qed.

(** A run of [emit_nfe] that reached the gateway met every precondition
    and is an attempt. *)
Lemma emit_nfe_called (rt : Runtime) (orgId : option string)
    (nota_id : string) (w : World) (rq : FetchRequest) :
  gateway_calls (snd (emit_nfe rt orgId nota_id w))
  = (gateway_calls w ++ [rq])%list ->
  exists org n itens cfg cpf_cnpj uf uf_dest,
    orgId = Some org
    /\ NfeReady rt w org nota_id n itens cfg cpf_cnpj uf_dest
    /\ cfg_uf cfg = Some uf
    /\ emit_nfe rt orgId nota_id w
       = nfe_attempt rt org nota_id n itens cfg cpf_cnpj uf uf_dest w.
Proof.
  intros Hcalls.
  destruct (emit_nfe_cases rt orgId nota_id w)
    as [(msg & _ & Heq)
       |(org & n & itens & cfg & cpf & ufd & Horg & Hready
           & [(_ & m & Heq)|(uf & Huf & Heq)])].
  - rewrite Heq in Hcalls. exfalso; exact (calls_grew _ _ Hcalls).
  - rewrite Heq in Hcalls. exfalso; exact (calls_grew _ _ Hcalls).
  - exists org, n, itens, cfg, cpf, uf, ufd. auto.
Qed.

Lemma emit_nfse_called (rt : Runtime) (orgId : option string)
    (nota_id : string) (w : World) (rq : FetchRequest) :
  gateway_calls (snd (emit_nfse rt orgId nota_id w))
  = (gateway_calls w ++ [rq])%list ->
  exists org n cfg cpf_cnpj,
    orgId = Some org
    /\ NfseReady w org nota_id n cfg cpf_cnpj
    /\ emit_nfse rt orgId nota_id w
       = nfse_attempt rt org nota_id n cfg cpf_cnpj w.
Proof.
  intros Hcalls.
  destruct (emit_nfse_cases rt orgId nota_id w)
    as [(msg & _ & Heq)|(org & n & cfg & cpf & Horg & Hready & Heq)].
  - rewrite Heq in Hcalls. exfalso; exact (calls_grew _ _ Hcalls).
  - exists org, n, cfg, cpf. auto.
Qed.

(** ** Status mapping *)

Lemma nfe_status_mapping (s : option string) :
  status_mapping true s (nfe_status s).
Proof.
  unfold status_mapping, nfe_status.
  repeat split; intros; subst; try reflexivity.
  destruct s as [s|]; [|reflexivity].
  destruct (s =? "autorizado") eqn:E1;
    [apply String.eqb_eq in E1; congruence|].
  destruct (s =? "erro_autorizacao") eqn:E2;
    [apply String.eqb_eq in E2; congruence|].
  destruct (s =? "denegado") eqn:E3;
    [apply String.eqb_eq in E3; congruence|].
  reflexivity.
Qed.

Lemma nfse_status_mapping (s : option string) :
  status_mapping false s (nfse_status s).
Proof.
  unfold status_mapping, nfse_status.
  repeat split; intros; subst; try reflexivity.
  destruct s as [s|]; [|reflexivity].
  destruct (s =? "autorizado") eqn:E1;
    [apply String.eqb_eq in E1; congruence|].
  destruct (s =? "erro_autorizacao") eqn:E2;
    [apply String.eqb_eq in E2; congruence|].
  reflexivity.
Qed.

Lemma nfe_status_not_draft (s : option string) : nfe_status s <> "rascunho".
Proof.
  unfold nfe_status. destruct s as [s|]; [|discriminate].
  destruct (s =? "autorizado"); [discriminate|].
  destruct ((s =? "erro_autorizacao") || (s =? "denegado")); discriminate.
Qed.

Lemma nfse_status_not_draft (s : option string) :
  nfse_status s <> "rascunho".
Proof.
  unfold nfse_status. destruct s as [s|]; [|discriminate].
  destruct (s =? "autorizado"); [discriminate|].
  destruct (s =? "erro_autorizacao"); discriminate.
Qed.

Lemma Forall_map_intro {A B} (P : B -> Prop) (f : A -> B) (l : list A) :
  (forall a, P (f a)) -> Forall P (map f l).
Proof. intros H. induction l; simpl; constructor; auto. Qed.

Lemma map_not_nil {A B} (f : A -> B) (l : list A) : l <> [] -> map f l <> [].
Proof. destruct l; simpl; congruence. Qed.

Lemma In_not_nil {A} (a : A) (l : list A) : In a l -> l <> [].
Proof. destruct l; simpl; [tauto|discriminate]. Qed.

(** Runs [tac] on the parameters of the attempt a handler run [Heq] equals. *)
Ltac on_attempt Heq tac :=
  match type of Heq with
  | _ = attempt ?a ?b ?c ?d ?e ?f ?g ?h ?i ?j ?k ?l _ =>
      tac a b c d e f g h i j k l
  end.

(** Splits an attempt [Heq] into its three outcomes: no credential, a
    thrown submission, an answered submission. *)
Ltac attempt_outcomes rt cfg Heq w :=
  on_attempt Heq
    ltac:(fun a b c d e f g h i j k l =>
      let Htok := fresh "Htok" in
      destruct (resolveFocusToken rt cfg) as [m|token] eqn:Htok;
      [ destruct (attempt_no_credential a b c d e f g h i j k l m w Htok)
          as (w' & Hrun & Hst & Hev & Hgw & Hcf)
      | destruct (thrown_or_answer
                    (rt_fetch rt (emission_request rt cfg f g token h)))
          as [(m & Hm)|(response & Hans)];
        [ destruct (attempt_failure a b c d e f g h i j k l token m w
                      Htok Hm)
            as (w' & Hrun & Hst & Hev & Hgw & Hcf)
        | destruct (attempt_success a b c d e f g h i j k l token response
                      w Htok Hans)
            as (w' & Hrun & Hst & Hev & Hgw & Hcf) ] ]).

(** C3. After a successful gateway exchange the stored status of the
    document is the table's image of the gateway status: autorizado gives
    autorizada, erro_autorizacao gives rejeitada, denegado gives rejeitada
    for goods and processando for services, and any other status (or none)
    leaves processando. *)
Theorem stored_status_follows_gateway (rt : Runtime)
    (orgId : option string) (nota_id : string) (w : World)
    (rq : FetchRequest) (response : GatewayResponse) :
  rt_fetch rt rq = HttpOk (inr response) ->
  (gateway_calls (snd (emit_nfe rt orgId nota_id w))
   = (gateway_calls w ++ [rq])%list ->
   stored (snd (emit_nfe rt orgId nota_id w)) nota_id <> []
   /\ Forall (fun r => status_mapping true (resp_status response)
                        (nf_status r))
        (stored (snd (emit_nfe rt orgId nota_id w)) nota_id))
  /\ (gateway_calls (snd (emit_nfse rt orgId nota_id w))
      = (gateway_calls w ++ [rq])%list ->
      stored (snd (emit_nfse rt orgId nota_id w)) nota_id <> []
      /\ Forall (fun r => status_mapping false (resp_status response)
                           (nf_status r))
           (stored (snd (emit_nfse rt orgId nota_id w)) nota_id)).
Proof.
  intros Hans. split; intros Hcalls.
  - destruct (emit_nfe_called _ _ _ _ _ Hcalls)
      as (org & n & itens & cfg & cpf & uf & ufd & -> & Hready & Huf & Heq).
    rewrite Heq, nfe_attempt_eq in *.
    destruct (attempt_calls _ _ _ _ _ _ _ _ _ _ _ _ _ _ Hcalls)
      as (token & Htok & ->).
    on_attempt Heq
      ltac:(fun a b c d e f g h i j k l =>
        destruct (attempt_success a b c d e f g h i j k l
                    token response w Htok Hans)
          as (w' & Hrun & Hst & _)).
    rewrite Hrun; cbn [snd]. rewrite Hst. split.
    + apply map_not_nil, map_not_nil.
      apply (In_not_nil n), (lookup_nota_stored w org "nfe").
      apply (nfe_found _ _ _ _ _ _ _ _ _ Hready).
    + apply Forall_map_intro. intros r. apply nfe_status_mapping.
  - destruct (emit_nfse_called _ _ _ _ _ Hcalls)
      as (org & n & cfg & cpf & -> & Hready & Heq).
    rewrite Heq, nfse_attempt_eq in *.
    destruct (attempt_calls _ _ _ _ _ _ _ _ _ _ _ _ _ _ Hcalls)
      as (token & Htok & ->).
    on_attempt Heq
      ltac:(fun a b c d e f g h i j k l =>
        destruct (attempt_success a b c d e f g h i j k l
                    token response w Htok Hans)
          as (w' & Hrun & Hst & _)).
    rewrite Hrun; cbn [snd]. rewrite Hst. split.
    + apply map_not_nil, map_not_nil.
      apply (In_not_nil n), (lookup_nota_stored w org "nfse").
      apply (nfse_found _ _ _ _ _ _ Hready).
    + apply Forall_map_intro. intros r. apply nfse_status_mapping.
Qed.

(** A request that met every precondition runs the attempt. *)
Lemma emit_nfe_ready (rt : Runtime) (w : World) (org nota_id : string)
    (n : NotaFiscal) (itens : list NotaItem) (cfg : FiscalConfig)
    (cpf_cnpj uf uf_dest : string) :
  NfeReady rt w org nota_id n itens cfg cpf_cnpj uf_dest ->
  cfg_uf cfg = Some uf ->
  emit_nfe rt (Some org) nota_id w
  = nfe_attempt rt org nota_id n itens cfg cpf_cnpj uf uf_dest w.
Proof.
  intros [Horg Hn Hst Hit Hne Hcfg Hen Hce Hnome Hcpf Hcpf' Hlog Hmun Hufd
            Hufd'] Huf.
  unfold emit_nfe. destruct org as [|o os]; [contradiction|]. cbv zeta.
  rewrite bind_nota, Hn, Hst. cbn [String.eqb Ascii.eqb Bool.eqb negb].
  rewrite bind_itens, Hit.
  destruct itens as [|i0 itens]; [contradiction|].
  rewrite bind_config, Hcfg, Hen, Hce, Hcpf, Hufd, Huf. cbn [negb].
  destruct (nf_destinatario_nome n) as [[|? ?]|]; try discriminate.
  destruct (nf_destinatario_logradouro n) as [[|? ?]|]; try discriminate.
  destruct (nf_destinatario_municipio n) as [[|? ?]|]; try discriminate.
  destruct cpf_cnpj; [contradiction|].
  destruct uf_dest; [contradiction|].
  reflexivity.
Qed.

Lemma emit_nfse_ready (rt : Runtime) (w : World) (org nota_id : string)
    (n : NotaFiscal) (cfg : FiscalConfig) (cpf_cnpj : string) :
  NfseReady w org nota_id n cfg cpf_cnpj ->
  emit_nfse rt (Some org) nota_id w
  = nfse_attempt rt org nota_id n cfg cpf_cnpj w.
Proof.
  intros [Horg Hn Hst Hcfg Hen Hnome Hcpf Hcpf'].
  unfold emit_nfse. destruct org as [|o os]; [contradiction|]. cbv zeta.
  rewrite bind_nota, Hn, Hst. cbn [String.eqb Ascii.eqb Bool.eqb negb].
  rewrite bind_config, Hcfg, Hen, Hcpf. cbn [negb].
  destruct (nf_destinatario_nome n) as [[|? ?]|]; try discriminate.
  destruct cpf_cnpj; [contradiction|].
  reflexivity.
Qed.

(** ** Failed submissions *)

Lemma failed_recorded (rt : Runtime) (focusRef org nota_id m : string)
    (w w' : World) :
  stored w nota_id <> [] ->
  stored w' nota_id = failed rt focusRef m (stored w nota_id) ->
  fiscal_eventos w'
  = (fiscal_eventos w ++ [evento_erro org nota_id m (rt_now rt)])%list ->
  failure_recorded w w' nota_id m.
Proof.
  intros Hne Hst Hev. unfold failure_recorded. rewrite Hst. unfold failed.
  split; [now apply map_not_nil, map_not_nil|].
  split.
  - apply Forall_map_intro. intros r. split; reflexivity.
  - eexists. split; [exact Hev|]. repeat split.
Qed.

(** C4. When the submission of an attempt fails, by a transport error, a
    gateway rejection or an unreadable answer, the document is left in
    status erro with the failure message, exactly one event row of kind
    erro with that message is appended, and the handler returns the
    message as a text. *)
Theorem failed_submission_is_recorded (rt : Runtime)
    (orgId : option string) (nota_id : string) (w : World)
    (rq : FetchRequest) (m : string) :
  thrown_message (rt_fetch rt rq) = Some m ->
  (gateway_calls (snd (emit_nfe rt orgId nota_id w))
   = (gateway_calls w ++ [rq])%list ->
   fst (emit_nfe rt orgId nota_id w)
   = Returned (Text ("Erro ao emitir NFe: " ++ m))
   /\ failure_recorded w (snd (emit_nfe rt orgId nota_id w)) nota_id m)
  /\ (gateway_calls (snd (emit_nfse rt orgId nota_id w))
      = (gateway_calls w ++ [rq])%list ->
      fst (emit_nfse rt orgId nota_id w)
      = Returned (Text ("Erro ao emitir NFSe: " ++ m))
      /\ failure_recorded w (snd (emit_nfse rt orgId nota_id w)) nota_id m).
Proof.
  intros Hm. split; intros Hcalls.
  - destruct (emit_nfe_called _ _ _ _ _ Hcalls)
      as (org & n & itens & cfg & cpf & uf & ufd & -> & Hready & Huf & Heq).
    rewrite Heq, nfe_attempt_eq in *.
    destruct (attempt_calls _ _ _ _ _ _ _ _ _ _ _ _ _ _ Hcalls)
      as (token & Htok & ->).
    on_attempt Heq
      ltac:(fun a b c d e f g h i j k l =>
        destruct (attempt_failure a b c d e f g h i j k l
                    token m w Htok Hm)
          as (w' & Hrun & Hst & Hev & _)).
    rewrite Hrun; cbn [fst snd]. split; [reflexivity|].
    apply (failed_recorded rt _ org _ _ _ _ ltac:(
      apply (In_not_nil n), (lookup_nota_stored w org "nfe");
      apply (nfe_found _ _ _ _ _ _ _ _ _ Hready)) Hst Hev).
  - destruct (emit_nfse_called _ _ _ _ _ Hcalls)
      as (org & n & cfg & cpf & -> & Hready & Heq).
    rewrite Heq, nfse_attempt_eq in *.
    destruct (attempt_calls _ _ _ _ _ _ _ _ _ _ _ _ _ _ Hcalls)
      as (token & Htok & ->).
    on_attempt Heq
      ltac:(fun a b c d e f g h i j k l =>
        destruct (attempt_failure a b c d e f g h i j k l
                    token m w Htok Hm)
          as (w' & Hrun & Hst & Hev & _)).
    rewrite Hrun; cbn [fst snd]. split; [reflexivity|].
    apply (failed_recorded rt _ org _ _ _ _ ltac:(
      apply (In_not_nil n), (lookup_nota_stored w org "nfse");
      apply (nfse_found _ _ _ _ _ _ Hready)) Hst Hev).
Qed.

(** A request that met every precondition, for a tenant without a region
    code: [isMesmoEstado] throws before the [try] block, and nothing is
    written. *)
Lemma emit_nfe_without_region (rt : Runtime) (w : World)
    (org nota_id : string) (n : NotaFiscal) (itens : list NotaItem)
    (cfg : FiscalConfig) (cpf_cnpj uf_dest : string) :
  NfeReady rt w org nota_id n itens cfg cpf_cnpj uf_dest ->
  cfg_uf cfg = None ->
  exists m, emit_nfe rt (Some org) nota_id w = (Thrown m, w).
Proof.
  intros [Horg Hn Hst Hit Hne Hcfg Hen Hce Hnome Hcpf Hcpf' Hlog Hmun Hufd
            Hufd'] Huf.
  unfold emit_nfe. destruct org as [|o os]; [contradiction|]. cbv zeta.
  rewrite bind_nota, Hn, Hst. cbn [String.eqb Ascii.eqb Bool.eqb negb].
  rewrite bind_itens, Hit.
  destruct itens as [|i0 itens]; [contradiction|].
  rewrite bind_config, Hcfg, Hen, Hce, Hcpf, Hufd, Huf. cbn [negb].
  destruct (nf_destinatario_nome n) as [[|? ?]|]; try discriminate.
  destruct (nf_destinatario_logradouro n) as [[|? ?]|]; try discriminate.
  destruct (nf_destinatario_municipio n) as [[|? ?]|]; try discriminate.
  destruct cpf_cnpj; [contradiction|].
  destruct uf_dest; [contradiction|].
  eexists. reflexivity.
Qed.

(** ** Missing credentials *)

Lemma or_falsy (a b : option string) :
  Js.truthy a = false -> Js.or a b = b.
Proof. unfold Js.or. now intros ->. Qed.

Lemma no_credential_throws (rt : Runtime) (cfg : FiscalConfig) :
  no_credential rt cfg ->
  resolveFocusToken rt cfg
  = inl (token_error (Js.or_lit (cfg_focus_nfe_ambiente cfg) "homologacao")).
Proof.
  intros (Hslot & Hleg & Hmaster). unfold resolveFocusToken.
  fold (credential_slot cfg).
  rewrite (or_falsy _ _ Hslot), (or_falsy _ _ Hleg).
  destruct (rt_FOCUS_NFE_MASTER_TOKEN rt) as [[|? ?]|];
    try discriminate; reflexivity.
Qed.

(** C1, as the code has it. When a request has met every precondition
    the handler checks and no credential resolves, the handler returns the
    configuration message as a text and calls the gateway not at all; the
    document has by then been written: it is left in status erro, with the
    reference id of the attempt and the message, and one event row of
    kind erro is appended. This is so for services, and for goods when
    the tenant's configuration has a region code; a goods request of a
    tenant without one throws before the credential is looked for, and
    nothing is written. *)
Theorem missing_credential_is_recorded (rt : Runtime) (w : World)
    (org nota_id : string) (n : NotaFiscal) (cfg : FiscalConfig)
    (cpf_cnpj : string) :
  no_credential rt cfg ->
  let m :=
    token_error (Js.or_lit (cfg_focus_nfe_ambiente cfg) "homologacao") in
  (forall itens uf_dest,
     NfeReady rt w org nota_id n itens cfg cpf_cnpj uf_dest ->
     (forall uf,
        cfg_uf cfg = Some uf ->
        fst (emit_nfe rt (Some org) nota_id w)
        = Returned (Text ("Erro ao emitir NFe: " ++ m))
        /\ credential_failure_recorded w
             (snd (emit_nfe rt (Some org) nota_id w))
             org nota_id (generateFocusRef rt org "nfe") m (rt_now rt))
     /\ (cfg_uf cfg = None ->
         exists thrown,
           emit_nfe rt (Some org) nota_id w = (Thrown thrown, w)))
  /\ (NfseReady w org nota_id n cfg cpf_cnpj ->
      fst (emit_nfse rt (Some org) nota_id w)
      = Returned (Text ("Erro ao emitir NFSe: " ++ m))
      /\ credential_failure_recorded w
           (snd (emit_nfse rt (Some org) nota_id w))
           org nota_id (generateFocusRef rt org "nfse") m (rt_now rt)).
Proof.
  intros Hno m. pose proof (no_credential_throws rt cfg Hno) as Htok.
  fold m in Htok. split.
  - intros itens ufd Hready.
    split; [|exact (emit_nfe_without_region _ _ _ _ _ _ _ _ _ Hready)].
    intros uf Huf.
    pose proof (emit_nfe_ready _ _ _ _ _ _ _ _ _ _ Hready Huf) as Heq.
    rewrite nfe_attempt_eq in Heq. rewrite Heq.
    on_attempt Heq
      ltac:(fun a b c d e f g h i j k l =>
        destruct (attempt_no_credential a b c d e f g h i j k l m w Htok)
          as (w' & Hrun & Hst & Hev & Hgw & _)).
    rewrite Hrun; cbn [fst snd]. split; [reflexivity|].
    unfold credential_failure_recorded. rewrite Hst. unfold failed.
    split; [exact Hgw|]. split; [|split; [|exact Hev]].
    + apply map_not_nil, map_not_nil.
      apply (In_not_nil n), (lookup_nota_stored w org "nfe").
      apply (nfe_found _ _ _ _ _ _ _ _ _ Hready).
    + rewrite map_map. apply Forall_map_intro. intros r. repeat split.
  - intros Hready.
    pose proof (emit_nfse_ready rt _ _ _ _ _ _ Hready) as Heq.
    rewrite nfse_attempt_eq in Heq. rewrite Heq.
    on_attempt Heq
      ltac:(fun a b c d e f g h i j k l =>
        destruct (attempt_no_credential a b c d e f g h i j k l m w Htok)
          as (w' & Hrun & Hst & Hev & Hgw & _)).
    rewrite Hrun; cbn [fst snd]. split; [reflexivity|].
    unfold credential_failure_recorded. rewrite Hst. unfold failed.
    split; [exact Hgw|]. split; [|split; [|exact Hev]].
    + apply map_not_nil, map_not_nil.
      apply (In_not_nil n), (lookup_nota_stored w org "nfse").
      apply (nfse_found _ _ _ _ _ _ Hready).
    + rewrite map_map. apply Forall_map_intro. intros r. repeat split.
Qed.

(** ** The last-number counter *)

(** C2, as the code has it. After an emission whose gateway answer is
    autorizado and carries a document number, an ASCII text whose number
    is a safe integer, the tenant's counter of that kind is the parsed
    number, whatever it was before; for the number 123 it is 123. *)
Theorem counter_is_set_to_number (rt : Runtime) (org nota_id : string)
    (w : World) (rq : FetchRequest) (response : GatewayResponse)
    (numero : string) :
  rt_fetch rt rq = HttpOk (inr response) ->
  resp_status response = Some "autorizado" ->
  resp_numero response = Some numero ->
  numero <> "" ->
  Js.exact_number numero = true ->
  (gateway_calls (snd (emit_nfe rt (Some org) nota_id w))
   = (gateway_calls w ++ [rq])%list ->
   stored_config (snd (emit_nfe rt (Some org) nota_id w)) org <> []
   /\ Forall (fun c => ultimo_numero NfeUltimoNumero c
                       = Js.parseInt10 numero)
        (stored_config (snd (emit_nfe rt (Some org) nota_id w)) org))
  /\ (gateway_calls (snd (emit_nfse rt (Some org) nota_id w))
      = (gateway_calls w ++ [rq])%list ->
      stored_config (snd (emit_nfse rt (Some org) nota_id w)) org <> []
      /\ Forall (fun c => ultimo_numero NfseUltimoNumero c
                          = Js.parseInt10 numero)
           (stored_config (snd (emit_nfse rt (Some org) nota_id w)) org))
  /\ Js.parseInt10 "123" = Some 123%Z.
Proof.
  intros Hans Hstatus Hnum Hfilled _.
  assert (Hnumero : numero_of response = Some numero).
  { unfold numero_of. rewrite Hnum.
    destruct numero; [contradiction|reflexivity]. }
  split; [|split; [|reflexivity]]; intros Hcalls.
  - destruct (emit_nfe_called _ _ _ _ _ Hcalls)
      as (org' & n & itens & cfg & cpf & uf & ufd & [= <-] & Hready & Huf
          & Heq).
    rewrite Heq, nfe_attempt_eq in *.
    destruct (attempt_calls _ _ _ _ _ _ _ _ _ _ _ _ _ _ Hcalls)
      as (token & Htok & ->).
    on_attempt Heq
      ltac:(fun a b c d e f g h i j k l =>
        destruct (attempt_success a b c d e f g h i j k l
                    token response w Htok Hans)
          as (w' & Hrun & _ & _ & _ & Hcfg)).
    rewrite Hrun; cbn [snd]. rewrite Hcfg.
    unfold advanced. rewrite Hstatus, Hnumero.
    cbn [nfe_status String.eqb Ascii.eqb Bool.eqb].
    split.
    + apply map_not_nil, (In_not_nil cfg), lookup_config_stored.
      apply (nfe_config _ _ _ _ _ _ _ _ _ Hready).
    + apply Forall_map_intro. intros c. reflexivity.
  - destruct (emit_nfse_called _ _ _ _ _ Hcalls)
      as (org' & n & cfg & cpf & [= <-] & Hready & Heq).
    rewrite Heq, nfse_attempt_eq in *.
    destruct (attempt_calls _ _ _ _ _ _ _ _ _ _ _ _ _ _ Hcalls)
      as (token & Htok & ->).
    on_attempt Heq
      ltac:(fun a b c d e f g h i j k l =>
        destruct (attempt_success a b c d e f g h i j k l
                    token response w Htok Hans)
          as (w' & Hrun & _ & _ & _ & Hcfg)).
    rewrite Hrun; cbn [snd]. rewrite Hcfg.
    unfold advanced. rewrite Hstatus, Hnumero.
    cbn [nfse_status String.eqb Ascii.eqb Bool.eqb].
    split.
    + apply map_not_nil, (In_not_nil cfg), lookup_config_stored.
      apply (nfse_config _ _ _ _ _ _ Hready).
    + apply Forall_map_intro. intros c. reflexivity.
Qed.

(** ** Requests turned down before any write *)

(** C5. When no stored row of the document is a draft, both handlers leave
    the world as it is, and where the handler finds the document for the
    tenant and kind it answers that only drafts can be emitted. *)
Theorem non_draft_is_turned_down (rt : Runtime) (orgId : option string)
    (nota_id : string) (w : World) :
  Forall (fun r => nf_status r <> "rascunho") (stored w nota_id) ->
  (snd (emit_nfe rt orgId nota_id w) = w
   /\ forall org n,
        orgId = Some org ->
        org <> "" ->
        lookup_nota w org "nfe" nota_id = Some n ->
        fst (emit_nfe rt orgId nota_id w)
        = Returned (Text "Apenas notas em rascunho podem ser emitidas"))
  /\ (snd (emit_nfse rt orgId nota_id w) = w
      /\ forall org n,
           orgId = Some org ->
           org <> "" ->
           lookup_nota w org "nfse" nota_id = Some n ->
           fst (emit_nfse rt orgId nota_id w)
           = Returned (Text "Apenas notas em rascunho podem ser emitidas")).
Proof.
  intros Hall. rewrite Forall_forall in Hall.
  destruct orgId as [[|o os]|];
    [split; (split; [reflexivity|intros ? ? [= <-] H; contradiction])
    |
    |split; (split; [reflexivity|intros ? ? [=]])].
  split.
  - unfold emit_nfe. cbv iota zeta. set (org := String o os).
    rewrite bind_nota.
    destruct (lookup_nota w org "nfe" nota_id) as [n|] eqn:Hn;
      [|split; [reflexivity|intros ? ? [= <-] _ H; congruence]].
    pose proof (Hall n (lookup_nota_stored _ _ _ _ _ Hn)) as Hst.
    apply String.eqb_neq in Hst. rewrite Hst. cbn [negb].
    split; [reflexivity|intros; reflexivity].
  - unfold emit_nfse. cbv iota zeta. set (org := String o os).
    rewrite bind_nota.
    destruct (lookup_nota w org "nfse" nota_id) as [n|] eqn:Hn;
      [|split; [reflexivity|intros ? ? [= <-] _ H; congruence]].
    pose proof (Hall n (lookup_nota_stored _ _ _ _ _ Hn)) as Hst.
    apply String.eqb_neq in Hst. rewrite Hst. cbn [negb].
    split; [reflexivity|intros; reflexivity].
Qed.

Lemma filter_none {A} (p : A -> bool) (l : list A) :
  (forall a, In a l -> p a = false) -> filter p l = [].
Proof.
  induction l as [|a l IH]; intros H; [reflexivity|].
  simpl. rewrite (H a (or_introl eq_refl)).
  apply IH. intros b Hb. apply H. now right.
Qed.

(** C6. A goods document without line items is turned down with a text,
    the one about drafts if it is not a draft and the one about items
    otherwise, before any call to the gateway and before any write: the
    world, and with it the log of gateway calls and the stored document,
    is unchanged. *)
Theorem no_items_no_gateway_call (rt : Runtime) (org nota_id : string)
    (w : World) (n : NotaFiscal) :
  org <> "" ->
  lookup_nota w org "nfe" nota_id = Some n ->
  (forall i, In i (notas_fiscais_itens w) -> it_nota_fiscal_id i <> nota_id) ->
  emit_nfe rt (Some org) nota_id w
  = (Returned
       (Text (if nf_status n =? "rascunho"
              then "Nota deve ter pelo menos um item"
              else "Apenas notas em rascunho podem ser emitidas")), w)
  /\ gateway_calls (snd (emit_nfe rt (Some org) nota_id w)) = gateway_calls w
  /\ stored (snd (emit_nfe rt (Some org) nota_id w)) nota_id
     = stored w nota_id.
Proof.
  intros Horg Hn Hnone.
  assert (Hit : lookup_itens w nota_id = []).
  { unfold lookup_itens. rewrite filter_none; [reflexivity|].
    intros i Hi. apply String.eqb_neq. now apply Hnone. }
  assert (Hrun : emit_nfe rt (Some org) nota_id w
    = (Returned
         (Text (if nf_status n =? "rascunho"
                then "Nota deve ter pelo menos um item"
                else "Apenas notas em rascunho podem ser emitidas")), w)).
  { unfold emit_nfe. destruct org as [|o os]; [contradiction|]. cbv zeta.
    rewrite bind_nota, Hn.
    destruct (nf_status n =? "rascunho"); cbn [negb]; [|reflexivity].
    rewrite bind_itens, Hit. reflexivity. }
  rewrite Hrun. repeat split.
Qed.

(** ** Environment defaults *)

(** C9. A configuration whose environment is unset or empty resolves its
    credential and its endpoint exactly as the same configuration with the
    environment homologacao: the sandbox slot is the first one consulted,
    and the endpoint is the fixed sandbox URL. *)
Theorem unset_environment_is_sandbox (rt : Runtime) (cfg : FiscalConfig) :
  Js.truthy (cfg_focus_nfe_ambiente cfg) = false ->
  resolveFocusToken rt cfg
  = resolveFocusToken rt (with_ambiente (Some "homologacao") cfg)
  /\ resolveFocusApiUrl rt cfg
     = resolveFocusApiUrl rt (with_ambiente (Some "homologacao") cfg)
  /\ resolveFocusApiUrl rt cfg = "https://homologacao.focusnfe.com.br"
  /\ credential_slot cfg = cfg_focus_nfe_token_homologacao cfg
  /\ (forall token,
        cfg_focus_nfe_token_homologacao cfg = Some token ->
        token <> "" ->
        resolveFocusToken rt cfg = inr token).
Proof.
  intros Hamb.
  assert (Hlit : Js.or_lit (cfg_focus_nfe_ambiente cfg) "homologacao"
                 = "homologacao").
  { destruct (cfg_focus_nfe_ambiente cfg) as [[|? ?]|];
      try discriminate; reflexivity. }
  unfold resolveFocusToken, resolveFocusApiUrl, credential_slot.
  cbn [with_ambiente cfg_focus_nfe_ambiente cfg_focus_nfe_token_producao
       cfg_focus_nfe_token_homologacao cfg_focus_nfe_token].
  rewrite Hlit. cbn [Js.or_lit String.eqb Ascii.eqb Bool.eqb].
  repeat split.
  intros token Hslot Hfilled. rewrite Hslot.
  destruct token as [|c s]; [contradiction|reflexivity].
Qed.

(** ** Region match and the operation code *)

Lemma is_lower_range (c : ascii) :
  Js.is_lower c = true <-> 97 <= nat_of_ascii c <= 122.
Proof.
  unfold Js.is_lower. rewrite andb_true_iff, !Nat.leb_le. tauto.
Qed.

Lemma nat_of_ascii_inj (a b : ascii) :
  nat_of_ascii a = nat_of_ascii b -> a = b.
Proof.
  intros H. rewrite <- (ascii_nat_embedding a), <- (ascii_nat_embedding b).
  now rewrite H.
Qed.

Lemma nat_of_upper_char (c : ascii) :
  nat_of_ascii (Js.upper_char c)
  = if Js.is_lower c then nat_of_ascii c - 32 else nat_of_ascii c.
Proof.
  unfold Js.upper_char. destruct (Js.is_lower c) eqn:E; [|reflexivity].
  apply nat_ascii_embedding. pose proof (nat_ascii_bounded c). lia.
Qed.

Lemma upper_char_same (a b : ascii) :
  Js.upper_char a = Js.upper_char b <-> same_char a b.
Proof.
  unfold same_char. split.
  - intros H. apply (f_equal nat_of_ascii) in H.
    rewrite !nat_of_upper_char in H.
    destruct (Js.is_lower a) eqn:Ea, (Js.is_lower b) eqn:Eb;
      try apply is_lower_range in Ea; try apply is_lower_range in Eb.
    + left. apply nat_of_ascii_inj. lia.
    + right; left. split; [reflexivity|lia].
    + right; right. split; [reflexivity|lia].
    + left. now apply nat_of_ascii_inj.
  - intros H. apply nat_of_ascii_inj. rewrite !nat_of_upper_char.
    destruct H as [->|[(Ea & H)|(Eb & H)]]; [reflexivity| |].
    + rewrite Ea. destruct (Js.is_lower b) eqn:Eb; [|lia].
      apply is_lower_range in Ea, Eb. lia.
    + rewrite Eb. destruct (Js.is_lower a) eqn:Ea; [|lia].
      apply is_lower_range in Ea, Eb. lia.
Qed.

(** [isMesmoEstado] decides case-insensitive equality. *)
Lemma isMesmoEstado_same_region (a b : string) :
  isMesmoEstado a b = true <-> same_region a b.
Proof.
  unfold isMesmoEstado. rewrite String.eqb_eq.
  revert b. induction a as [|c a IH]; intros [|d b]; simpl.
  - split; [constructor|reflexivity].
  - split; [discriminate|inversion 1].
  - split; [discriminate|inversion 1].
  - split.
    + intros [= Hc Hs]. constructor; [now apply upper_char_same|now apply IH].
    + inversion 1; subst. f_equal; [now apply upper_char_same|now apply IH].
Qed.

Lemma nth_error_map_index {A B} (f : nat -> A -> B) (l : list A) :
  forall i k,
    nth_error (map_index f i l) k = option_map (f (i + k)) (nth_error l k).
Proof.
  induction l as [|a l IH]; intros i [|k]; simpl; try reflexivity.
  - now rewrite Nat.add_0_r.
  - rewrite IH. now rewrite Nat.add_succ_r.
Qed.

(** The code given to a line item that has none, in a built item list. *)
Lemma focusItens_cfop (uf uf_dest : string) (itens : list NotaItem)
    (k : nat) (item : NotaItem) :
  nth_error itens k = Some item ->
  Js.truthy (it_cfop item) = false ->
  exists fi,
    nth_error (focusItens (isMesmoEstado uf uf_dest) itens) k = Some fi
    /\ (same_region uf uf_dest -> fi_cfop fi = "5102")
    /\ (~ same_region uf uf_dest -> fi_cfop fi = "6102").
Proof.
  intros Hk Hcfop. unfold focusItens.
  rewrite nth_error_map_index, Hk. cbn [option_map].
  eexists. split; [reflexivity|].
  cbn [fi_cfop focusItem].
  assert (Hlit : forall d, Js.or_lit (it_cfop item) d = d).
  { intros d. destruct (it_cfop item) as [[|? ?]|];
      try discriminate; reflexivity. }
  rewrite Hlit. split; intros H.
  - apply isMesmoEstado_same_region in H. now rewrite H.
  - destruct (isMesmoEstado uf uf_dest) eqn:E; [|reflexivity].
    apply isMesmoEstado_same_region in E. contradiction.
Qed.

(** C7. In the payload [emit_nfe] sends, with region codes in ASCII, a
    line item without an operation code gets 5102, an internal code, when
    the recipient's region equals the tenant's up to case, and 6102, an
    interstate code, otherwise, whatever its tax codes; and [getCfopVenda]
    gives an internal code for the same region and an interstate one
    otherwise, with or without tax substitution. *)
Theorem cfop_follows_region (rt : Runtime) (orgId : option string)
    (nota_id : string) (w : World) (rq : FetchRequest) :
  gateway_calls (snd (emit_nfe rt orgId nota_id w))
  = (gateway_calls w ++ [rq])%list ->
  (exists org n cfg uf uf_dest p,
     orgId = Some org
     /\ lookup_nota w org "nfe" nota_id = Some n
     /\ lookup_config w org = Some cfg
     /\ cfg_uf cfg = Some uf
     /\ nf_destinatario_uf n = Some uf_dest
     /\ rq_body rq = Some (PayloadNfe p)
     /\ (Js.ascii_text uf = true ->
         Js.ascii_text uf_dest = true ->
         forall k item,
           nth_error (lookup_itens w nota_id) k = Some item ->
           Js.truthy (it_cfop item) = false ->
           exists fi,
             nth_error (np_items p) k = Some fi
             /\ (same_region uf uf_dest -> fi_cfop fi = "5102")
             /\ (~ same_region uf uf_dest -> fi_cfop fi = "6102")))
  /\ cfop_interno "5102" /\ cfop_interestadual "6102"
  /\ forall st, cfop_interno (getCfopVenda true st)
                /\ cfop_interestadual (getCfopVenda false st).
Proof.
  intros Hcalls. split.
  - destruct (emit_nfe_called _ _ _ _ _ Hcalls)
      as (org & n & itens & cfg & cpf & uf & ufd & -> & Hready & Huf & Heq).
    rewrite Heq, nfe_attempt_eq in Hcalls.
    destruct (attempt_calls _ _ _ _ _ _ _ _ _ _ _ _ _ _ Hcalls)
      as (token & Htok & ->).
    destruct Hready as [_ Hn _ Hit _ Hcfg _ _ _ _ _ _ _ Hufd _].
    exists org, n, cfg, uf, ufd. eexists.
    repeat (split; [eassumption || reflexivity|]).
    intros _ _ k item Hk Hcfop. cbn [np_items nfePayload].
    rewrite Hit in Hk. exact (focusItens_cfop uf ufd itens k item Hk Hcfop).
  - split; [now exists "102"|]. split; [now exists "102"|].
    intros [|]; split; eexists; reflexivity.
Qed.

(** ** The recipient's tax id *)

Lemma strip_non_digits_filter (s : string) :
  list_ascii_of_string (Js.strip_non_digits s)
  = filter Js.is_digit (list_ascii_of_string s).
Proof.
  induction s as [|c s IH]; [reflexivity|].
  simpl. destruct (Js.is_digit c); simpl; now rewrite IH.
Qed.

Lemma tax_id_choice (digits : string) :
  tax_id_placed digits
    (if (String.length digits =? 14)%nat then None else Some digits)
    (if (String.length digits =? 14)%nat then Some digits else None).
Proof.
  split; intros ->; split; reflexivity.
Qed.

(** C8. The payload each handler sends carries the recipient's tax id with
    every character that is not a digit removed; eleven digits go to the
    CPF field and fourteen to the CNPJ field, the other field staying
    absent. *)
Theorem tax_id_field_by_length (rt : Runtime) (orgId : option string)
    (nota_id : string) (w : World) (rq : FetchRequest) :
  (gateway_calls (snd (emit_nfe rt orgId nota_id w))
   = (gateway_calls w ++ [rq])%list ->
   exists org n cpf_cnpj p,
     orgId = Some org
     /\ lookup_nota w org "nfe" nota_id = Some n
     /\ nf_destinatario_cpf_cnpj n = Some cpf_cnpj
     /\ rq_body rq = Some (PayloadNfe p)
     /\ tax_id_placed (Js.strip_non_digits cpf_cnpj)
          (np_cpf_destinatario p) (np_cnpj_destinatario p))
  /\ (gateway_calls (snd (emit_nfse rt orgId nota_id w))
      = (gateway_calls w ++ [rq])%list ->
      exists org n cpf_cnpj p,
        orgId = Some org
        /\ lookup_nota w org "nfse" nota_id = Some n
        /\ nf_destinatario_cpf_cnpj n = Some cpf_cnpj
        /\ rq_body rq = Some (PayloadNfse p)
        /\ tax_id_placed (Js.strip_non_digits cpf_cnpj)
             (to_cpf (sp_tomador p)) (to_cnpj (sp_tomador p)))
  /\ (forall s,
        list_ascii_of_string (Js.strip_non_digits s)
        = filter Js.is_digit (list_ascii_of_string s)).
Proof.
  split; [|split; [|exact strip_non_digits_filter]]; intros Hcalls.
  - destruct (emit_nfe_called _ _ _ _ _ Hcalls)
      as (org & n & itens & cfg & cpf & uf & ufd & -> & Hready & Huf & Heq).
    rewrite Heq, nfe_attempt_eq in Hcalls.
    destruct (attempt_calls _ _ _ _ _ _ _ _ _ _ _ _ _ _ Hcalls)
      as (token & Htok & ->).
    destruct Hready as [_ Hn _ _ _ _ _ _ _ Hcpf _ _ _ _ _].
    exists org, n, cpf. eexists.
    repeat (split; [eassumption || reflexivity|]).
    apply tax_id_choice.
  - destruct (emit_nfse_called _ _ _ _ _ Hcalls)
      as (org & n & cfg & cpf & -> & Hready & Heq).
    rewrite Heq, nfse_attempt_eq in Hcalls.
    destruct (attempt_calls _ _ _ _ _ _ _ _ _ _ _ _ _ _ Hcalls)
      as (token & Htok & ->).
    destruct Hready as [_ Hn _ _ _ _ Hcpf _].
    exists org, n, cpf. eexists.
    repeat (split; [eassumption || reflexivity|]).
    apply tax_id_choice.
Qed.

(** ** The certificate check *)

Lemma blind_ret {A} (a : A) : blind (ret a).
Proof. intros v w. reflexivity. Qed.

Lemma blind_throw {A} (m : string) : blind (@throw A m).
Proof. intros v w. reflexivity. Qed.

Lemma blind_bind {A B} (c : M A) (k : A -> M B) :
  blind c -> (forall a, blind (k a)) -> blind (bind c k).
Proof.
  intros Hc Hk v w. unfold bind. rewrite Hc.
  destruct (c w) as [[a|m] w1]; cbn [fst snd]; [apply Hk|reflexivity].
Qed.

Lemma blind_try_catch {A} (c : M A) (h : string -> M A) :
  blind c -> (forall m, blind (h m)) -> blind (try_catch c h).
Proof.
  intros Hc Hh v w. unfold try_catch. rewrite Hc.
  destruct (c w) as [[a|m] w1]; cbn [fst snd]; [reflexivity|apply Hh].
Qed.

Lemma blind_update_nota (patch : NotaPatch) (nota_id : string) :
  blind (update_nota patch nota_id).
Proof. intros v w. reflexivity. Qed.

Lemma blind_insert_evento (e : FiscalEvento) : blind (insert_evento e).
Proof. intros v w. reflexivity. Qed.

Lemma blind_select_nota (p : NotaFiscal -> bool) : blind (select_nota p).
Proof. intros v w. reflexivity. Qed.

Lemma blind_fetch (rt : Runtime) (rq : FetchRequest) : blind (fetch rt rq).
Proof. intros v w. reflexivity. Qed.

Lemma blind_lift {A} (r : string + A) : blind (lift r).
Proof. destruct r; [apply blind_throw|apply blind_ret]. Qed.

Lemma blind_update_ultimo_numero (k : Contador) (numero : option Z)
    (now org : string) :
  blind (update_ultimo_numero k numero now org).
Proof.
  intros v w. unfold update_ultimo_numero, certificados.
  cbn [fst snd notas_fiscais notas_fiscais_itens fiscal_config
       fiscal_eventos gateway_calls].
  do 2 f_equal. rewrite !map_map. apply map_ext. intros c.
  change (cfg_organization_id (with_certificado v c))
    with (cfg_organization_id c).
  destruct (cfg_organization_id c =? org); reflexivity.
Qed.

Lemma blind_advance (k : Contador) (response : GatewayResponse)
    (status now org : string) :
  blind (advance_ultimo_numero k response status now org).
Proof.
  unfold advance_ultimo_numero.
  destruct (status =? "autorizada"); [|apply blind_ret].
  destruct (numero_of response);
    [apply blind_update_ultimo_numero|apply blind_ret].
Qed.

Lemma blind_focusFetch (rt : Runtime) (endpoint : string)
    (options : FocusOptions) :
  blind (focusFetch rt endpoint options).
Proof.
  unfold focusFetch. apply blind_bind; [apply blind_fetch|].
  intros [m|st ed|[m|r]];
    first [apply blind_throw|apply blind_ret].
Qed.

Lemma blind_emit_catch (prefix org nota_id now m : string) :
  blind (emit_catch prefix org nota_id now m).
Proof.
  unfold emit_catch.
  apply blind_bind; [apply blind_update_nota|intros _].
  apply blind_bind; [apply blind_insert_evento|intros _].
  apply blind_ret.
Qed.

(** The attempt reads the configuration it was given, never the stored
    certificate date. *)
Lemma blind_attempt (rt : Runtime) (org nota_id : string)
    (cfg : FiscalConfig) (prefix path focusRef : string) (body : Payload)
    (k : Contador) (status_of : option string -> string)
    (updateData : GatewayResponse -> string -> string -> NotaPatch)
    (mensagem_of : GatewayResponse -> string) :
  blind (attempt rt org nota_id cfg prefix path focusRef body k status_of
           updateData mensagem_of).
Proof.
  unfold attempt, attempt_try.
  apply blind_try_catch; [|intros m; apply blind_emit_catch].
  apply blind_bind; [apply blind_update_nota|intros _].
  apply blind_bind; [apply blind_lift|intros token].
  apply blind_bind; [apply blind_focusFetch|intros response].
  apply blind_bind; [apply blind_advance|intros _].
  apply blind_bind; [apply blind_update_nota|intros _].
  apply blind_bind; [apply blind_insert_evento|intros _].
  apply blind_bind; [apply blind_select_nota|intros nota].
  apply blind_ret.
Qed.

Lemma single_map {A B} (f : A -> B) (l : list A) :
  single (map f l) = option_map f (single l).
Proof. destruct l as [|a [|b l]]; reflexivity. Qed.

Lemma lookup_config_certificados (validade : option string) (w : World)
    (org : string) :
  lookup_config (certificados validade w) org
  = option_map (with_certificado validade) (lookup_config w org).
Proof.
  unfold lookup_config, certificados; cbn [fiscal_config].
  rewrite <- single_map. f_equal.
  induction (fiscal_config w) as [|c l IH]; [reflexivity|].
  cbn [map filter].
  change (cfg_organization_id (with_certificado validade c))
    with (cfg_organization_id c).
  destruct (cfg_organization_id c =? org); cbn [map]; now rewrite IH.
Qed.

Lemma certificado_absent (rt : Runtime) (cfg : FiscalConfig) :
  Js.truthy (cfg_certificado_validade cfg) = false ->
  certificado_expirado rt cfg = false.
Proof.
  unfold certificado_expirado.
  destruct (cfg_certificado_validade cfg) as [[|? ?]|];
    try discriminate; reflexivity.
Qed.

Lemma attempt_not_text (rt : Runtime) (org nota_id : string)
    (cfg : FiscalConfig) (path focusRef : string) (body : Payload)
    (k : Contador) (status_of : option string -> string)
    (updateData : GatewayResponse -> string -> string -> NotaPatch)
    (mensagem_of : GatewayResponse -> string) (w : World)
    (c : ascii) (rest text : string) :
  (fst (attempt rt org nota_id cfg (String c rest) path focusRef body k
          status_of updateData mensagem_of w) = Returned (Text text)) ->
  exists tail, text = String c tail.
Proof.
  destruct (resolveFocusToken rt cfg) as [m|token] eqn:Htok.
  - destruct (attempt_no_credential rt org nota_id cfg (String c rest) path
                focusRef body k status_of updateData mensagem_of m w Htok)
      as (w' & -> & _).
    cbn [fst]. intros [= <-]. eexists; reflexivity.
  - destruct (thrown_or_answer
                (rt_fetch rt (emission_request rt cfg path focusRef token
                                body)))
      as [(m & Hm)|(response & Hans)].
    + destruct (attempt_failure rt org nota_id cfg (String c rest) path
                  focusRef body k status_of updateData mensagem_of
                  token m w Htok Hm)
        as (w' & -> & _).
      cbn [fst]. intros [= <-]. eexists; reflexivity.
    + destruct (attempt_success rt org nota_id cfg (String c rest) path
                  focusRef body k status_of updateData mensagem_of
                  token response w Htok Hans)
        as (w' & -> & _).
      cbn [fst]. discriminate.
Qed.

(** Closes a branch in which the handler returns another text, or throws. *)
Ltac other_text := unfold ret, throw; cbn [fst]; discriminate.

(** However an attempt ends, it has written the document. *)
Lemma attempt_attempted (rt : Runtime) (org nota_id : string)
    (cfg : FiscalConfig) (prefix path focusRef : string) (body : Payload)
    (k : Contador) (status_of : option string -> string)
    (updateData : GatewayResponse -> string -> string -> NotaPatch)
    (mensagem_of : GatewayResponse -> string) (w : World) :
  (forall s, status_of s <> "rascunho") ->
  (forall response status now,
     p_status (updateData response status now) = Some status
     /\ p_focus_nfe_ref (updateData response status now) = None) ->
  stored w nota_id <> [] ->
  attempted
    (snd (attempt rt org nota_id cfg prefix path focusRef body k status_of
            updateData mensagem_of w))
    nota_id focusRef.
Proof.
  intros Hstatus Hpatch Hne.
  assert (Hfailed : forall m w',
            stored w' nota_id = failed rt focusRef m (stored w nota_id) ->
            attempted w' nota_id focusRef).
  { intros m w' Hst. unfold attempted. rewrite Hst. unfold failed. split.
    - now apply map_not_nil, map_not_nil.
    - rewrite map_map. apply Forall_map_intro. intros r.
      split; [reflexivity|discriminate]. }
  destruct (resolveFocusToken rt cfg) as [m|token] eqn:Htok.
  - destruct (attempt_no_credential rt org nota_id cfg prefix path focusRef
                body k status_of updateData mensagem_of m w Htok)
      as (w' & -> & Hst & _).
    exact (Hfailed m w' Hst).
  - destruct (thrown_or_answer
                (rt_fetch rt (emission_request rt cfg path focusRef token
                                body)))
      as [(m & Hm)|(response & Hans)].
    + destruct (attempt_failure rt org nota_id cfg prefix path focusRef
                  body k status_of updateData mensagem_of token m w Htok Hm)
        as (w' & -> & Hst & _).
      exact (Hfailed m w' Hst).
    + destruct (attempt_success rt org nota_id cfg prefix path focusRef
                  body k status_of updateData mensagem_of token response w
                  Htok Hans)
        as (w' & -> & Hst & _).
      cbn [snd]. unfold attempted. rewrite Hst. split.
      * now apply map_not_nil, map_not_nil.
      * rewrite map_map. apply Forall_map_intro. intros r.
        destruct (Hpatch response (status_of (resp_status response))
                    (rt_now rt)) as [Hs Hr].
        cbn [nf_focus_nfe_ref nf_status apply_patch]. rewrite Hs, Hr.
        split; [reflexivity|apply Hstatus].
Qed.

Lemma nfe_complete_ready (rt : Runtime) (w : World) (org nota_id : string)
    (n : NotaFiscal) (itens : list NotaItem) (cfg : FiscalConfig)
    (cpf_cnpj uf_dest : string) :
  NfeComplete w org nota_id n itens cfg cpf_cnpj uf_dest ->
  certificado_expirado rt cfg = false ->
  NfeReady rt w org nota_id n itens cfg cpf_cnpj uf_dest.
Proof. intros [] Hce. constructor; assumption. Qed.

(** The check itself: a request that is complete is turned down when the
    date on file is before the clock. *)
Lemma emit_nfe_expired (rt : Runtime) (w : World) (org nota_id : string)
    (n : NotaFiscal) (itens : list NotaItem) (cfg : FiscalConfig)
    (cpf_cnpj uf_dest : string) :
  NfeComplete w org nota_id n itens cfg cpf_cnpj uf_dest ->
  certificado_expirado rt cfg = true ->
  emit_nfe rt (Some org) nota_id w
  = (Returned (Text "Certificado digital expirado"), w).
Proof.
  intros [Horg Hn Hst Hit Hne Hcfg Hen _ _ _ _ _ _ _] Hce.
  unfold emit_nfe. destruct org as [|o os]; [contradiction|]. cbv zeta.
  rewrite bind_nota, Hn, Hst. cbn [String.eqb Ascii.eqb Bool.eqb negb].
  rewrite bind_itens, Hit.
  destruct itens as [|i0 itens]; [contradiction|].
  rewrite bind_config, Hcfg, Hen, Hce. reflexivity.
Qed.

(** C10. The certificate date is looked at by goods emission alone, and
    only when it is filled in. With a tenant whose date is null or empty,
    [emit_nfe] never answers that the certificate has expired and its run
    does not depend on the clock of the check; a request that meets the
    other preconditions goes on to the attempt, which writes the document.
    The same request with a date on file that is before the clock is
    turned down with nothing written. [emit_nfse] goes on to the attempt
    whatever the configuration says about the certificate, and runs the
    same whatever date is stored and whatever that clock shows. *)
Theorem certificate_check_scope (rt : Runtime) (orgId : option string)
    (nota_id : string) (w : World) :
  ((forall org cfg,
      orgId = Some org ->
      lookup_config w org = Some cfg ->
      Js.truthy (cfg_certificado_validade cfg) = false) ->
   fst (emit_nfe rt orgId nota_id w)
   <> Returned (Text "Certificado digital expirado")
   /\ forall today parse_date,
        emit_nfe (with_clock today parse_date rt) orgId nota_id w
        = emit_nfe rt orgId nota_id w)
  /\ (forall org n itens cfg cpf_cnpj uf uf_dest,
        orgId = Some org ->
        NfeComplete w org nota_id n itens cfg cpf_cnpj uf_dest ->
        cfg_uf cfg = Some uf ->
        (Js.truthy (cfg_certificado_validade cfg) = false ->
         emit_nfe rt orgId nota_id w
         = nfe_attempt rt org nota_id n itens cfg cpf_cnpj uf uf_dest w
         /\ attempted (snd (emit_nfe rt orgId nota_id w)) nota_id
              (generateFocusRef rt org "nfe"))
        /\ (forall validade t,
              cfg_certificado_validade cfg = Some validade ->
              validade <> "" ->
              rt_parse_date rt validade = Some t ->
              (t < rt_today rt)%Z ->
              emit_nfe rt orgId nota_id w
              = (Returned (Text "Certificado digital expirado"), w)))
  /\ (forall org n cfg cpf_cnpj,
        orgId = Some org ->
        NfseReady w org nota_id n cfg cpf_cnpj ->
        emit_nfse rt orgId nota_id w
        = nfse_attempt rt org nota_id n cfg cpf_cnpj w
        /\ attempted (snd (emit_nfse rt orgId nota_id w)) nota_id
             (generateFocusRef rt org "nfse"))
  /\ (forall validade,
        emit_nfse rt orgId nota_id (certificados validade w)
        = (fst (emit_nfse rt orgId nota_id w),
           certificados validade (snd (emit_nfse rt orgId nota_id w))))
  /\ (forall today parse_date,
        emit_nfse (with_clock today parse_date rt) orgId nota_id w
        = emit_nfse rt orgId nota_id w).
Proof.
  split; [|split; [|split; [|split]]].
  - intros Hcert.
    destruct orgId as [[|o os]|];
      [split; [unfold emit_nfe, ret; cbn [fst]; discriminate|reflexivity]
      |
      |split; [unfold emit_nfe, ret; cbn [fst]; discriminate|reflexivity]].
    split.
    + unfold emit_nfe. cbv iota. set (org := String o os).
      rewrite bind_nota.
      destruct (lookup_nota w org "nfe" nota_id) as [n|]; [|other_text].
      destruct (nf_status n =? "rascunho"); cbn [negb]; [|other_text].
      rewrite bind_itens.
      destruct (lookup_itens w nota_id) as [|i0 itens]; [other_text|].
      rewrite bind_config.
      destruct (lookup_config w org) as [cfg|] eqn:Hcfg; [|other_text].
      destruct (cfg_nfe_habilitado cfg); cbn [negb]; [|other_text].
      rewrite (certificado_absent rt cfg (Hcert org cfg eq_refl Hcfg)).
      destruct (nf_destinatario_nome n) as [[|? ?]|]; try other_text.
      destruct (nf_destinatario_cpf_cnpj n) as [[|? ?]|]; try other_text.
      destruct (nf_destinatario_logradouro n) as [[|? ?]|]; try other_text.
      destruct (nf_destinatario_municipio n) as [[|? ?]|]; try other_text.
      destruct (nf_destinatario_uf n) as [[|? ?]|]; try other_text.
      destruct (cfg_uf cfg); [|other_text].
      intros H. apply attempt_not_text in H as (tail & [=]).
    + intros today parse_date. unfold emit_nfe. cbv iota.
      set (org := String o os). rewrite !bind_nota.
      destruct (lookup_nota w org "nfe" nota_id) as [n|]; [|reflexivity].
      destruct (nf_status n =? "rascunho"); cbn [negb]; [|reflexivity].
      rewrite !bind_itens.
      destruct (lookup_itens w nota_id) as [|i0 itens]; [reflexivity|].
      rewrite !bind_config.
      destruct (lookup_config w org) as [cfg|] eqn:Hcfg; [|reflexivity].
      destruct (cfg_nfe_habilitado cfg); cbn [negb]; [|reflexivity].
      rewrite !(certificado_absent _ cfg (Hcert org cfg eq_refl Hcfg)).
      reflexivity.
  - intros org n itens cfg cpf uf ufd -> Hcomplete Huf. split.
    + intros Habsent.
      pose proof (nfe_complete_ready rt _ _ _ _ _ _ _ _ Hcomplete
                    (certificado_absent rt cfg Habsent)) as Hready.
      rewrite (emit_nfe_ready _ _ _ _ _ _ _ _ _ _ Hready Huf).
      split; [reflexivity|].
      rewrite nfe_attempt_eq. apply attempt_attempted.
      * exact nfe_status_not_draft.
      * intros response status now. split; reflexivity.
      * apply (In_not_nil n), (lookup_nota_stored w org "nfe").
        apply (nfc_found _ _ _ _ _ _ _ _ Hcomplete).
    + intros validade t Hval Hfilled Hparse Hlt.
      apply (emit_nfe_expired rt _ _ _ _ _ _ _ _ Hcomplete).
      unfold certificado_expirado. rewrite Hval.
      destruct validade as [|c v]; [contradiction|].
      rewrite Hparse. now apply Z.ltb_lt.
  - intros org n cfg cpf -> Hready.
    rewrite (emit_nfse_ready rt _ _ _ _ _ _ Hready).
    split; [reflexivity|].
    rewrite nfse_attempt_eq. apply attempt_attempted.
    + exact nfse_status_not_draft.
    + intros response status now. split; reflexivity.
    + apply (In_not_nil n), (lookup_nota_stored w org "nfse").
      apply (nfse_found _ _ _ _ _ _ Hready).
  - intros validade.
    destruct orgId as [[|o os]|]; [reflexivity| |reflexivity].
    unfold emit_nfse. cbv iota. set (org := String o os).
    rewrite !bind_nota.
    change (lookup_nota (certificados validade w) org "nfse" nota_id)
      with (lookup_nota w org "nfse" nota_id).
    destruct (lookup_nota w org "nfse" nota_id) as [n|]; [|reflexivity].
    destruct (nf_status n =? "rascunho"); cbn [negb]; [|reflexivity].
    rewrite !bind_config, lookup_config_certificados.
    destruct (lookup_config w org) as [cfg|]; [|reflexivity].
    cbn [option_map].
    change (cfg_nfse_habilitado (with_certificado validade cfg))
      with (cfg_nfse_habilitado cfg).
    destruct (cfg_nfse_habilitado cfg); cbn [negb]; [|reflexivity].
    destruct (nf_destinatario_nome n) as [[|? ?]|]; try reflexivity.
    destruct (nf_destinatario_cpf_cnpj n) as [[|d ds]|]; try reflexivity.
    exact (blind_attempt rt org nota_id cfg "Erro ao emitir NFSe: "
             "/v2/nfse?ref=" (generateFocusRef rt org "nfse")
             (PayloadNfse (nfsePayload rt cfg n (String d ds)))
             NfseUltimoNumero nfse_status nfse_updateData
             (fun r => Js.or_lit (resp_mensagem r)
                                 "NFSe enviada para processamento")
             validade w).
  - intros today parse_date. reflexivity.
Qed.

(** ** Runs on the sample tenant *)

(** The goods draft of the sample meets the preconditions under any
    configuration of the tenant that enables goods and has no certificate
    date. *)
Lemma sample_ready_nfe (rt : Runtime) (c : FiscalConfig) :
  cfg_nfe_habilitado c = true ->
  cfg_certificado_validade c = None ->
  cfg_organization_id c = Sample.org ->
  NfeReady rt (Sample.world Scenario.notas Scenario.itens c) Sample.org
    "nf-1" Scenario.nota_nf1 Scenario.itens_nf1 c "12.345.678/0001-95" "sp".
Proof.
  intros Hen Hcert Horg.
  constructor; try reflexivity; try discriminate; try assumption.
  - unfold lookup_config, Sample.world; cbn [fiscal_config filter].
    rewrite Horg. reflexivity.
  - unfold certificado_expirado. now rewrite Hcert.
Qed.

Lemma sample_complete_nfe (c : FiscalConfig) :
  cfg_nfe_habilitado c = true ->
  cfg_organization_id c = Sample.org ->
  NfeComplete (Sample.world Scenario.notas Scenario.itens c) Sample.org
    "nf-1" Scenario.nota_nf1 Scenario.itens_nf1 c "12.345.678/0001-95" "sp".
Proof.
  intros Hen Horg.
  constructor; try reflexivity; try discriminate; try assumption.
  unfold lookup_config, Sample.world; cbn [fiscal_config filter].
  rewrite Horg. reflexivity.
Qed.

Lemma sample_ready_nfse (c : FiscalConfig) :
  cfg_nfse_habilitado c = true ->
  cfg_organization_id c = Sample.org ->
  NfseReady (Sample.world Scenario.notas Scenario.itens c) Sample.org
    "nfs-1" Scenario.nota_nfs1 c "123.456.789-09".
Proof.
  intros Hen Horg.
  constructor; try reflexivity; try discriminate; try assumption.
  unfold lookup_config, Sample.world; cbn [fiscal_config filter].
  rewrite Horg. reflexivity.
Qed.

(** C1 on the sample tenant without credentials: the draft ends in status
    erro, with its reference id, and one event row. *)
Lemma missing_credential_is_recorded_witness :
  fst (emit_nfe Scenario.rt_offline (Some Sample.org) "nf-1"
         Scenario.w_sem_token)
  = Returned (Text ("Erro ao emitir NFe: " ++ token_error "homologacao"))
  /\ credential_failure_recorded Scenario.w_sem_token
       (snd (emit_nfe Scenario.rt_offline (Some Sample.org) "nf-1"
               Scenario.w_sem_token))
       Sample.org "nf-1" "nfe_org-0001_lq2x9k3f_4fzyo8"
       (token_error "homologacao") "2023-11-14T22:13:20.001Z".
Proof.
  apply (proj1 (proj1 (missing_credential_is_recorded Scenario.rt_offline
                         Scenario.w_sem_token Sample.org "nf-1"
                         Scenario.nota_nf1 Scenario.cfg_sem_token
                         "12.345.678/0001-95"
                         (conj eq_refl (conj eq_refl eq_refl)))
                  Scenario.itens_nf1 "sp"
                  (sample_ready_nfe Scenario.rt_offline
                     Scenario.cfg_sem_token eq_refl eq_refl eq_refl))
           "SP" eq_refl).
Defined.

(** C1 as stated fails: with no credential anywhere, the run of [emit_nfe]
    on a valid draft writes the status, persists the reference id and
    inserts an event row. *)
Lemma missing_credential_changes_state :
  Scenario.after_sem_token
  = snd (emit_nfe Scenario.rt_offline (Some Sample.org) "nf-1"
           Scenario.w_sem_token)
  /\ no_credential Scenario.rt_offline Scenario.cfg_sem_token
  /\ lookup_config Scenario.w_sem_token Sample.org
     = Some Scenario.cfg_sem_token
  /\ map nf_status (stored Scenario.w_sem_token "nf-1") = ["rascunho"]
  /\ map nf_status (stored Scenario.after_sem_token "nf-1") = ["erro"]
  /\ map nf_focus_nfe_ref (stored Scenario.w_sem_token "nf-1") = [None]
  /\ map nf_focus_nfe_ref (stored Scenario.after_sem_token "nf-1")
     = [Some "nfe_org-0001_lq2x9k3f_4fzyo8"]
  /\ fiscal_eventos Scenario.w_sem_token = []
  /\ map ev_tipo (fiscal_eventos Scenario.after_sem_token) = ["erro"]
  /\ Scenario.after_sem_token <> Scenario.w_sem_token.
Proof.
  split; [reflexivity|].
  vm_compute. repeat split. discriminate.
Qed.

(** C2 on the sample tenant: after autorizado with number 123 the goods
    counter is 123. *)
Lemma counter_is_set_to_number_witness :
  Forall (fun c => ultimo_numero NfeUltimoNumero c = Some 123%Z)
    (stored_config
       (snd (emit_nfe Scenario.rt_autorizado (Some Sample.org) "nf-1"
               Scenario.w))
       Sample.org)
  /\ Forall (fun c => ultimo_numero NfseUltimoNumero c = Some 123%Z)
       (stored_config
          (snd (emit_nfse Scenario.rt_autorizado (Some Sample.org) "nfs-1"
                  Scenario.w))
          Sample.org).
Proof.
  split.
  - apply (proj1 (counter_is_set_to_number Scenario.rt_autorizado
                    Sample.org "nf-1" Scenario.w Scenario.pedido_nfe
                    Scenario.autorizado_123 "123" eq_refl eq_refl eq_refl
                    ltac:(discriminate) eq_refl)).
    vm_compute. reflexivity.
  - apply (proj1 (proj2 (counter_is_set_to_number Scenario.rt_autorizado
                    Sample.org "nfs-1" Scenario.w Scenario.pedido_nfse
                    Scenario.autorizado_123 "123" eq_refl eq_refl eq_refl
                    ltac:(discriminate) eq_refl))).
    vm_compute. reflexivity.
Defined.

(** C2 as stated fails: a tenant whose goods counter is 200 has it at 123
    after an emission the gateway answers with autorizado and number 123. *)
Lemma counter_can_decrease :
  Scenario.after_autorizado
  = snd (emit_nfe Scenario.rt_autorizado (Some Sample.org) "nf-1"
           Scenario.w)
  /\ rt_fetch Scenario.rt_autorizado Scenario.pedido_nfe
     = HttpOk (inr Scenario.autorizado_123)
  /\ nfe_status (resp_status Scenario.autorizado_123) = "autorizada"
  /\ resp_numero Scenario.autorizado_123 = Some "123"
  /\ map nf_status (stored Scenario.after_autorizado "nf-1")
     = ["autorizada"]
  /\ map cfg_nfe_ultimo_numero (stored_config Scenario.w Sample.org)
     = [Some 200%Z]
  /\ map cfg_nfe_ultimo_numero
       (stored_config Scenario.after_autorizado Sample.org)
     = [Some 123%Z]
  /\ ~ (200 <= 123)%Z.
Proof.
  split; [reflexivity|].
  repeat (split; [vm_compute; reflexivity|]). lia.
Qed.

(** C3 on the sample tenant: the gateway answers denegado; the goods
    draft ends rejected and the service draft stays in processing. *)
Lemma stored_status_follows_gateway_witness :
  Forall (fun r => status_mapping true (Some "denegado") (nf_status r))
    (stored (snd (emit_nfe Scenario.rt_denegado (Some Sample.org) "nf-1"
                    Scenario.w)) "nf-1")
  /\ Forall (fun r => status_mapping false (Some "denegado") (nf_status r))
       (stored (snd (emit_nfse Scenario.rt_denegado (Some Sample.org)
                       "nfs-1" Scenario.w)) "nfs-1").
Proof.
  split.
  - apply (proj1 (stored_status_follows_gateway Scenario.rt_denegado
                    (Some Sample.org) "nf-1" Scenario.w Scenario.pedido_nfe
                    Scenario.denegado eq_refl)).
    vm_compute. reflexivity.
  - apply (proj2 (stored_status_follows_gateway Scenario.rt_denegado
                    (Some Sample.org) "nfs-1" Scenario.w Scenario.pedido_nfse
                    Scenario.denegado eq_refl)).
    vm_compute. reflexivity.
Defined.

(** C4 on the sample tenant: the network is down. *)
Lemma failed_submission_is_recorded_witness :
  failure_recorded Scenario.w
    (snd (emit_nfe Scenario.rt_offline (Some Sample.org) "nf-1" Scenario.w))
    "nf-1" "fetch failed"
  /\ failure_recorded Scenario.w
       (snd (emit_nfse Scenario.rt_offline (Some Sample.org) "nfs-1"
               Scenario.w))
       "nfs-1" "fetch failed".
Proof.
  split.
  - apply (proj1 (failed_submission_is_recorded Scenario.rt_offline
                    (Some Sample.org) "nf-1" Scenario.w Scenario.pedido_nfe
                    "fetch failed" eq_refl)).
    vm_compute. reflexivity.
  - apply (proj2 (failed_submission_is_recorded Scenario.rt_offline
                    (Some Sample.org) "nfs-1" Scenario.w Scenario.pedido_nfse
                    "fetch failed" eq_refl)).
    vm_compute. reflexivity.
Defined.

(** C5 on the sample tenant: the issued document is not emitted again. *)
Lemma non_draft_is_turned_down_witness :
  emit_nfe Scenario.rt_autorizado (Some Sample.org) "nf-2" Scenario.w
  = (Returned (Text "Apenas notas em rascunho podem ser emitidas"),
     Scenario.w).
Proof.
  assert (H : Forall (fun r => nf_status r <> "rascunho")
                (stored Scenario.w "nf-2")).
  { vm_compute. repeat constructor. discriminate. }
  destruct (non_draft_is_turned_down Scenario.rt_autorizado
              (Some Sample.org) "nf-2" Scenario.w H) as [[Hw Htext] _].
  specialize (Htext Sample.org (Sample.nota "nf-2" "nfe" "autorizada"
                                  "12.345.678/0001-95") eq_refl
                    ltac:(discriminate) eq_refl).
  rewrite (surjective_pairing (emit_nfe _ _ _ _)), Hw, Htext.
  reflexivity.
Defined.

(** C6 on the sample tenant: the draft without items. *)
Lemma no_items_no_gateway_call_witness :
  emit_nfe Scenario.rt_autorizado (Some Sample.org) "nf-3" Scenario.w
  = (Returned (Text "Nota deve ter pelo menos um item"), Scenario.w)
  /\ gateway_calls
       (snd (emit_nfe Scenario.rt_autorizado (Some Sample.org) "nf-3"
               Scenario.w)) = [].
Proof.
  assert (H : forall i, In i (notas_fiscais_itens Scenario.w) ->
                        it_nota_fiscal_id i <> "nf-3").
  { simpl. intros i [<-|[<-|[<-|[]]]]; simpl; discriminate. }
  destruct (no_items_no_gateway_call Scenario.rt_autorizado Sample.org
              "nf-3" Scenario.w
              (Sample.nota "nf-3" "nfe" "rascunho" "12.345.678/0001-95")
              ltac:(discriminate) eq_refl H) as (Hrun & Hcalls & _).
  split; [exact Hrun|exact Hcalls].
Defined.

(** C7 on the sample tenant: a tenant of SP sells to a recipient of sp;
    the item without a code gets 5102. *)
Lemma cfop_follows_region_witness :
  exists p fi,
    rq_body Scenario.pedido_nfe = Some (PayloadNfe p)
    /\ nth_error (np_items p) 0 = Some fi
    /\ fi_cfop fi = "5102".
Proof.
  assert (Hcalls :
    gateway_calls (snd (emit_nfe Scenario.rt_offline (Some Sample.org)
                          "nf-1" Scenario.w))
    = (gateway_calls Scenario.w ++ [Scenario.pedido_nfe])%list).
  { vm_compute. reflexivity. }
  destruct (cfop_follows_region Scenario.rt_offline (Some Sample.org) "nf-1"
              Scenario.w Scenario.pedido_nfe Hcalls)
    as ((org & n & cfg & uf & ufd & p & Horg & Hn & Hcfg & Huf & Hufd & Hp
         & Hitems) & _).
  injection Horg as <-.
  change (lookup_nota Scenario.w Sample.org "nfe" "nf-1")
    with (Some Scenario.nota_nf1) in Hn.
  change (lookup_config Scenario.w Sample.org)
    with (Some Scenario.cfg) in Hcfg.
  injection Hn as <-. injection Hcfg as <-.
  injection Huf as <-. injection Hufd as <-.
  destruct (Hitems eq_refl eq_refl 0 (Sample.item "it-1" "nf-1" 1 None)
              eq_refl eq_refl)
    as (fi & Hfi & Hsame & _).
  exists p, fi. split; [exact Hp|]. split; [exact Hfi|].
  apply Hsame. apply isMesmoEstado_same_region. reflexivity.
Defined.

(** C8 on the sample tenant: fourteen digits go to the CNPJ field of the
    goods payload, eleven to the CPF field of the service payload. *)
Lemma tax_id_field_by_length_witness :
  (exists p, rq_body Scenario.pedido_nfe = Some (PayloadNfe p)
             /\ np_cnpj_destinatario p = Some "12345678000195"
             /\ np_cpf_destinatario p = None)
  /\ (exists p, rq_body Scenario.pedido_nfse = Some (PayloadNfse p)
                /\ to_cpf (sp_tomador p) = Some "12345678909"
                /\ to_cnpj (sp_tomador p) = None).
Proof.
  split.
  - assert (Hcalls :
      gateway_calls (snd (emit_nfe Scenario.rt_offline (Some Sample.org)
                            "nf-1" Scenario.w))
      = (gateway_calls Scenario.w ++ [Scenario.pedido_nfe])%list).
    { vm_compute. reflexivity. }
    destruct (proj1 (tax_id_field_by_length Scenario.rt_offline
                       (Some Sample.org) "nf-1" Scenario.w
                       Scenario.pedido_nfe) Hcalls)
      as (org & n & cpf & p & Horg & Hn & Hcpf & Hp & _ & H14).
    injection Horg as <-.
    change (lookup_nota Scenario.w Sample.org "nfe" "nf-1")
      with (Some Scenario.nota_nf1) in Hn.
    injection Hn as <-. injection Hcpf as <-.
    exists p. split; [exact Hp|]. exact (H14 eq_refl).
  - assert (Hcalls :
      gateway_calls (snd (emit_nfse Scenario.rt_offline (Some Sample.org)
                            "nfs-1" Scenario.w))
      = (gateway_calls Scenario.w ++ [Scenario.pedido_nfse])%list).
    { vm_compute. reflexivity. }
    destruct (proj1 (proj2 (tax_id_field_by_length Scenario.rt_offline
                       (Some Sample.org) "nfs-1" Scenario.w
                       Scenario.pedido_nfse)) Hcalls)
      as (org & n & cpf & p & Horg & Hn & Hcpf & Hp & H11 & _).
    injection Horg as <-.
    change (lookup_nota Scenario.w Sample.org "nfse" "nfs-1")
      with (Some Scenario.nota_nfs1) in Hn.
    injection Hn as <-. injection Hcpf as <-.
    exists p. split; [exact Hp|]. exact (H11 eq_refl).
Defined.

(** C9 on the sample tenant, whose environment is unset. *)
Lemma unset_environment_is_sandbox_witness :
  resolveFocusToken Scenario.rt_offline Scenario.cfg = inr "tok-h"
  /\ resolveFocusApiUrl Scenario.rt_offline Scenario.cfg
     = "https://homologacao.focusnfe.com.br".
Proof.
  destruct (unset_environment_is_sandbox Scenario.rt_offline Scenario.cfg
              eq_refl) as (_ & _ & Hurl & _ & Htoken).
  split; [|exact Hurl].
  apply Htoken; [reflexivity|discriminate].
Defined.

(** C10 on the sample tenant, which has no certificate date on file: the
    goods draft is attempted, and the service draft is attempted as well
    and runs the same with a date long past on file. *)
Lemma certificate_check_scope_witness :
  attempted
    (snd (emit_nfe Scenario.rt_autorizado (Some Sample.org) "nf-1"
            Scenario.w))
    "nf-1" "nfe_org-0001_lq2x9k3f_4fzyo8"
  /\ attempted
       (snd (emit_nfse Scenario.rt_autorizado (Some Sample.org) "nfs-1"
               Scenario.w))
       "nfs-1" "nfse_org-0001_lq2x9k3f_4fzyo8"
  /\ fst (emit_nfe Scenario.rt_autorizado (Some Sample.org) "nf-1" Scenario.w)
     <> Returned (Text "Certificado digital expirado")
  /\ emit_nfse Scenario.rt_autorizado (Some Sample.org) "nfs-1"
       (certificados (Some "2001-01-01") Scenario.w)
     = (fst (emit_nfse Scenario.rt_autorizado (Some Sample.org) "nfs-1"
               Scenario.w),
        certificados (Some "2001-01-01")
          (snd (emit_nfse Scenario.rt_autorizado (Some Sample.org) "nfs-1"
                  Scenario.w))).
Proof.
  split; [|split; [|split]].
  - apply (proj1 (proj1 (proj2 (certificate_check_scope
                                  Scenario.rt_autorizado (Some Sample.org)
                                  "nf-1" Scenario.w))
                    Sample.org Scenario.nota_nf1 Scenario.itens_nf1
                    Scenario.cfg "12.345.678/0001-95" "SP" "sp" eq_refl
                    (sample_complete_nfe Scenario.cfg eq_refl eq_refl)
                    eq_refl)).
    reflexivity.
  - apply (proj1 (proj2 (proj2 (certificate_check_scope
                                  Scenario.rt_autorizado (Some Sample.org)
                                  "nfs-1" Scenario.w)))
             Sample.org Scenario.nota_nfs1 Scenario.cfg "123.456.789-09"
             eq_refl (sample_ready_nfse Scenario.cfg eq_refl eq_refl)).
  - apply (proj1 (certificate_check_scope Scenario.rt_autorizado
                    (Some Sample.org) "nf-1" Scenario.w)).
    intros org cfg [= <-].
    change (lookup_config Scenario.w Sample.org) with (Some Scenario.cfg).
    intros [= <-]. reflexivity.
  - apply (proj1 (proj2 (proj2 (proj2 (certificate_check_scope
                                         Scenario.rt_autorizado
                                         (Some Sample.org) "nfs-1"
                                         Scenario.w))))).
Defined.

(** ** What a run leaves alone *)

(** Closure of [keeps] under the combinators of the handlers, for a
    relation that is reflexive and transitive and is kept by the writes
    of a run on document [nota_id] for tenant [orgId] with counter [k]. *)
Section Keeps.

Variable R : World -> World -> Prop.
Variables (orgId : option string) (nota_id : string) (k : Contador).
Hypothesis R_refl : forall w, R w w.
Hypothesis R_trans : forall a b c, R a b -> R b c -> R a c.
Hypothesis R_update_nota : forall patch, keeps R (update_nota patch nota_id).
Hypothesis R_counter :
  forall numero now org,
    orgId = Some org -> keeps R (update_ultimo_numero k numero now org).
Hypothesis R_insert :
  forall e,
    orgId = Some (ev_organization_id e) -> ev_nota_fiscal_id e = nota_id ->
    keeps R (insert_evento e).
Hypothesis R_fetch : forall rt rq, keeps R (fetch rt rq).

Lemma keeps_ret {A} (a : A) : keeps R (ret a).
Proof. intros w. apply R_refl. Qed.

Lemma keeps_throw {A} (m : string) : keeps R (@throw A m).
Proof. intros w. apply R_refl. Qed.

Lemma keeps_bind {A B} (c : M A) (f : A -> M B) :
  keeps R c -> (forall a, keeps R (f a)) -> keeps R (bind c f).
Proof.
  intros Hc Hf w. unfold bind. specialize (Hc w).
  destruct (c w) as [[a|m] w1]; cbn [snd] in *; [|exact Hc].
  exact (R_trans _ _ _ Hc (Hf a w1)).
Qed.

Lemma keeps_try_catch {A} (c : M A) (h : string -> M A) :
  keeps R c -> (forall m, keeps R (h m)) -> keeps R (try_catch c h).
Proof.
  intros Hc Hh w. unfold try_catch. specialize (Hc w).
  destruct (c w) as [[a|m] w1]; cbn [snd] in *; [exact Hc|].
  exact (R_trans _ _ _ Hc (Hh m w1)).
Qed.

Lemma keeps_select_nota (p : NotaFiscal -> bool) : keeps R (select_nota p).
Proof. intros w. apply R_refl. Qed.

Lemma keeps_select_itens (id : string) : keeps R (select_itens id).
Proof. intros w. apply R_refl. Qed.

Lemma keeps_lift {A} (r : string + A) : keeps R (lift r).
Proof. destruct r; [apply keeps_throw|apply keeps_ret]. Qed.

Lemma keeps_focusFetch (rt : Runtime) (endpoint : string)
    (options : FocusOptions) :
  keeps R (focusFetch rt endpoint options).
Proof.
  unfold focusFetch. apply keeps_bind; [apply R_fetch|].
  intros [m|st ed|[m|r]]; first [apply keeps_throw|apply keeps_ret].
Qed.

Lemma keeps_advance (org : string) (response : GatewayResponse)
    (status now : string) :
  orgId = Some org ->
  keeps R (advance_ultimo_numero k response status now org).
Proof.
  intros Horg. unfold advance_ultimo_numero.
  destruct (status =? "autorizada"); [|apply keeps_ret].
  destruct (numero_of response); [now apply R_counter|apply keeps_ret].
Qed.

Lemma keeps_emit_catch (prefix org now m : string) :
  orgId = Some org -> keeps R (emit_catch prefix org nota_id now m).
Proof.
  intros Horg. unfold emit_catch.
  apply keeps_bind; [apply R_update_nota|intros _].
  apply keeps_bind; [now apply R_insert|intros _].
  apply keeps_ret.
Qed.

Lemma keeps_attempt (rt : Runtime) (org : string) (cfg : FiscalConfig)
    (prefix path focusRef : string) (body : Payload)
    (status_of : option string -> string)
    (updateData : GatewayResponse -> string -> string -> NotaPatch)
    (mensagem_of : GatewayResponse -> string) :
  orgId = Some org ->
  keeps R (attempt rt org nota_id cfg prefix path focusRef body k status_of
             updateData mensagem_of).
Proof.
  intros Horg. unfold attempt, attempt_try.
  apply keeps_try_catch; [|intros m; now apply keeps_emit_catch].
  apply keeps_bind; [apply R_update_nota|intros _].
  apply keeps_bind; [apply keeps_lift|intros token].
  apply keeps_bind; [apply keeps_focusFetch|intros response].
  apply keeps_bind; [now apply keeps_advance|intros _].
  apply keeps_bind; [apply R_update_nota|intros _].
  apply keeps_bind; [now apply R_insert|intros _].
  apply keeps_bind; [apply keeps_select_nota|intros nota].
  apply keeps_ret.
Qed.

Lemma keeps_emit_nfe (rt : Runtime) :
  k = NfeUltimoNumero -> keeps R (emit_nfe rt orgId nota_id).
Proof.
  intros Hk w.
  destruct (emit_nfe_cases rt orgId nota_id w)
    as [(msg & _ & Heq)
       |(org & n & itens & cfg & cpf & ufd & Horg & _
           & [(_ & m & Heq)|(uf & _ & Heq)])];
    rewrite Heq; cbn [snd]; try apply R_refl.
  rewrite nfe_attempt_eq, <- Hk. now apply keeps_attempt.
Qed.

Lemma keeps_emit_nfse (rt : Runtime) :
  k = NfseUltimoNumero -> keeps R (emit_nfse rt orgId nota_id).
Proof.
  intros Hk w.
  destruct (emit_nfse_cases rt orgId nota_id w)
    as [(msg & _ & Heq)|(org & n & cfg & cpf & Horg & _ & Heq)];
    rewrite Heq; cbn [snd]; try apply R_refl.
  rewrite nfse_attempt_eq, <- Hk. now apply keeps_attempt.
Qed.

End Keeps.

Lemma outside_kept_refl (nota_id : string) (w : World) :
  outside_kept nota_id w w.
Proof. repeat split. Qed.

Lemma outside_kept_trans (nota_id : string) (a b c : World) :
  outside_kept nota_id a b -> outside_kept nota_id b c ->
  outside_kept nota_id a c.
Proof.
  intros [[Hi1 Ho1] Hl1] [[Hi2 Ho2] Hl2]. repeat split.
  - now rewrite Hi2.
  - intros id Hid. now rewrite Ho2, Ho1.
  - now rewrite Hl2.
Qed.

Lemma outside_kept_update_nota (nota_id : string) (patch : NotaPatch) :
  keeps (outside_kept nota_id) (update_nota patch nota_id).
Proof.
  intros w. unfold outside_kept, other_documents_kept, stored, update_nota.
  cbn [snd notas_fiscais notas_fiscais_itens].
  repeat split.
  - rewrite map_map. apply map_ext. intros r.
    destruct (nf_id r =? nota_id); reflexivity.
  - intros id Hid.
    induction (notas_fiscais w) as [|r l IH]; [reflexivity|].
    cbn [map filter].
    destruct (nf_id r =? nota_id) eqn:E.
    + apply String.eqb_eq in E.
      change (nf_id (apply_patch patch r)) with (nf_id r).
      assert (Hne : (nf_id r =? id) = false)
        by (apply String.eqb_neq; congruence).
      rewrite Hne. exact IH.
    + destruct (nf_id r =? id); [now rewrite IH|exact IH].
Qed.

(** X1. A run of either handler leaves every other document as it was,
    adds and removes no document row, and never writes a line item. *)
Theorem emit_keeps_other_documents (rt : Runtime) (orgId : option string)
    (nota_id : string) (w : World) :
  outside_kept nota_id w (snd (emit_nfe rt orgId nota_id w))
  /\ outside_kept nota_id w (snd (emit_nfse rt orgId nota_id w)).
Proof.
  split.
  - apply (keeps_emit_nfe (outside_kept nota_id) orgId nota_id
             NfeUltimoNumero (outside_kept_refl nota_id)
             (outside_kept_trans nota_id)
             (outside_kept_update_nota nota_id));
      try reflexivity; intros; intros w0; repeat split.
  - apply (keeps_emit_nfse (outside_kept nota_id) orgId nota_id
             NfseUltimoNumero (outside_kept_refl nota_id)
             (outside_kept_trans nota_id)
             (outside_kept_update_nota nota_id));
      try reflexivity; intros; intros w0; repeat split.
Qed.

Lemma config_kept_refl (orgId : option string) (k : Contador) (w : World) :
  config_kept orgId k w w.
Proof. split; [reflexivity|intros; reflexivity]. Qed.

Lemma config_kept_trans (orgId : option string) (k : Contador)
    (a b c : World) :
  config_kept orgId k a b -> config_kept orgId k b c ->
  config_kept orgId k a c.
Proof.
  intros [Hm1 Ho1] [Hm2 Ho2]. split.
  - now rewrite Hm2.
  - intros org Horg. now rewrite Ho2, Ho1.
Qed.

Lemma config_kept_counter (orgId : option string) (k : Contador)
    (numero : option Z) (now org : string) :
  orgId = Some org ->
  keeps (config_kept orgId k) (update_ultimo_numero k numero now org).
Proof.
  intros -> w. unfold config_kept, stored_config, update_ultimo_numero.
  cbn [snd fiscal_config]. split.
  - rewrite map_map. apply map_ext. intros c.
    destruct (cfg_organization_id c =? org); [|reflexivity].
    destruct k; reflexivity.
  - intros org' Horg'.
    induction (fiscal_config w) as [|c l IH]; [reflexivity|].
    cbn [map filter].
    destruct (cfg_organization_id c =? org) eqn:E.
    + apply String.eqb_eq in E.
      change (cfg_organization_id (set_ultimo_numero k numero now c))
        with (cfg_organization_id c).
      assert (Hne : (cfg_organization_id c =? org') = false)
        by (apply String.eqb_neq; congruence).
      rewrite Hne. exact IH.
    + destruct (cfg_organization_id c =? org'); [now rewrite IH|exact IH].
Qed.

Lemma config_kept_other_counter (orgId : option string) (w w' : World) :
  (config_kept orgId NfeUltimoNumero w w' ->
   map cfg_nfse_ultimo_numero (fiscal_config w')
   = map cfg_nfse_ultimo_numero (fiscal_config w))
  /\ (config_kept orgId NfseUltimoNumero w w' ->
      map cfg_nfe_ultimo_numero (fiscal_config w')
      = map cfg_nfe_ultimo_numero (fiscal_config w)).
Proof.
  split; intros [Hm _].
  - apply (f_equal (map cfg_nfse_ultimo_numero)) in Hm.
    now rewrite !map_map in Hm.
  - apply (f_equal (map cfg_nfe_ultimo_numero)) in Hm.
    now rewrite !map_map in Hm.
Qed.

(** X2. A run of either handler changes nothing in [fiscal_config] but the
    last number of its own kind and the time stamp, and those only in the
    rows of the calling tenant: the other tenants' rows, the credentials
    and the counter of the other kind are as before. *)
Theorem emit_keeps_configuration (rt : Runtime) (orgId : option string)
    (nota_id : string) (w : World) :
  (config_kept orgId NfeUltimoNumero w (snd (emit_nfe rt orgId nota_id w))
   /\ map cfg_nfse_ultimo_numero
        (fiscal_config (snd (emit_nfe rt orgId nota_id w)))
      = map cfg_nfse_ultimo_numero (fiscal_config w))
  /\ (config_kept orgId NfseUltimoNumero w
        (snd (emit_nfse rt orgId nota_id w))
      /\ map cfg_nfe_ultimo_numero
           (fiscal_config (snd (emit_nfse rt orgId nota_id w)))
         = map cfg_nfe_ultimo_numero (fiscal_config w)).
Proof.
  assert (Hnfe : config_kept orgId NfeUltimoNumero w
                   (snd (emit_nfe rt orgId nota_id w))).
  { apply (keeps_emit_nfe (config_kept orgId NfeUltimoNumero) orgId nota_id
             NfeUltimoNumero (config_kept_refl orgId NfeUltimoNumero)
             (config_kept_trans orgId NfeUltimoNumero));
      try reflexivity; intros;
      try (now apply config_kept_counter);
      intros w0; (split; [reflexivity|intros; reflexivity]). }
  assert (Hnfse : config_kept orgId NfseUltimoNumero w
                    (snd (emit_nfse rt orgId nota_id w))).
  { apply (keeps_emit_nfse (config_kept orgId NfseUltimoNumero) orgId
             nota_id NfseUltimoNumero
             (config_kept_refl orgId NfseUltimoNumero)
             (config_kept_trans orgId NfseUltimoNumero));
      try reflexivity; intros;
      try (now apply config_kept_counter);
      intros w0; (split; [reflexivity|intros; reflexivity]). }
  split; (split; [assumption|]).
  - now apply (proj1 (config_kept_other_counter orgId w _)).
  - now apply (proj2 (config_kept_other_counter orgId w _)).
Qed.

(** ** The audit trail and the gateway call of a run *)

(** X3. A run of either handler that changes the world appends exactly
    one event row, of kind emissao or erro, for the tenant and the
    document, stamped with the time of the run; a run that appends none
    has changed nothing. *)
Theorem emit_appends_one_event (rt : Runtime) (orgId : option string)
    (nota_id : string) (w : World) :
  (snd (emit_nfe rt orgId nota_id w) = w
   \/ exists org e,
        orgId = Some org
        /\ events_appended org nota_id w
             (snd (emit_nfe rt orgId nota_id w)) [e]
        /\ (ev_tipo e = "emissao" \/ ev_tipo e = "erro")
        /\ ev_created_at e = rt_now rt)
  /\ (snd (emit_nfse rt orgId nota_id w) = w
      \/ exists org e,
           orgId = Some org
           /\ events_appended org nota_id w
                (snd (emit_nfse rt orgId nota_id w)) [e]
           /\ (ev_tipo e = "emissao" \/ ev_tipo e = "erro")
           /\ ev_created_at e = rt_now rt).
Proof.
  split.
  - destruct (emit_nfe_cases rt orgId nota_id w)
      as [(msg & _ & Heq)
         |(org & n & itens & cfg & cpf & ufd & Horg & _
             & [(_ & m & Heq)|(uf & _ & Heq)])];
      try (left; now rewrite Heq).
    right. exists org. rewrite nfe_attempt_eq in Heq. rewrite Heq.
    attempt_outcomes rt cfg Heq w; rewrite Hrun; cbn [snd];
      eexists; (split; [exact Horg|]);
      (split; [split; [exact Hev|repeat constructor]|]);
      (split; [|reflexivity]); auto.
  - destruct (emit_nfse_cases rt orgId nota_id w)
      as [(msg & _ & Heq)|(org & n & cfg & cpf & Horg & _ & Heq)];
      try (left; now rewrite Heq).
    right. exists org. rewrite nfse_attempt_eq in Heq. rewrite Heq.
    attempt_outcomes rt cfg Heq w; rewrite Hrun; cbn [snd];
      eexists; (split; [exact Horg|]);
      (split; [split; [exact Hev|repeat constructor]|]);
      (split; [|reflexivity]); auto.
Qed.

(** X4. A run of either handler calls the gateway at most once. The call
    is a POST to the endpoint resolved for the tenant, on the path of the
    kind with the encoded reference id, under the credential resolved for
    the tenant; and the reference id it carries is the one left on the
    document. *)
Theorem emit_calls_gateway_once (rt : Runtime) (orgId : option string)
    (nota_id : string) (w : World) :
  (gateway_calls (snd (emit_nfe rt orgId nota_id w)) = gateway_calls w
   \/ exists org cfg token rq,
        orgId = Some org
        /\ lookup_config w org = Some cfg
        /\ resolveFocusToken rt cfg = inr token
        /\ gateway_calls (snd (emit_nfe rt orgId nota_id w))
           = (gateway_calls w ++ [rq])%list
        /\ rq_method rq = "POST"
        /\ rq_basic_user rq = token
        /\ rq_url rq
           = resolveFocusApiUrl rt cfg
             ++ "/v2/nfe?ref="
             ++ rt_encodeURIComponent rt (generateFocusRef rt org "nfe")
        /\ Forall (fun r => nf_focus_nfe_ref r
                            = Some (generateFocusRef rt org "nfe"))
             (stored (snd (emit_nfe rt orgId nota_id w)) nota_id))
  /\ (gateway_calls (snd (emit_nfse rt orgId nota_id w)) = gateway_calls w
      \/ exists org cfg token rq,
           orgId = Some org
           /\ lookup_config w org = Some cfg
           /\ resolveFocusToken rt cfg = inr token
           /\ gateway_calls (snd (emit_nfse rt orgId nota_id w))
              = (gateway_calls w ++ [rq])%list
           /\ rq_method rq = "POST"
           /\ rq_basic_user rq = token
           /\ rq_url rq
              = resolveFocusApiUrl rt cfg
                ++ "/v2/nfse?ref="
                ++ rt_encodeURIComponent rt (generateFocusRef rt org "nfse")
           /\ Forall (fun r => nf_focus_nfe_ref r
                               = Some (generateFocusRef rt org "nfse"))
                (stored (snd (emit_nfse rt orgId nota_id w)) nota_id)).
Proof.
  split.
  - destruct (emit_nfe_cases rt orgId nota_id w)
      as [(msg & _ & Heq)
         |(org & n & itens & cfg & cpf & ufd & Horg & Hready
             & [(_ & m & Heq)|(uf & _ & Heq)])];
      try (left; now rewrite Heq).
    rewrite nfe_attempt_eq in Heq. rewrite Heq.
    pose proof (nfe_config _ _ _ _ _ _ _ _ _ Hready) as Hcfg.
    attempt_outcomes rt cfg Heq w; rewrite Hrun; cbn [snd];
      [left; exact Hgw| |];
      right; exists org, cfg, token; eexists;
      repeat (split; [eassumption || reflexivity|]);
      rewrite Hst; unfold failed; rewrite map_map;
      apply Forall_map_intro; intros r; reflexivity.
  - destruct (emit_nfse_cases rt orgId nota_id w)
      as [(msg & _ & Heq)|(org & n & cfg & cpf & Horg & Hready & Heq)];
      try (left; now rewrite Heq).
    rewrite nfse_attempt_eq in Heq. rewrite Heq.
    pose proof (nfse_config _ _ _ _ _ _ Hready) as Hcfg.
    attempt_outcomes rt cfg Heq w; rewrite Hrun; cbn [snd];
      [left; exact Hgw| |];
      right; exists org, cfg, token; eexists;
      repeat (split; [eassumption || reflexivity|]);
      rewrite Hst; unfold failed; rewrite map_map;
      apply Forall_map_intro; intros r; reflexivity.
Qed.

(** ** Emitting twice *)

Lemma no_draft_quiet (rt : Runtime) (orgId : option string)
    (nota_id : string) (w : World) :
  Forall (fun r => nf_status r <> "rascunho") (stored w nota_id) ->
  snd (emit_nfe rt orgId nota_id w) = w
  /\ snd (emit_nfse rt orgId nota_id w) = w.
Proof.
  intros Hall. rewrite Forall_forall in Hall. split.
  - destruct (emit_nfe_cases rt orgId nota_id w)
      as [(msg & _ & Heq)
         |(org & n & itens & cfg & cpf & ufd & Horg & Hready & _)];
      [now rewrite Heq|].
    exfalso.
    apply (Hall n (lookup_nota_stored _ _ _ _ _
                     (nfe_found _ _ _ _ _ _ _ _ _ Hready))).
    apply (nfe_draft _ _ _ _ _ _ _ _ _ Hready).
  - destruct (emit_nfse_cases rt orgId nota_id w)
      as [(msg & _ & Heq)|(org & n & cfg & cpf & Horg & Hready & _)];
      [now rewrite Heq|].
    exfalso.
    apply (Hall n (lookup_nota_stored _ _ _ _ _
                     (nfse_found _ _ _ _ _ _ Hready))).
    apply (nfse_draft _ _ _ _ _ _ Hready).
Qed.

(** A run that changed the world left no row of the document a draft. *)
Lemma emit_nfe_leaves_no_draft (rt : Runtime) (orgId : option string)
    (nota_id : string) (w : World) :
  snd (emit_nfe rt orgId nota_id w) <> w ->
  Forall (fun r => nf_status r <> "rascunho")
    (stored (snd (emit_nfe rt orgId nota_id w)) nota_id).
Proof.
  intros Hchanged.
  destruct (emit_nfe_cases rt orgId nota_id w)
    as [(msg & _ & Heq)
       |(org & n & itens & cfg & cpf & ufd & Horg & Hready
           & [(_ & m & Heq)|(uf & _ & Heq)])];
    try (rewrite Heq in Hchanged; now contradiction Hchanged).
  rewrite nfe_attempt_eq in Heq. rewrite Heq.
  attempt_outcomes rt cfg Heq w; rewrite Hrun; cbn [snd]; rewrite Hst;
    unfold failed; rewrite map_map; apply Forall_map_intro; intros r;
    first [discriminate|apply nfe_status_not_draft].
Qed.

Lemma emit_nfse_leaves_no_draft (rt : Runtime) (orgId : option string)
    (nota_id : string) (w : World) :
  snd (emit_nfse rt orgId nota_id w) <> w ->
  Forall (fun r => nf_status r <> "rascunho")
    (stored (snd (emit_nfse rt orgId nota_id w)) nota_id).
Proof.
  intros Hchanged.
  destruct (emit_nfse_cases rt orgId nota_id w)
    as [(msg & _ & Heq)|(org & n & cfg & cpf & Horg & Hready & Heq)];
    try (rewrite Heq in Hchanged; now contradiction Hchanged).
  rewrite nfse_attempt_eq in Heq. rewrite Heq.
  attempt_outcomes rt cfg Heq w; rewrite Hrun; cbn [snd]; rewrite Hst;
    unfold failed; rewrite map_map; apply Forall_map_intro; intros r;
    first [discriminate|apply nfse_status_not_draft].
Qed.

(** X5. A document is attempted once: after a run of either handler that
    changed the world, no later run of either handler for that document,
    by any tenant and at any time, changes anything. *)
Theorem emitted_once (rt rt2 : Runtime) (orgId orgId2 : option string)
    (nota_id : string) (w : World) :
  (snd (emit_nfe rt orgId nota_id w) <> w ->
   snd (emit_nfe rt2 orgId2 nota_id (snd (emit_nfe rt orgId nota_id w)))
   = snd (emit_nfe rt orgId nota_id w)
   /\ snd (emit_nfse rt2 orgId2 nota_id (snd (emit_nfe rt orgId nota_id w)))
      = snd (emit_nfe rt orgId nota_id w))
  /\ (snd (emit_nfse rt orgId nota_id w) <> w ->
      snd (emit_nfe rt2 orgId2 nota_id (snd (emit_nfse rt orgId nota_id w)))
      = snd (emit_nfse rt orgId nota_id w)
      /\ snd (emit_nfse rt2 orgId2 nota_id
                (snd (emit_nfse rt orgId nota_id w)))
         = snd (emit_nfse rt orgId nota_id w)).
Proof.
  split; intros Hchanged; apply no_draft_quiet.
  - now apply emit_nfe_leaves_no_draft.
  - now apply emit_nfse_leaves_no_draft.
Qed.

(** ** Answered submissions *)

(** X6. When the gateway answers the submission of a run with a JSON
    body, whatever status it reports, the handler returns the re-read
    document with that status, stamps the document with the time of the
    run, stores the gateway status on it when the answer has one, a text
    or [null], and leaves the stored one when it has none, and appends
    exactly one event row of kind emissao with the raw answer. *)
Theorem answered_submission_is_recorded (rt : Runtime)
    (orgId : option string) (nota_id : string) (w : World)
    (rq : FetchRequest) (response : GatewayResponse) :
  rt_fetch rt rq = HttpOk (inr response) ->
  (gateway_calls (snd (emit_nfe rt orgId nota_id w))
   = (gateway_calls w ++ [rq])%list ->
   answer_recorded rt nota_id response w
     (snd (emit_nfe rt orgId nota_id w))
     (fst (emit_nfe rt orgId nota_id w)))
  /\ (gateway_calls (snd (emit_nfse rt orgId nota_id w))
      = (gateway_calls w ++ [rq])%list ->
      answer_recorded rt nota_id response w
        (snd (emit_nfse rt orgId nota_id w))
        (fst (emit_nfse rt orgId nota_id w))).
Proof.
  intros Hans. split; intros Hcalls.
  - destruct (emit_nfe_called _ _ _ _ _ Hcalls)
      as (org & n & itens & cfg & cpf & uf & ufd & -> & Hready & Huf & Heq).
    rewrite Heq, nfe_attempt_eq in *.
    destruct (attempt_calls _ _ _ _ _ _ _ _ _ _ _ _ _ _ Hcalls)
      as (token & Htok & ->).
    on_attempt Heq
      ltac:(fun a b c d e f g h i j k l =>
        destruct (attempt_success a b c d e f g h i j k l
                    token response w Htok Hans)
          as (w' & Hrun & Hst & Hev & _)).
    rewrite Hrun; cbn [fst snd]. split; [reflexivity|].
    rewrite Hst, !map_map. split; [|split; [|split]].
    + apply Forall_map_intro. intros r. reflexivity.
    + intros Hhas. apply Forall_map_intro. intros r.
      cbn [nf_focus_nfe_status apply_patch nfe_updateData nfse_updateData
           p_focus_nfe_status].
      unfold focus_nfe_status_of.
      destruct (resp_status response); [reflexivity|].
      destruct Hhas as [Hhas|Hhas]; [contradiction|now rewrite Hhas].
    + intros Hnone Hnull. apply map_ext. intros r.
      cbn [nf_focus_nfe_status apply_patch nfe_updateData nfse_updateData
           p_focus_nfe_status].
      unfold focus_nfe_status_of. now rewrite Hnone, Hnull.
    + eexists. split; [exact Hev|]. repeat split.
  - destruct (emit_nfse_called _ _ _ _ _ Hcalls)
      as (org & n & cfg & cpf & -> & Hready & Heq).
    rewrite Heq, nfse_attempt_eq in *.
    destruct (attempt_calls _ _ _ _ _ _ _ _ _ _ _ _ _ _ Hcalls)
      as (token & Htok & ->).
    on_attempt Heq
      ltac:(fun a b c d e f g h i j k l =>
        destruct (attempt_success a b c d e f g h i j k l
                    token response w Htok Hans)
          as (w' & Hrun & Hst & Hev & _)).
    rewrite Hrun; cbn [fst snd]. split; [reflexivity|].
    rewrite Hst, !map_map. split; [|split; [|split]].
    + apply Forall_map_intro. intros r. reflexivity.
    + intros Hhas. apply Forall_map_intro. intros r.
      cbn [nf_focus_nfe_status apply_patch nfe_updateData nfse_updateData
           p_focus_nfe_status].
      unfold focus_nfe_status_of.
      destruct (resp_status response); [reflexivity|].
      destruct Hhas as [Hhas|Hhas]; [contradiction|now rewrite Hhas].
    + intros Hnone Hnull. apply map_ext. intros r.
      cbn [nf_focus_nfe_status apply_patch nfe_updateData nfse_updateData
           p_focus_nfe_status].
      unfold focus_nfe_status_of. now rewrite Hnone, Hnull.
    + eexists. split; [exact Hev|]. repeat split.
Qed.

Lemma numero_of_filled (response : GatewayResponse) (numero : string) :
  resp_numero response = Some numero -> numero <> "" ->
  numero_of response = Some numero.
Proof.
  intros H Hne. unfold numero_of. rewrite H.
  destruct numero; [contradiction|reflexivity].
Qed.

(** X7. On an answered submission, the document number and the issue date
    are written only for the status autorizado: then the issue date is
    the time of the run and the number, when the answer carries one, an
    ASCII text whose number is a safe integer, is the parsed number.
    Under any other status, or without a number in the answer, the
    document number and the tenant's configuration rows are left as they
    were, and under any other status so is the issue date. *)
Theorem number_only_when_authorized (rt : Runtime) (org nota_id : string)
    (w : World) (rq : FetchRequest) (response : GatewayResponse) :
  rt_fetch rt rq = HttpOk (inr response) ->
  (gateway_calls (snd (emit_nfe rt (Some org) nota_id w))
   = (gateway_calls w ++ [rq])%list ->
   let w' := snd (emit_nfe rt (Some org) nota_id w) in
   (resp_status response = Some "autorizado" ->
    Forall (fun r => nf_data_emissao r = Some (rt_now rt))
      (stored w' nota_id)
    /\ forall numero,
         resp_numero response = Some numero -> numero <> "" ->
         Js.exact_number numero = true ->
         Forall (fun r => nf_numero r = Js.parseInt10 numero)
           (stored w' nota_id))
   /\ (resp_status response <> Some "autorizado"
       \/ numero_of response = None ->
       number_untouched org nota_id w w')
   /\ (resp_status response <> Some "autorizado" ->
       map nf_data_emissao (stored w' nota_id)
       = map nf_data_emissao (stored w nota_id)))
  /\ (gateway_calls (snd (emit_nfse rt (Some org) nota_id w))
      = (gateway_calls w ++ [rq])%list ->
      let w' := snd (emit_nfse rt (Some org) nota_id w) in
      (resp_status response = Some "autorizado" ->
       Forall (fun r => nf_data_emissao r = Some (rt_now rt))
         (stored w' nota_id)
       /\ forall numero,
            resp_numero response = Some numero -> numero <> "" ->
            Js.exact_number numero = true ->
            Forall (fun r => nf_numero r = Js.parseInt10 numero)
              (stored w' nota_id))
      /\ (resp_status response <> Some "autorizado"
          \/ numero_of response = None ->
          number_untouched org nota_id w w')
      /\ (resp_status response <> Some "autorizado" ->
          map nf_data_emissao (stored w' nota_id)
          = map nf_data_emissao (stored w nota_id))).
Proof.
  intros Hans. split; intros Hcalls w'; subst w'.
  - destruct (emit_nfe_called _ _ _ _ _ Hcalls)
      as (org' & n & itens & cfg & cpf & uf & ufd & [= <-] & Hready & Huf
          & Heq).
    rewrite Heq, nfe_attempt_eq in *.
    destruct (attempt_calls _ _ _ _ _ _ _ _ _ _ _ _ _ _ Hcalls)
      as (token & Htok & ->).
    on_attempt Heq
      ltac:(fun a b c d e f g h i j k l =>
        destruct (attempt_success a b c d e f g h i j k l
                    token response w Htok Hans)
          as (w' & Hrun & Hst & _ & _ & Hcfg)).
    rewrite Hrun; cbn [snd]. unfold number_untouched.
    rewrite Hst, Hcfg, !map_map. unfold advanced.
    assert (Hother : resp_status response <> Some "autorizado" ->
                     (nfe_status (resp_status response) =? "autorizada")
                     = false).
    { intros Hne. unfold nfe_status.
      destruct (resp_status response) as [s|]; [|reflexivity].
      destruct (s =? "autorizado") eqn:E;
        [apply String.eqb_eq in E; congruence|].
      destruct ((s =? "erro_autorizacao") || (s =? "denegado"));
        reflexivity. }
    split; [|split].
    + intros Hst'. rewrite Hst'. split.
      * apply Forall_map_intro. intros r. reflexivity.
      * intros numero Hnum Hne _. apply Forall_map_intro. intros r.
        cbn [nf_numero apply_patch nfe_updateData p_numero nfe_status
             String.eqb Ascii.eqb Bool.eqb].
        now rewrite (numero_of_filled _ _ Hnum Hne).
    + intros [Hne|Hnone].
      * rewrite (Hother Hne). split; [|reflexivity].
        apply map_ext. intros r.
        cbn [nf_numero apply_patch nfe_updateData p_numero].
        now rewrite (Hother Hne).
      * rewrite Hnone. split;
          [|destruct (nfe_status (resp_status response) =? "autorizada");
            reflexivity].
        apply map_ext. intros r.
        cbn [nf_numero apply_patch nfe_updateData p_numero].
        rewrite Hnone.
        destruct (nfe_status (resp_status response) =? "autorizada");
          reflexivity.
    + intros Hne. apply map_ext. intros r.
      cbn [nf_data_emissao apply_patch nfe_updateData p_data_emissao].
      now rewrite (Hother Hne).
  - destruct (emit_nfse_called _ _ _ _ _ Hcalls)
      as (org' & n & cfg & cpf & [= <-] & Hready & Heq).
    rewrite Heq, nfse_attempt_eq in *.
    destruct (attempt_calls _ _ _ _ _ _ _ _ _ _ _ _ _ _ Hcalls)
      as (token & Htok & ->).
    on_attempt Heq
      ltac:(fun a b c d e f g h i j k l =>
        destruct (attempt_success a b c d e f g h i j k l
                    token response w Htok Hans)
          as (w' & Hrun & Hst & _ & _ & Hcfg)).
    rewrite Hrun; cbn [snd]. unfold number_untouched.
    rewrite Hst, Hcfg, !map_map. unfold advanced.
    assert (Hother : resp_status response <> Some "autorizado" ->
                     (nfse_status (resp_status response) =? "autorizada")
                     = false).
    { intros Hne. unfold nfse_status.
      destruct (resp_status response) as [s|]; [|reflexivity].
      destruct (s =? "autorizado") eqn:E;
        [apply String.eqb_eq in E; congruence|].
      destruct (s =? "erro_autorizacao"); reflexivity. }
    split; [|split].
    + intros Hst'. rewrite Hst'. split.
      * apply Forall_map_intro. intros r. reflexivity.
      * intros numero Hnum Hne _. apply Forall_map_intro. intros r.
        cbn [nf_numero apply_patch nfse_updateData p_numero nfse_status
             String.eqb Ascii.eqb Bool.eqb].
        now rewrite (numero_of_filled _ _ Hnum Hne).
    + intros [Hne|Hnone].
      * rewrite (Hother Hne). split; [|reflexivity].
        apply map_ext. intros r.
        cbn [nf_numero apply_patch nfse_updateData p_numero].
        now rewrite (Hother Hne).
      * rewrite Hnone. split;
          [|destruct (nfse_status (resp_status response) =? "autorizada");
            reflexivity].
        apply map_ext. intros r.
        cbn [nf_numero apply_patch nfse_updateData p_numero].
        rewrite Hnone.
        destruct (nfse_status (resp_status response) =? "autorizada");
          reflexivity.
    + intros Hne. apply map_ext. intros r.
      cbn [nf_data_emissao apply_patch nfse_updateData p_data_emissao].
      now rewrite (Hother Hne).
Qed.

(** ** The gateway client *)




(** ** Credentials and environments *)

(** X9. The credential [resolveFocusToken] returns is never empty and is
    the first filled one of three: the slot of the configured
    environment, the legacy field, the master credential of the process. *)
Theorem token_priority (rt : Runtime) (cfg : FiscalConfig) :
  (forall token,
     resolveFocusToken rt cfg = inr token ->
     token <> ""
     /\ (credential_slot cfg = Some token
         \/ cfg_focus_nfe_token cfg = Some token
         \/ rt_FOCUS_NFE_MASTER_TOKEN rt = Some token))
  /\ (forall token,
        credential_slot cfg = Some token -> token <> "" ->
        resolveFocusToken rt cfg = inr token)
  /\ (forall token,
        Js.truthy (credential_slot cfg) = false ->
        cfg_focus_nfe_token cfg = Some token -> token <> "" ->
        resolveFocusToken rt cfg = inr token)
  /\ (forall token,
        Js.truthy (credential_slot cfg) = false ->
        Js.truthy (cfg_focus_nfe_token cfg) = false ->
        rt_FOCUS_NFE_MASTER_TOKEN rt = Some token -> token <> "" ->
        resolveFocusToken rt cfg = inr token).
Proof.
  unfold resolveFocusToken. fold (credential_slot cfg).
  split; [|split; [|split]].
  - intros token. unfold Js.or.
    destruct (credential_slot cfg) as [[|c s]|];
      destruct (cfg_focus_nfe_token cfg) as [[|c' s']|];
      destruct (rt_FOCUS_NFE_MASTER_TOKEN rt) as [[|c'' s'']|];
      cbn [Js.truthy]; intros [= <-]; (split; [discriminate|auto]).
  - intros token Hslot Hne. rewrite Hslot.
    destruct token; [contradiction|reflexivity].
  - intros token Hslot Hleg Hne. rewrite (or_falsy _ _ Hslot), Hleg.
    destruct token; [contradiction|reflexivity].
  - intros token Hslot Hleg Hmaster Hne.
    rewrite (or_falsy _ _ Hslot), (or_falsy _ _ Hleg), Hmaster.
    destruct token; [contradiction|reflexivity].
Qed.


(** ** The goods and service payloads *)

Lemma map_index_length {A B} (f : nat -> A -> B) (l : list A) :
  forall i, List.length (map_index f i l) = List.length l.
Proof. induction l as [|a l IH]; intros i; simpl; [|rewrite IH]; reflexivity. Qed.

Lemma focusItens_numbers (d : bool) (l : list NotaItem) :
  forall i,
    map fi_numero_item (map_index (focusItem d) i l)
    = seq (i + 1) (List.length l).
Proof.
  induction l as [|a l IH]; intros i; [reflexivity|].
  cbn [map_index map List.length seq focusItem fi_numero_item].
  f_equal. exact (IH (S i)).
Qed.

(** X11. The items of a goods payload are the stored items one for one,
    in their order, numbered 1, 2, ... whatever their stored numbers; an
    item that has an operation code of its own keeps it, whatever the
    regions, and its description and total pass unchanged. *)
Theorem items_are_renumbered (dentroEstado : bool) (itens : list NotaItem) :
  List.length (focusItens dentroEstado itens) = List.length itens
  /\ map fi_numero_item (focusItens dentroEstado itens)
     = seq 1 (List.length itens)
  /\ forall k item cfop,
       nth_error itens k = Some item ->
       it_cfop item = Some cfop -> cfop <> "" ->
       exists fi,
         nth_error (focusItens dentroEstado itens) k = Some fi
         /\ fi_cfop fi = cfop
         /\ fi_descricao fi = it_descricao item
         /\ fi_valor_bruto fi = it_valor_total item.
Proof.
  unfold focusItens. split; [apply map_index_length|].
  split; [apply (focusItens_numbers dentroEstado itens 0)|].
  intros k item cfop Hk Hcfop Hne.
  rewrite nth_error_map_index, Hk. cbn [option_map].
  eexists. split; [reflexivity|].
  cbn [fi_cfop fi_descricao fi_valor_bruto focusItem]. rewrite Hcfop.
  destruct cfop; [contradiction|]. repeat split.
Qed.

Lemma strip_all_digits (s : string) : all_digits (Js.strip_non_digits s).
Proof.
  unfold all_digits. rewrite strip_non_digits_filter.
  apply Forall_forall. intros c Hc. now apply filter_In in Hc.
Qed.

Lemma strip_digits_same (s : string) :
  all_digits s -> Js.strip_non_digits s = s.
Proof.
  unfold all_digits. induction s as [|c s IH]; [reflexivity|].
  cbn [list_ascii_of_string Js.strip_non_digits]. intros H.
  inversion H as [|? ? Hc Hs]; subst. rewrite Hc. f_equal. now apply IH.
Qed.

Lemma or_strip_digits (v : option string) (t : string) :
  Js.or (strip_opt v) None = Some t -> all_digits t.
Proof.
  unfold Js.or. destruct v as [s|]; cbn [strip_opt option_map Js.truthy];
    [|discriminate].
  destruct (Js.strip_non_digits s) eqn:E; [discriminate|].
  intros [= <-]. rewrite <- E. apply strip_all_digits.
Qed.

Lemma or_lit_strip_digits (v : option string) :
  all_digits (Js.or_lit (strip_opt v) "").
Proof.
  destruct v as [s|]; cbn [strip_opt option_map Js.or_lit];
    [|constructor].
  destruct (Js.strip_non_digits s) eqn:E; [constructor|].
  rewrite <- E. apply strip_all_digits.
Qed.

Lemma tax_id_digits (digits t : string) (b : bool) :
  all_digits digits ->
  (if b then Some digits else None) = Some t
  \/ (if b then None else Some digits) = Some t ->
  all_digits t.
Proof. destruct b; intros H [[=]|[=]]; now subst. Qed.

(** X12. Stripping leaves digits only, in their order, and changes
    nothing in a string of digits. In both payloads every number that is
    sent as text (the recipient's tax id in either field, the phone, the
    postal code, the provider's tax id) consists of digits only. *)
Theorem payload_numbers_are_digits (rt : Runtime) (cfg : FiscalConfig)
    (n : NotaFiscal) (cpf_cnpj : string) (items : list NfeItem) :
  (forall s, all_digits (Js.strip_non_digits s))
  /\ (forall s, all_digits s -> Js.strip_non_digits s = s)
  /\ (forall s, Js.strip_non_digits (Js.strip_non_digits s)
                = Js.strip_non_digits s)
  /\ (let p := nfePayload rt cfg n cpf_cnpj items in
      all_digits (np_cep_destinatario p)
      /\ forall t,
           np_cnpj_destinatario p = Some t \/ np_cpf_destinatario p = Some t
           \/ np_telefone_destinatario p = Some t ->
           all_digits t)
  /\ (let p := nfsePayload rt cfg n cpf_cnpj in
      all_digits (en_cep (to_endereco (sp_tomador p)))
      /\ forall t,
           to_cnpj (sp_tomador p) = Some t \/ to_cpf (sp_tomador p) = Some t
           \/ to_telefone (sp_tomador p) = Some t
           \/ pr_cnpj (sp_prestador p) = Some t ->
           all_digits t).
Proof.
  split; [exact strip_all_digits|]. split; [exact strip_digits_same|].
  split; [intros s; apply strip_digits_same, strip_all_digits|].
  split; cbv zeta; (split; [apply or_lit_strip_digits|]); intros t.
  - cbn [nfePayload np_cnpj_destinatario np_cpf_destinatario
         np_telefone_destinatario].
    intros [H|[H|H]];
      [eapply tax_id_digits; [apply strip_all_digits|left; exact H]
      |eapply tax_id_digits; [apply strip_all_digits|right; exact H]
      |exact (or_strip_digits _ _ H)].
  - cbn [nfsePayload sp_tomador sp_prestador to_cnpj to_cpf to_telefone
         pr_cnpj].
    intros [H|[H|[H|H]]];
      [eapply tax_id_digits; [apply strip_all_digits|left; exact H]
      |eapply tax_id_digits; [apply strip_all_digits|right; exact H]
      |exact (or_strip_digits _ _ H)|].
    destruct (cfg_cnpj cfg) as [s|]; cbn [strip_opt option_map] in H;
      [|discriminate].
    injection H as <-. apply strip_all_digits.
Qed.










(** ** Reading a document *)

Lemma insert_item_perm (x : NotaItem) (l : list NotaItem) :
  Permutation (insert_item x l) (x :: l).
Proof.
  induction l as [|y l IH]; [reflexivity|].
  cbn [insert_item].
  destruct (it_numero_item x <? it_numero_item y)%Z; [reflexivity|].
  rewrite IH. apply perm_swap.
Qed.

Lemma order_by_numero_item_perm (l : list NotaItem) :
  Permutation (order_by_numero_item l) l.
Proof.
  induction l as [|x l IH]; [reflexivity|].
  cbn [order_by_numero_item fold_right].
  fold (order_by_numero_item l).
  rewrite insert_item_perm. now constructor.
Qed.

Lemma insert_item_sorted (x : NotaItem) (l : list NotaItem) :
  Sorted by_numero_item l -> Sorted by_numero_item (insert_item x l).
Proof.
  induction 1 as [|y l Hs IH Hhd]; [repeat constructor|].
  cbn [insert_item].
  destruct (it_numero_item x <? it_numero_item y)%Z eqn:E.
  - apply Z.ltb_lt in E. constructor; [now constructor|].
    constructor. unfold by_numero_item. lia.
  - apply Z.ltb_ge in E. constructor; [exact IH|].
    destruct l as [|z l]; cbn [insert_item].
    + constructor. exact E.
    + destruct (it_numero_item x <? it_numero_item z)%Z;
        constructor; [exact E|now inversion Hhd].
Qed.

Lemma order_by_numero_item_sorted (l : list NotaItem) :
  Sorted by_numero_item (order_by_numero_item l).
Proof.
  induction l as [|x l IH]; [constructor|].
  cbn [order_by_numero_item fold_right]. now apply insert_item_sorted.
Qed.

(** X15. [get_nota_fiscal] leaves the store as it is. It throws only out
    of [getSupabase], with its message: for a session that has a tenant,
    when the client was never created and a store variable is not set;
    otherwise it returns. A document it returns is a stored one with the
    id asked for and the caller as its tenant, of either kind; the items
    returned with it are the stored items of that document id, each once,
    in ascending stored number. *)
Theorem get_nota_fiscal_reads_own_document (env : AuthEnv) (client : bool)
    (orgId : option string) (id : string) (w : World) :
  snd (get_nota_fiscal env client orgId id w) = w
  /\ (forall message,
        fst (get_nota_fiscal env client orgId id w) = Thrown message
        <-> Js.truthy orgId = true /\ getSupabase env client = inl message)
  /\ ((exists message, getSupabase env client = inl message)
      <-> client = false
          /\ (Js.truthy (env_SUPABASE_URL env) = false
              \/ Js.truthy (env_SUPABASE_SERVICE_ROLE_KEY env) = false))
  /\ (getSupabase env client = inr tt ->
      exists result,
        fst (get_nota_fiscal env client orgId id w) = Returned result)
  /\ forall nota itens,
       fst (get_nota_fiscal env client orgId id w)
       = Returned (ConsultaNota nota itens) ->
       In nota (notas_fiscais w)
       /\ nf_id nota = id
       /\ orgId = Some (nf_organization_id nota)
       /\ Permutation itens
            (filter (fun i => it_nota_fiscal_id i =? id)
                    (notas_fiscais_itens w))
       /\ Sorted by_numero_item itens.
Proof.
  assert (Hsupa : (exists message, getSupabase env client = inl message)
                  <-> client = false
                      /\ (Js.truthy (env_SUPABASE_URL env) = false
                          \/ Js.truthy (env_SUPABASE_SERVICE_ROLE_KEY env)
                             = false)).
  { unfold getSupabase. destruct client.
    - split; [intros (message & [=])|intros [[=] _]].
    - destruct (Js.truthy (env_SUPABASE_URL env));
        destruct (Js.truthy (env_SUPABASE_SERVICE_ROLE_KEY env));
        cbn [negb orb]; split;
        solve [ intros (message & [=])
              | intros [_ [[=]|[=]]]
              | intros _; eexists; reflexivity
              | intros _; auto ]. }
  unfold get_nota_fiscal.
  destruct orgId as [[|o os]|];
    try (split; [reflexivity|];
         split; [intros message; cbn [fst ret Js.truthy]; split;
                 [discriminate|intros [[=] _]]|];
         split; [exact Hsupa|];
         split; [intros _; eexists; reflexivity|discriminate]).
  cbv zeta. unfold bind at 1.
  destruct (getSupabase env client) as [m|[]] eqn:Hs; cbn [lift throw ret].
  - cbn [fst snd].
    split; [reflexivity|].
    split; [intros message; split;
            [intros [= <-]; split; reflexivity
            |intros [_ [= <-]]; reflexivity]|].
    split; [exact Hsupa|].
    split; [discriminate|discriminate].
  - unfold bind, select_nota, select_itens, ret. cbn [fst snd].
    destruct (single _) as [n|] eqn:Hn;
      (split; [reflexivity|];
       split; [intros message; split; [discriminate|intros [_ [=]]]|];
       split; [exact Hsupa|];
       split; [intros _; eexists; reflexivity|]);
      [|discriminate].
    intros nota itens [= <- <-].
    apply single_In, filter_In in Hn as [Hin Hp].
    apply andb_true_iff in Hp as [Hid Horg].
    apply String.eqb_eq in Hid, Horg.
    repeat split; try assumption.
    + now rewrite Horg.
    + apply order_by_numero_item_perm.
    + apply order_by_numero_item_sorted.
Qed.

(** ** A tenant without a region code *)

(** X16. For a tenant whose configuration has no region code, a goods
    emission that met every precondition throws out of the handler
    before the attempt: nothing is written, no event is recorded, the
    gateway is not called and the document stays a draft. *)
Theorem missing_region_throws (rt : Runtime) (w : World)
    (org nota_id : string) (n : NotaFiscal) (itens : list NotaItem)
    (cfg : FiscalConfig) (cpf_cnpj uf_dest : string) :
  NfeReady rt w org nota_id n itens cfg cpf_cnpj uf_dest ->
  cfg_uf cfg = None ->
  (exists m, emit_nfe rt (Some org) nota_id w = (Thrown m, w))
  /\ In n (stored (snd (emit_nfe rt (Some org) nota_id w)) nota_id)
  /\ nf_status n = "rascunho".
Proof.
  intros Hready Huf.
  pose proof (emit_nfe_without_region _ _ _ _ _ _ _ _ _ Hready Huf) as Hrun.
  split; [exact Hrun|]. destruct Hrun as (m & ->). cbn [snd]. split.
  - apply (lookup_nota_stored w org "nfe").
    apply (nfe_found _ _ _ _ _ _ _ _ _ Hready).
  - apply (nfe_draft _ _ _ _ _ _ _ _ _ Hready).
Qed.

(** ** The tenant of a session *)

(** X17. A session opened with the master key takes its tenant from the
    override when it is filled, else from GV_ORG_ID when it is filled,
    and is cross-tenant otherwise, without looking at the [api_keys]
    table or at the store's configuration; and a cross-tenant session can
    neither emit nor read a fiscal document: the three tools answer that
    the tenant is required and change nothing. *)
Theorem master_key_session (env : AuthEnv) (client : bool)
    (api_keys : list ApiKey) (apiKey orgIdOverride : option string)
    (master : string) :
  env_MASTER_API_KEY env = Some master ->
  master <> "" ->
  Js.or apiKey (env_GV_API_KEY env) = Some master ->
  (forall org,
     orgIdOverride = Some org -> org <> "" ->
     resolveOrgId env client api_keys apiKey orgIdOverride = inr (Some org))
  /\ (forall org,
        Js.truthy orgIdOverride = false ->
        env_GV_ORG_ID env = Some org -> org <> "" ->
        resolveOrgId env client api_keys apiKey orgIdOverride
        = inr (Some org))
  /\ (Js.truthy orgIdOverride = false ->
      Js.truthy (env_GV_ORG_ID env) = false ->
      resolveOrgId env client api_keys apiKey orgIdOverride = inr None)
  /\ (forall rt id w,
        emit_nfe rt None id w
        = (Returned (Text "Erro: orgId obrigatório"), w)
        /\ emit_nfse rt None id w
           = (Returned (Text "Erro: orgId obrigatório"), w)
        /\ get_nota_fiscal env client None id w
           = (Returned (ConsultaText "Erro: orgId obrigatório"), w)).
Proof.
  intros Hmaster Hne Hkey.
  assert (Hrun : resolveOrgId env client api_keys apiKey orgIdOverride
                 = match Js.or orgIdOverride (env_GV_ORG_ID env) with
                   | Some (String o os) => inr (Some (String o os))
                   | _ => inr None
                   end).
  { unfold resolveOrgId. rewrite Hkey, Hmaster.
    destruct master as [|c s]; [contradiction|].
    cbn [Js.truthy andb]. now rewrite String.eqb_refl. }
  rewrite Hrun. split; [|split; [|split]].
  - intros org -> Horg. destruct org; [contradiction|reflexivity].
  - intros org Hover Hgv Horg. rewrite (or_falsy _ _ Hover), Hgv.
    destruct org; [contradiction|reflexivity].
  - intros Hover Hgv. rewrite (or_falsy _ _ Hover).
    destruct (env_GV_ORG_ID env) as [[|? ?]|]; try discriminate;
      reflexivity.
  - intros rt id w. repeat split.
Qed.

(** X18. The key of a tenant ignores the override: with any key that is
    not the master key, [resolveOrgId] gives the same result, tenant or
    error, under every value of the override. *)
Theorem tenant_key_ignores_override (env : AuthEnv) (client : bool)
    (api_keys : list ApiKey) (apiKey override1 override2 : option string) :
  env_MASTER_API_KEY env <> Js.or apiKey (env_GV_API_KEY env) ->
  resolveOrgId env client api_keys apiKey override1
  = resolveOrgId env client api_keys apiKey override2.
Proof.
  intros Hne. unfold resolveOrgId.
  destruct (Js.or apiKey (env_GV_API_KEY env)) as [[|k ks]|];
    try reflexivity.
  destruct (env_MASTER_API_KEY env) as [m|]; [|reflexivity].
  destruct (String k ks =? m) eqn:E.
  - apply String.eqb_eq in E. congruence.
  - now rewrite andb_false_r.
Qed.

(** X19. A tenant is resolved from a key only through the master key or
    through exactly one active row of [api_keys] whose hash is the digest
    of the key; the tenant is then the one of that row. Without a key
    [resolveOrgId] throws, and so it does for a key that is not the
    master key and has no active row, or more than one. *)
Theorem tenant_key_is_checked (env : AuthEnv) (client : bool)
    (api_keys : list ApiKey) (apiKey orgIdOverride : option string) :
  (forall org,
     resolveOrgId env client api_keys apiKey orgIdOverride = inr (Some org) ->
     (env_MASTER_API_KEY env = Js.or apiKey (env_GV_API_KEY env)
      /\ Js.or orgIdOverride (env_GV_ORG_ID env) = Some org)
     \/ exists key row,
          Js.or apiKey (env_GV_API_KEY env) = Some key
          /\ filter (fun r => (ak_key_hash r =? env_sha256_hex env key)
                              && ak_active r) api_keys = [row]
          /\ In row api_keys
          /\ ak_active row = true
          /\ ak_key_hash row = env_sha256_hex env key
          /\ ak_organization_id row = org)
  /\ (Js.truthy (Js.or apiKey (env_GV_API_KEY env)) = false ->
      resolveOrgId env client api_keys apiKey orgIdOverride
      = inl "API key é obrigatória (GV_API_KEY ou header Authorization)")
  /\ (forall key,
        Js.or apiKey (env_GV_API_KEY env) = Some key -> key <> "" ->
        env_MASTER_API_KEY env <> Some key ->
        (forall row, filter (fun r => (ak_key_hash r =? env_sha256_hex env key)
                                      && ak_active r) api_keys <> [row]) ->
        exists message,
          resolveOrgId env client api_keys apiKey orgIdOverride
          = inl message).
Proof.
  unfold resolveOrgId. split; [|split].
  - intros org.
    destruct (Js.or apiKey (env_GV_API_KEY env)) as [[|k ks]|];
      try discriminate.
    cbv zeta.
    destruct (Js.truthy (env_MASTER_API_KEY env)
              && match env_MASTER_API_KEY env with
                 | Some m => String k ks =? m
                 | None => false
                 end) eqn:Em.
    + apply andb_true_iff in Em as [_ Em].
      destruct (env_MASTER_API_KEY env) as [m|]; [|discriminate].
      apply String.eqb_eq in Em. subst m.
      destruct (Js.or orgIdOverride (env_GV_ORG_ID env)) as [[|o os]|];
        try discriminate.
      intros [= <-]. left. split; reflexivity.
    + destruct (getSupabase env client); [discriminate|].
      destruct (single _) as [row|] eqn:Hrow; [|discriminate].
      intros [= <-]. right. exists (String k ks), row.
      assert (Hl : filter (fun r => (ak_key_hash r
                                     =? env_sha256_hex env (String k ks))
                                    && ak_active r) api_keys = [row]).
      { revert Hrow. destruct (filter _ api_keys) as [|a [|b l]];
          cbn [single]; congruence. }
      assert (Hin : In row (filter (fun r => (ak_key_hash r
                                     =? env_sha256_hex env (String k ks))
                                    && ak_active r) api_keys))
        by (rewrite Hl; now left).
      apply filter_In in Hin as [Hin Hp].
      apply andb_true_iff in Hp as [Hh Ha]. apply String.eqb_eq in Hh.
      repeat split; assumption.
  - intros Hkey.
    destruct (Js.or apiKey (env_GV_API_KEY env)) as [[|k ks]|];
      try discriminate; reflexivity.
  - intros key -> Hne Hmaster Hrows.
    destruct key as [|k ks]; [contradiction|]. cbv zeta.
    assert (Em : Js.truthy (env_MASTER_API_KEY env)
                 && match env_MASTER_API_KEY env with
                    | Some m => String k ks =? m
                    | None => false
                    end = false).
    { destruct (env_MASTER_API_KEY env) as [m|]; [|reflexivity].
      destruct (String k ks =? m) eqn:E;
        [apply String.eqb_eq in E; congruence|apply andb_false_r]. }
    rewrite Em.
    destruct (getSupabase env client); [eexists; reflexivity|].
    destruct (filter _ api_keys) as [|a [|b l]] eqn:Hl;
      cbn [single]; try (eexists; reflexivity).
    exfalso. exact (Hrows a eq_refl).
Qed.

(** ** The bearer token of a request *)

Lemma trim_start_length (s : string) :
  String.length (Js.trim_start s) <= String.length s.
Proof.
  induction s as [|c s IH]; [reflexivity|].
  cbn [Js.trim_start]. destruct (Js.is_space c); cbn [String.length]; lia.
Qed.

Lemma trim_start_idem (s : string) :
  Js.trim_start (Js.trim_start s) = Js.trim_start s.
Proof.
  induction s as [|c s IH]; [reflexivity|].
  cbn [Js.trim_start]. destruct (Js.is_space c) eqn:E; [exact IH|].
  cbn [Js.trim_start]. now rewrite E.
Qed.

Lemma trim_start_fixed (c : ascii) (s : string) :
  Js.trim_start (String c s) = String c s -> Js.is_space c = false.
Proof.
  cbn [Js.trim_start]. destruct (Js.is_space c); [|reflexivity].
  intros H. apply (f_equal String.length) in H.
  pose proof (trim_start_length s). cbn [String.length] in H. lia.
Qed.

Lemma trim_end_idem (s : string) :
  JsText.trim_end (JsText.trim_end s) = JsText.trim_end s.
Proof.
  induction s as [|c s IH]; [reflexivity|].
  cbn [JsText.trim_end].
  destruct (JsText.trim_end s) as [|d t] eqn:E.
  - destruct (Js.is_space c) eqn:Ec; [reflexivity|].
    cbn [JsText.trim_end]. now rewrite Ec.
  - change (JsText.trim_end (String c (String d t)))
      with (match JsText.trim_end (String d t) with
            | EmptyString => if Js.is_space c then EmptyString
                             else String c EmptyString
            | u => String c u
            end).
    now rewrite IH.
Qed.

Lemma trim_end_keeps_start (s : string) :
  Js.trim_start s = s -> Js.trim_start (JsText.trim_end s) = JsText.trim_end s.
Proof.
  destruct s as [|c s]; [reflexivity|].
  intros H. apply trim_start_fixed in H.
  cbn [JsText.trim_end].
  destruct (JsText.trim_end s) as [|d t].
  - rewrite H. cbn [Js.trim_start]. now rewrite H.
  - cbn [Js.trim_start]. now rewrite H.
Qed.

Lemma trim_trimmed (s : string) : trimmed (JsText.trim s).
Proof.
  unfold trimmed, JsText.trim. split.
  - apply trim_end_keeps_start, trim_start_idem.
  - apply trim_end_idem.
Qed.

(** X20. On a header in ASCII, the token [extractBearerToken] returns is
    never empty, has no white space at either end, and is what follows
    the seven characters [Bearer ] of the header, trimmed; without a
    header, or under another scheme or another case, there is none. A
    non-empty ASCII token without white space at its ends is read back
    from its header as it is. *)
Theorem bearer_token_round_trip (authorization : option string) :
  (forall auth token,
     authorization = Some auth ->
     Js.ascii_text auth = true ->
     extractBearerToken authorization = Some token ->
     token <> "" /\ trimmed token
     /\ JsText.startsWith "Bearer " auth = true
     /\ token = JsText.trim (JsText.slice 7 auth))
  /\ (forall token,
        Js.ascii_text token = true ->
        token <> "" -> trimmed token ->
        extractBearerToken (Some ("Bearer " ++ token)) = Some token)
  /\ (forall rest, extractBearerToken (Some ("bearer " ++ rest)) = None)
  /\ (forall rest, extractBearerToken (Some ("Basic " ++ rest)) = None)
  /\ extractBearerToken None = None.
Proof.
  split; [|split; [|split; [|split]]].
  - intros auth token -> _. unfold extractBearerToken.
    destruct (JsText.startsWith "Bearer " auth) eqn:E; [|discriminate].
    destruct (JsText.trim (JsText.slice 7 auth)) as [|c t] eqn:Et;
      [discriminate|].
    intros [= <-]. split; [discriminate|]. split.
    + rewrite <- Et. apply trim_trimmed.
    + split; [reflexivity|now symmetry].
  - intros token _ Hne [Hs He]. unfold extractBearerToken.
    assert (Hp : JsText.startsWith "Bearer " ("Bearer " ++ token) = true).
    { unfold JsText.startsWith. cbn [String.append String.prefix].
      repeat match goal with
             | |- context [Ascii.ascii_dec ?a ?a] =>
                 destruct (Ascii.ascii_dec a a); [|contradiction]
             end.
      destruct token; reflexivity. }
    rewrite Hp. cbn [String.append JsText.slice]. unfold JsText.trim.
    rewrite Hs, He. destruct token; [contradiction|reflexivity].
  - intros rest. reflexivity.
  - intros rest. reflexivity.
  - reflexivity.
Qed.

(** ** The further properties on the sample data *)

(** X5 on the sample tenant: after the offline attempt, an attempt with
    the gateway back changes nothing. *)
Lemma emitted_once_witness :
  snd (emit_nfe Scenario.rt_autorizado (Some Sample.org) "nf-1"
         (snd (emit_nfe Scenario.rt_offline (Some Sample.org) "nf-1"
                 Scenario.w)))
  = snd (emit_nfe Scenario.rt_offline (Some Sample.org) "nf-1" Scenario.w).
Proof.
  apply (proj1 (emitted_once Scenario.rt_offline Scenario.rt_autorizado
                  (Some Sample.org) (Some Sample.org) "nf-1" Scenario.w)).
  vm_compute. discriminate.
Defined.

(** X6 on the sample tenant, with the answer autorizado, number 123; and
    with an answer without status, which leaves the stored gateway status
    of the draft. *)
Lemma answered_submission_is_recorded_witness :
  answer_recorded Scenario.rt_autorizado "nf-1" Scenario.autorizado_123
    Scenario.w
    (snd (emit_nfe Scenario.rt_autorizado (Some Sample.org) "nf-1"
            Scenario.w))
    (fst (emit_nfe Scenario.rt_autorizado (Some Sample.org) "nf-1"
            Scenario.w))
  /\ answer_recorded Scenario.rt_autorizado "nfs-1" Scenario.autorizado_123
       Scenario.w
       (snd (emit_nfse Scenario.rt_autorizado (Some Sample.org) "nfs-1"
               Scenario.w))
       (fst (emit_nfse Scenario.rt_autorizado (Some Sample.org) "nfs-1"
               Scenario.w))
  /\ map nf_focus_nfe_status
       (stored (snd (emit_nfe Cases.rt_sem_status (Some Sample.org) "nf-1"
                       Cases.w_status_antigo)) "nf-1")
     = [Some "erro_autorizacao"].
Proof.
  split; [|split].
  - apply (proj1 (answered_submission_is_recorded Scenario.rt_autorizado
                    (Some Sample.org) "nf-1" Scenario.w Scenario.pedido_nfe
                    Scenario.autorizado_123 eq_refl)).
    vm_compute. reflexivity.
  - apply (proj2 (answered_submission_is_recorded Scenario.rt_autorizado
                    (Some Sample.org) "nfs-1" Scenario.w
                    Scenario.pedido_nfse Scenario.autorizado_123 eq_refl)).
    vm_compute. reflexivity.
  - assert (Hcalls :
      gateway_calls (snd (emit_nfe Cases.rt_sem_status (Some Sample.org)
                            "nf-1" Cases.w_status_antigo))
      = (gateway_calls Cases.w_status_antigo ++ [Scenario.pedido_nfe])%list).
    { vm_compute. reflexivity. }
    destruct (proj1 (answered_submission_is_recorded Cases.rt_sem_status
                       (Some Sample.org) "nf-1" Cases.w_status_antigo
                       Scenario.pedido_nfe Cases.sem_status eq_refl) Hcalls)
      as (_ & _ & _ & Hkept & _).
    rewrite (Hkept eq_refl eq_refl). reflexivity.
Defined.

(** X7 on the sample tenant: denegado leaves number and counter alone;
    autorizado with 123 writes 123. *)
Lemma number_only_when_authorized_witness :
  number_untouched Sample.org "nf-1" Scenario.w
    (snd (emit_nfe Scenario.rt_denegado (Some Sample.org) "nf-1"
            Scenario.w))
  /\ Forall (fun r => nf_numero r = Some 123%Z)
       (stored (snd (emit_nfse Scenario.rt_autorizado (Some Sample.org)
                       "nfs-1" Scenario.w)) "nfs-1").
Proof.
  split.
  - assert (Hcalls :
      gateway_calls (snd (emit_nfe Scenario.rt_denegado (Some Sample.org)
                            "nf-1" Scenario.w))
      = (gateway_calls Scenario.w ++ [Scenario.pedido_nfe])%list).
    { vm_compute. reflexivity. }
    destruct (proj1 (number_only_when_authorized Scenario.rt_denegado
                       Sample.org "nf-1" Scenario.w Scenario.pedido_nfe
                       Scenario.denegado eq_refl) Hcalls)
      as (_ & Hother & _).
    apply Hother. left. discriminate.
  - assert (Hcalls :
      gateway_calls (snd (emit_nfse Scenario.rt_autorizado
                            (Some Sample.org) "nfs-1" Scenario.w))
      = (gateway_calls Scenario.w ++ [Scenario.pedido_nfse])%list).
    { vm_compute. reflexivity. }
    destruct (proj2 (number_only_when_authorized Scenario.rt_autorizado
                       Sample.org "nfs-1" Scenario.w Scenario.pedido_nfse
                       Scenario.autorizado_123 eq_refl) Hcalls)
      as (Hauth & _).
    destruct (Hauth eq_refl) as [_ Hnum].
    apply (Hnum "123" eq_refl); [discriminate|reflexivity].
Defined.


(** X9 on the sample tenant: the sandbox slot wins. *)
Lemma token_priority_witness :
  resolveFocusToken Scenario.rt_offline Scenario.cfg = inr "tok-h".
Proof.
  apply (proj1 (proj2 (token_priority Scenario.rt_offline Scenario.cfg))).
  - reflexivity.
  - discriminate.
Defined.


(** X11 on the items of the first draft. *)
Lemma items_are_renumbered_witness :
  exists fi,
    nth_error (focusItens true Scenario.itens_nf1) 1 = Some fi
    /\ fi_cfop fi = "5933".
Proof.
  destruct (proj2 (proj2 (items_are_renumbered true Scenario.itens_nf1))
              1 (Sample.item "it-2" "nf-1" 2 (Some "5933")) "5933"
              eq_refl eq_refl ltac:(discriminate))
    as (fi & Hfi & Hcfop & _).
  exists fi. split; assumption.
Defined.

(** X12 on the payloads of the two drafts. *)
Lemma payload_numbers_are_digits_witness :
  all_digits "13000000"
  /\ all_digits "12345678000195"
  /\ Js.strip_non_digits "12345678000195" = "12345678000195".
Proof.
  destruct (payload_numbers_are_digits Scenario.rt_offline Scenario.cfg
              Scenario.nota_nf1 "12.345.678/0001-95" [])
    as (_ & Hsame & _ & (Hcep & Hnfe) & _).
  split; [exact Hcep|].
  assert (H : all_digits "12345678000195")
    by (apply Hnfe; left; reflexivity).
  split; [exact H|]. exact (Hsame _ H).
Defined.



(** X15 on the sample tenant: the first draft is read with its two items
    in order; and a session of the master key on a process without the
    store variables throws. *)
Lemma get_nota_fiscal_reads_own_document_witness :
  (nf_id Scenario.nota_nf1 = "nf-1"
   /\ Some Sample.org = Some (nf_organization_id Scenario.nota_nf1)
   /\ Sorted by_numero_item Scenario.itens_nf1)
  /\ fst (get_nota_fiscal Cases.env_sem_store false (Some Sample.org) "nf-1"
            Scenario.w)
     = Thrown "Variáveis SUPABASE_URL e SUPABASE_SERVICE_ROLE_KEY são obrigatórias".
Proof.
  split.
  - destruct (proj2 (proj2 (proj2 (proj2
                (get_nota_fiscal_reads_own_document Cases.env true
                   (Some Sample.org) "nf-1" Scenario.w))))
                Scenario.nota_nf1 Scenario.itens_nf1 eq_refl)
      as (_ & Hid & Horg & _ & Hsorted).
    split; [exact Hid|]. split; [exact Horg|exact Hsorted].
  - apply (proj1 (proj2 (get_nota_fiscal_reads_own_document
                           Cases.env_sem_store false (Some Sample.org)
                           "nf-1" Scenario.w))).
    split; reflexivity.
Defined.

(** X16 on the sample tenant without a region code. *)
Lemma missing_region_throws_witness :
  exists m,
    emit_nfe Scenario.rt_offline (Some Sample.org) "nf-1" Cases.w_sem_uf
    = (Thrown m, Cases.w_sem_uf).
Proof.
  apply (proj1 (missing_region_throws Scenario.rt_offline Cases.w_sem_uf
                  Sample.org "nf-1" Scenario.nota_nf1 Scenario.itens_nf1
                  Cases.cfg_sem_uf "12.345.678/0001-95" "sp"
                  (sample_ready_nfe Scenario.rt_offline Cases.cfg_sem_uf
                     eq_refl eq_refl eq_refl)
                  eq_refl)).
Defined.

(** X17 on the sample entry point: the master key with an override, and
    without any tenant. *)
Lemma master_key_session_witness :
  resolveOrgId Cases.env false Cases.api_keys (Some "master-key")
    (Some "org-0002-bbbb") = inr (Some "org-0002-bbbb")
  /\ resolveOrgId Cases.env false Cases.api_keys (Some "master-key") None
     = inr None.
Proof.
  destruct (master_key_session Cases.env false Cases.api_keys
              (Some "master-key") (Some "org-0002-bbbb") "master-key"
              eq_refl ltac:(discriminate) eq_refl) as (Hover & _).
  destruct (master_key_session Cases.env false Cases.api_keys
              (Some "master-key") None "master-key"
              eq_refl ltac:(discriminate) eq_refl) as (_ & _ & Hnone & _).
  split.
  - apply Hover; [reflexivity|discriminate].
  - apply Hnone; reflexivity.
Defined.

(** X18 on the sample entry point: the key of the first tenant with the
    id of the second as override. *)
Lemma tenant_key_ignores_override_witness :
  resolveOrgId Cases.env false Cases.api_keys (Some "key-a")
    (Some "org-0002-bbbb")
  = resolveOrgId Cases.env false Cases.api_keys (Some "key-a") None.
Proof.
  apply tenant_key_ignores_override. discriminate.
Defined.

(** X19 on the sample entry point: the revoked key is turned down. *)
Lemma tenant_key_is_checked_witness :
  exists message,
    resolveOrgId Cases.env false Cases.api_keys (Some "key-b") None
    = inl message.
Proof.
  apply (proj2 (proj2 (tenant_key_is_checked Cases.env false Cases.api_keys
                         (Some "key-b") None)) "key-b");
    try reflexivity; discriminate.
Defined.

(** X20 on the header of the first tenant's key. *)
Lemma bearer_token_round_trip_witness :
  extractBearerToken (Some "Bearer key-a") = Some "key-a"
  /\ trimmed "key-a".
Proof.
  assert (Ht : trimmed "key-a") by (split; reflexivity).
  split; [|exact Ht].
  apply (proj1 (proj2 (bearer_token_round_trip None)) "key-a");
    [reflexivity|discriminate|exact Ht].
Defined.
